(** * odh-model-controller: delta-based sub-resource reconcilers

    A shallow embedding of
      - controllers/reconcilers/kserve_authconfig_reconciler.go
      - controllers/reconcilers (KserveMetricsDashboardReconciler)
      - controllers/kserve_monitoring_controller.go
      - controllers/utils/utils.go
    Go pointers that may be nil are [option]s, Go maps are [option (gmap _ _)]
    (a nil map and an empty map are different values for reflect.DeepEqual),
    Go [error] values are [option error].  Calls on the cluster are threaded
    through an explicit world, and every call is appended to a log. *)

From stdpp Require Import base option gmap strings list.

Local Open Scope string_scope.
Set Warnings "-register-all,-clear-no-such-hyp".


(** ** Go runtime: panics and the world-passing monad *)

Inductive panic : Type :=
  | NilPointerDereference
  | IndexOutOfRange (index len : nat).

Inductive outcome (A : Type) : Type :=
  | Returned (a : A)
  | Panicked (p : panic).
Arguments Returned {A} a.
Arguments Panicked {A} p.

(** ** Go errors *)

(** metav1.StatusReason, as far as the controllers look at it. *)
Inductive StatusReason : Type :=
  | StatusReasonUnknown
  | StatusReasonNotFound
  | StatusReasonAlreadyExists
  | StatusReasonConflict
  | StatusReasonForbidden
  | StatusReasonTimeout.

(** An error value: an API status error, a plain message (errors.New), or a
    message wrapped around a cause (errors.Wrapf of github.com/pkg/errors,
    fmt.Errorf with the %w verb). *)
Inductive error : Type :=
  | StatusError (reason : StatusReason) (message : string)
  | errorString (message : string)
  | withMessage (cause : error) (message : string).

#[global] Instance StatusReason_eq_dec : EqDecision StatusReason.
Proof. solve_decision. Defined.
#[global] Instance error_eq_dec : EqDecision error.
Proof. solve_decision. Defined.

(** errors.Wrapf: nil stays nil, anything else is annotated. *)
Definition Wrapf (err : option error) (message : string) : option error :=
  match err with
  | None => None
  | Some e => Some (withMessage e message)
  end.

(** fmt.Errorf(message + " %w", err). *)
Definition Errorf (message : string) (err : error) : error :=
  withMessage err message.

(** apierrors.IsNotFound: the reason of the first API status in the chain. *)
Fixpoint ReasonForError (e : error) : StatusReason :=
  match e with
  | StatusError r _ => r
  | errorString _ => StatusReasonUnknown
  | withMessage c _ => ReasonForError c
  end.

Definition IsNotFound (err : option error) : bool :=
  match err with
  | None => false
  | Some e => bool_decide (ReasonForError e = StatusReasonNotFound)
  end.

(** ** Kubernetes objects *)

Record NamespacedName : Type := mkNamespacedName {
  nn_Namespace : string;
  nn_Name : string;
}.

#[global] Instance NamespacedName_eq_dec : EqDecision NamespacedName.
Proof. solve_decision. Defined.

(** types.NamespacedName.String *)
Definition NamespacedName_String (n : NamespacedName) : string :=
  nn_Namespace n ++ "/" ++ nn_Name n.

Record TypeMeta : Type := mkTypeMeta {
  Kind : string;
  APIVersion : string;
}.

Record OwnerReference : Type := mkOwnerReference {
  or_APIVersion : string;
  or_Kind : string;
  or_Name : string;
  or_UID : string;
  or_Controller : option bool;
  or_BlockOwnerDeletion : option bool;
}.

(** metav1.ObjectMeta.  Times are seconds since the epoch; the two slices
    are plain lists (nil and empty are not told apart, and nothing below
    depends on the difference). *)
Record ObjectMeta : Type := mkObjectMeta {
  Name : string;
  GenerateName : string;
  Namespace : string;
  UID : string;
  ResourceVersion : string;
  Generation : Z;
  CreationTimestamp : Z;
  DeletionTimestamp : option Z;
  Labels : option (gmap string string);
  Annotations : option (gmap string string);
  OwnerReferences : list OwnerReference;
  Finalizers : list string;
}.

#[global] Instance TypeMeta_eq_dec : EqDecision TypeMeta.
Proof. solve_decision. Defined.
#[global] Instance OwnerReference_eq_dec : EqDecision OwnerReference.
Proof. solve_decision. Defined.
#[global] Instance ObjectMeta_eq_dec : EqDecision ObjectMeta.
Proof. solve_decision. Defined.

(** The zero value of ObjectMeta. *)
Definition ObjectMeta_zero : ObjectMeta :=
  mkObjectMeta "" "" "" "" "" 0 0 None None None [] [].

Definition set_Name (v : string) (m : ObjectMeta) : ObjectMeta :=
  mkObjectMeta v (GenerateName m) (Namespace m) (UID m) (ResourceVersion m)
    (Generation m) (CreationTimestamp m) (DeletionTimestamp m) (Labels m)
    (Annotations m) (OwnerReferences m) (Finalizers m).

Definition set_Namespace (v : string) (m : ObjectMeta) : ObjectMeta :=
  mkObjectMeta (Name m) (GenerateName m) v (UID m) (ResourceVersion m)
    (Generation m) (CreationTimestamp m) (DeletionTimestamp m) (Labels m)
    (Annotations m) (OwnerReferences m) (Finalizers m).

Definition set_Labels (v : option (gmap string string)) (m : ObjectMeta) : ObjectMeta :=
  mkObjectMeta (Name m) (GenerateName m) (Namespace m) (UID m) (ResourceVersion m)
    (Generation m) (CreationTimestamp m) (DeletionTimestamp m) v
    (Annotations m) (OwnerReferences m) (Finalizers m).

(** Reading a Go map: a nil map has no keys. *)
Definition map_index (m : option (gmap string string)) (k : string) : option string :=
  match m with
  | None => None
  | Some m => m !! k
  end.

(** kservev1beta1.InferenceService, the fields the controllers read.
    Spec.Predictor.Model and Status.URL are pointers. *)
Record ModelSpec : Type := mkModelSpec {
  ModelFormat_Name : string;
  Runtime : option string;
}.

Record InferenceService : Type := mkInferenceService {
  isvc_ObjectMeta : ObjectMeta;
  Spec_Predictor_Model : option ModelSpec;
  Status_URL : option string;
}.

(** authorinov1beta2.AuthConfig.  The spec is its host list and the rest of
    the policy, which the controller never looks into. *)
Record AuthConfigSpec : Type := mkAuthConfigSpec {
  Hosts : list string;
  Policy : string;
}.

Record AuthConfig : Type := mkAuthConfig {
  ac_TypeMeta : TypeMeta;
  ac_ObjectMeta : ObjectMeta;
  ac_Spec : AuthConfigSpec;
  ac_Status : string;
}.

#[global] Instance AuthConfigSpec_eq_dec : EqDecision AuthConfigSpec.
Proof. solve_decision. Defined.
#[global] Instance AuthConfig_eq_dec : EqDecision AuthConfig.
Proof. solve_decision. Defined.

(** corev1.ConfigMap *)
Record ConfigMap : Type := mkConfigMap {
  cm_TypeMeta : TypeMeta;
  cm_ObjectMeta : ObjectMeta;
  cm_Immutable : option bool;
  cm_Data : option (gmap string string);
  cm_BinaryData : option (gmap string string);
}.

#[global] Instance ConfigMap_eq_dec : EqDecision ConfigMap.
Proof. solve_decision. Defined.

Definition ConfigMap_zero : ConfigMap :=
  mkConfigMap (mkTypeMeta "" "") ObjectMeta_zero None None None.

(** kservev1alpha1.ServingRuntime: the containers of its spec. *)
Record Container : Type := mkContainer {
  c_Name : string;
  c_Image : string;
}.

Record ServingRuntime : Type := mkServingRuntime {
  sr_ObjectMeta : ObjectMeta;
  sr_Spec_Containers : list Container;
}.

Definition ServingRuntime_zero : ServingRuntime :=
  mkServingRuntime ObjectMeta_zero [].

(** istio security/v1beta1 PeerAuthentication, the fields the controller
    sets.  A mutual TLS mode is its enum number. *)
Record MutualTLS : Type := mkMutualTLS {
  Mode : Z;
}.

Record WorkloadSelector : Type := mkWorkloadSelector {
  ws_MatchLabels : option (gmap string string);
}.

Record PeerAuthenticationSpec : Type := mkPeerAuthenticationSpec {
  Selector : option WorkloadSelector;
  Mtls : option MutualTLS;
  PortLevelMtls : option (gmap N (option MutualTLS));
}.

Record PeerAuthentication : Type := mkPeerAuthentication {
  pa_ObjectMeta : ObjectMeta;
  pa_Spec : PeerAuthenticationSpec;
}.

Definition PeerAuthentication_zero : PeerAuthentication :=
  mkPeerAuthentication ObjectMeta_zero (mkPeerAuthenticationSpec None None None).

(** networking/v1 NetworkPolicy, the fields the controller sets. *)
Record LabelSelector : Type := mkLabelSelector {
  ls_MatchLabels : option (gmap string string);
}.

Record NetworkPolicyPeer : Type := mkNetworkPolicyPeer {
  PodSelector : option LabelSelector;
  NamespaceSelector : option LabelSelector;
}.

Record NetworkPolicyIngressRule : Type := mkNetworkPolicyIngressRule {
  From : option (list NetworkPolicyPeer);
}.

Record NetworkPolicy : Type := mkNetworkPolicy {
  np_ObjectMeta : ObjectMeta;
  np_Spec_Ingress : option (list NetworkPolicyIngressRule);
}.

Definition NetworkPolicy_zero : NetworkPolicy := mkNetworkPolicy ObjectMeta_zero None.

Definition InferenceService_zero : InferenceService :=
  mkInferenceService ObjectMeta_zero None None.

#[global] Instance MutualTLS_eq_dec : EqDecision MutualTLS.
Proof. solve_decision. Defined.
#[global] Instance LabelSelector_eq_dec : EqDecision LabelSelector.
Proof. solve_decision. Defined.
#[global] Instance NetworkPolicyPeer_eq_dec : EqDecision NetworkPolicyPeer.
Proof. solve_decision. Defined.
#[global] Instance NetworkPolicyIngressRule_eq_dec : EqDecision NetworkPolicyIngressRule.
Proof. solve_decision. Defined.

(** ** The world: cluster state, package-level caches and the call log *)

(** resources.AuthType is a string type. *)
Definition AuthType : Type := string.

(** One entry per call that leaves the process: store and client calls,
    auxiliary lookups and file reads. *)
Inductive Call : Type :=
  | CallDetect (isvc : NamespacedName)
  | CallLoad (authType : AuthType) (key : NamespacedName)
  | CallStoreGet (key : NamespacedName)
  | CallStoreCreate (obj : AuthConfig)
  | CallStoreUpdate (obj : AuthConfig)
  | CallStoreRemove (key : NamespacedName)
  | CallGetServingRuntime (key : NamespacedName)
  | CallGetConfigMap (key : NamespacedName)
  | CallCreateConfigMap (obj : ConfigMap)
  | CallUpdateConfigMap (obj : ConfigMap)
  | CallDeleteConfigMap (obj : ConfigMap)
  | CallReadFile (path : string)
  | CallGetNamespace (key : NamespacedName)
  | CallGetInferenceService (key : NamespacedName)
  | CallGetPeerAuthentication (key : NamespacedName)
  | CallGetNetworkPolicy (key : NamespacedName)
  | CallBuildConfigFromFlags (kubeconfig : string)
  | CallCreatePeerAuthentication (ns : string) (obj : PeerAuthentication)
  | CallCreateNetworkPolicy (obj : NetworkPolicy).

(** The calls that change the store. *)
Definition is_mutation (c : Call) : bool :=
  match c with
  | CallStoreCreate _ | CallStoreUpdate _ | CallStoreRemove _
  | CallCreateConfigMap _ | CallUpdateConfigMap _ | CallDeleteConfigMap _
  | CallCreatePeerAuthentication _ _ | CallCreateNetworkPolicy _ => true
  | _ => false
  end.

Definition mutations (l : list Call) : list Call := filter (λ c, is_mutation c = true) l.

(** [cluster] is the state of everything outside the process (object store,
    files); [ovmsData], [tgisData] and [vllmData] are the package variables
    of the reconcilers package; [calls] is the log, oldest call first. *)
Record World (C : Type) : Type := mkWorld {
  cluster : C;
  calls : list Call;
  ovmsData : option string;
  tgisData : option string;
  vllmData : option string;
}.
Arguments mkWorld {C}.
Arguments cluster {C}.
Arguments calls {C}.
Arguments ovmsData {C}.
Arguments tgisData {C}.
Arguments vllmData {C}.

Definition M (C A : Type) : Type := World C → outcome A * World C.

#[global] Instance M_ret {C} : MRet (M C) :=
  λ A a w, (Returned a, w).

#[global] Instance M_bind {C} : MBind (M C) :=
  λ A B f m w,
    match m w with
    | (Returned a, w') => f a w'
    | (Panicked p, w') => (Panicked p, w')
    end.

Definition go_panic {C A} (p : panic) : M C A := λ w, (Panicked p, w).

(** ptr != nil and ptr == nil *)
Definition not_nil {A} (ptr : option A) : bool :=
  match ptr with Some _ => true | None => false end.
Definition is_nil {A} (ptr : option A) : bool := negb (not_nil ptr).

(** Reading through a pointer. *)
Definition deref {C A} (ptr : option A) : M C A :=
  match ptr with
  | Some a => mret a
  | None => go_panic NilPointerDereference
  end.

(** Indexing a slice. *)
Definition index {C A} (l : list A) (i : nat) : M C A :=
  match l !! i with
  | Some a => mret a
  | None => go_panic (IndexOutOfRange i (length l))
  end.

Definition log_call {C} (c : Call) (w : World C) : World C :=
  mkWorld (cluster w) (calls w ++ [c]) (ovmsData w) (tgisData w) (vllmData w).

Definition set_cluster {C} (c : C) (w : World C) : World C :=
  mkWorld c (calls w) (ovmsData w) (tgisData w) (vllmData w).

(** A call that only reads the cluster. *)
Definition read_call {C A} (c : Call) (f : C → A) : M C A :=
  λ w, (Returned (f (cluster w)), log_call c w).

(** A call that may change the cluster. *)
Definition write_call {C A} (c : Call) (f : C → C * A) : M C A :=
  λ w, let '(c', a) := f (cluster w) in (Returned a, log_call c (set_cluster c' w)).

(** Code without calls that may still panic runs in [outcome]. *)
#[global] Instance outcome_ret : MRet outcome := λ A a, Returned a.
#[global] Instance outcome_bind : MBind outcome :=
  λ A B f m, match m with Returned a => f a | Panicked p => Panicked p end.

Definition pure_deref {A} (ptr : option A) : outcome A :=
  match ptr with
  | Some a => Returned a
  | None => Panicked NilPointerDereference
  end.

Definition lift {C A} (o : outcome A) : M C A := λ w, (o, w).

(** ** Collaborators *)

Module resources.

(** Modelled from the spec: the resources package (AuthTypeDetector,
    AuthConfigTemplateLoader, InferenceServiceHostExtractor, AuthConfigStore)
    is not among the sources.  Following §6, a lookup yields either a value
    or an error, and [Get] yields either the stored resource or an error
    (not-found being one of them), never both. *)
Record AuthTypeDetector (C : Type) : Type := {
  Detect : C → InferenceService → AuthType + error;
}.
Arguments Detect {C}.

Record AuthConfigTemplateLoader (C : Type) : Type := {
  Load : C → AuthType → NamespacedName → AuthConfig + error;
}.
Arguments Load {C}.

Record InferenceServiceHostExtractor : Type := {
  Extract : InferenceService → list string;
}.

Record AuthConfigStore (C : Type) : Type := {
  Get : C → NamespacedName → AuthConfig + error;
  Create : C → AuthConfig → C * option error;
  Update : C → AuthConfig → C * option error;
  Remove : C → NamespacedName → C * option error;
}.
Arguments Get {C}.
Arguments Create {C}.
Arguments Update {C}.
Arguments Remove {C}.

End resources.

(** sigs.k8s.io/controller-runtime client.Client, for the two kinds the
    metrics dashboard reconciler touches.  Get(ctx, key, obj) writes into
    [obj]: the model takes the object passed in and gives back the object
    after the call together with the error. *)
Record Client (C : Type) : Type := {
  client_GetServingRuntime : C → NamespacedName → ServingRuntime → ServingRuntime * option error;
  client_GetConfigMap : C → NamespacedName → ConfigMap → ConfigMap * option error;
  client_Create : C → ConfigMap → C * option error;
  client_Update : C → ConfigMap → C * option error;
  client_Delete : C → ConfigMap → C * option error;
}.
Arguments client_GetServingRuntime {C}.
Arguments client_GetConfigMap {C}.
Arguments client_Create {C}.
Arguments client_Update {C}.
Arguments client_Delete {C}.

(** What the monitoring controller calls: client.Client for the kinds it
    reads and creates, and the istio clientset it builds from the kubeconfig
    (clientcmd.BuildConfigFromFlags, istioclient.NewForConfig, of which only
    the errors matter here, and PeerAuthentications(ns).Create). *)
Record MonitoringClient (C : Type) : Type := {
  client_GetNamespace : C → NamespacedName → option error;
  client_GetInferenceService : C → NamespacedName → InferenceService → InferenceService * option error;
  client_GetPeerAuthentication : C → NamespacedName → PeerAuthentication → PeerAuthentication * option error;
  client_GetNetworkPolicy : C → NamespacedName → NetworkPolicy → NetworkPolicy * option error;
  client_CreateNetworkPolicy : C → NetworkPolicy → C * option error;
  clientcmd_BuildConfigFromFlags : C → string → string → option error;
  istioclient_NewForConfig : C → option error;
  istio_CreatePeerAuthentication : C → string → PeerAuthentication → C * option error;
}.
Arguments client_GetNamespace {C}.
Arguments client_GetInferenceService {C}.
Arguments client_GetPeerAuthentication {C}.
Arguments client_GetNetworkPolicy {C}.
Arguments client_CreateNetworkPolicy {C}.
Arguments clientcmd_BuildConfigFromFlags {C}.
Arguments istioclient_NewForConfig {C}.
Arguments istio_CreatePeerAuthentication {C}.

(** ctrl.SetControllerReference(owner, object, scheme): the metadata of the
    object after the call, and the error. *)
Class ControllerRuntime : Type := {
  SetControllerReference : InferenceService → ObjectMeta → ObjectMeta * option error;
}.

(** The comparators package is not among the sources: one equality
    predicate per owned kind, called as comparator(desired, existing). *)
Class Comparators : Type := {
  GetAuthConfigComparator : AuthConfig → AuthConfig → bool;
  GetConfigMapComparator : ConfigMap → ConfigMap → bool;
}.

(** ** processors: the delta processor *)

Module processors.

(** Modelled from the spec: the processors package (DeltaProcessor and its
    ResourceDelta) is not among the sources.  §3: a Delta is a
    classification none / add / update / remove with accessors. *)
Inductive Delta : Type :=
  | DeltaNoChange
  | DeltaAdd
  | DeltaUpdate
  | DeltaRemove.

Definition HasChanges (d : Delta) : bool :=
  match d with DeltaNoChange => false | _ => true end.
Definition IsAdded (d : Delta) : bool :=
  match d with DeltaAdd => true | _ => false end.
Definition IsUpdated (d : Delta) : bool :=
  match d with DeltaUpdate => true | _ => false end.
Definition IsRemoved (d : Delta) : bool :=
  match d with DeltaRemove => true | _ => false end.

(** Modelled from the spec: ComputeDelta, the case table of §4.2.  The
    comparator is only called when both sides are present (§4.1). *)
Definition ComputeDelta {R : Type} (comparator : R → R → bool)
    (desired existing : option R) : Delta :=
  match desired, existing with
  | None, None => DeltaNoChange
  | Some _, None => DeltaAdd
  | None, Some _ => DeltaRemove
  | Some d, Some e => if comparator d e then DeltaNoChange else DeltaUpdate
  end.

End processors.

(** ** reconcilers: KserveAuthConfigReconciler *)

Definition set_ac_ObjectMeta (v : ObjectMeta) (a : AuthConfig) : AuthConfig :=
  mkAuthConfig (ac_TypeMeta a) v (ac_Spec a) (ac_Status a).

Definition set_ac_Spec (v : AuthConfigSpec) (a : AuthConfig) : AuthConfig :=
  mkAuthConfig (ac_TypeMeta a) (ac_ObjectMeta a) v (ac_Status a).

Definition set_Hosts (v : list string) (s : AuthConfigSpec) : AuthConfigSpec :=
  mkAuthConfigSpec v (Policy s).

(** The generated DeepCopy methods return nil on a nil receiver and an equal
    value otherwise. *)
Definition DeepCopy {A : Type} (ptr : option A) : option A := ptr.

Module AuthConfigReconciler.
Import processors.

(** The struct; its deltaProcessor field always holds
    processors.NewDeltaProcessor(), its scheme is the one
    [SetControllerReference] works with, and its client field is not used by
    the methods below. *)
Record KserveAuthConfigReconciler (C : Type) : Type := {
  detector : resources.AuthTypeDetector C;
  store : resources.AuthConfigStore C;
  templateLoader : resources.AuthConfigTemplateLoader C;
  hostExtractor : resources.InferenceServiceHostExtractor;
}.
Arguments detector {C}.
Arguments store {C}.
Arguments templateLoader {C}.
Arguments hostExtractor {C}.

Section methods.
Context {C : Type} `{!ControllerRuntime} `{!Comparators}.
Implicit Types (r : KserveAuthConfigReconciler C) (isvc : InferenceService).

Definition createDesiredResource r isvc : M C (option AuthConfig * option error) :=
  let typeName := mkNamespacedName (Namespace (isvc_ObjectMeta isvc)) (Name (isvc_ObjectMeta isvc)) in
  detected ← read_call (CallDetect typeName) (λ c, resources.Detect (detector r) c isvc);
  match detected with
  | inr err =>
      mret (None, Wrapf (Some err)
        ("could not detect AuthType for InferenceService " ++ NamespacedName_String typeName))
  | inl authType =>
      loaded ← read_call (CallLoad authType typeName)
                 (λ c, resources.Load (templateLoader r) c authType typeName);
      match loaded with
      | inr err =>
          mret (None, Wrapf (Some err)
            ("could not load template for AuthType " ++ authType ++
             " for InferenceService " ++ NamespacedName_String typeName))
      | inl template =>
          let template := set_ac_ObjectMeta (set_Name (nn_Name typeName) (ac_ObjectMeta template)) template in
          let template := set_ac_ObjectMeta (set_Namespace (nn_Namespace typeName) (ac_ObjectMeta template)) template in
          let template := set_ac_Spec (set_Hosts (resources.Extract (hostExtractor r) isvc) (ac_Spec template)) template in
          let labels := default ∅ (Labels (ac_ObjectMeta template)) in
          let labels := <["security.opendatahub.io/authorization-group" := "default"]> labels in
          let template := set_ac_ObjectMeta (set_Labels (Some labels) (ac_ObjectMeta template)) template in
          (* the error of SetControllerReference is dropped *)
          let template := set_ac_ObjectMeta (SetControllerReference isvc (ac_ObjectMeta template)).1 template in
          mret (Some template, None)
      end
  end.

Definition getExistingResource r isvc : M C (option AuthConfig * option error) :=
  let typeName := mkNamespacedName (Namespace (isvc_ObjectMeta isvc)) (Name (isvc_ObjectMeta isvc)) in
  got ← read_call (CallStoreGet typeName) (λ c, resources.Get (store r) c typeName);
  match got with
  | inl existing => mret (Some existing, None)
  | inr err => mret (None, Some err)
  end.

Definition processDelta r (desiredState existingState : option AuthConfig) : M C (option error) :=
  let comparator := GetAuthConfigComparator in
  let delta := ComputeDelta comparator desiredState existingState in
  if negb (HasChanges delta) then mret None
  else if IsAdded delta then
    d ← deref desiredState;
    err ← write_call (CallStoreCreate d) (λ c, resources.Create (store r) c d);
    mret (Wrapf err ("could not store AuthConfig " ++ Name (ac_ObjectMeta d) ++
                     " for InferenceService " ++ Name (ac_ObjectMeta d)))
  else if IsUpdated delta then
    d ← deref desiredState;
    rp ← deref (DeepCopy existingState);
    let rp := set_ac_Spec (ac_Spec d) rp in
    let rp := set_ac_ObjectMeta (set_Labels (Labels (ac_ObjectMeta d)) (ac_ObjectMeta rp)) rp in
    err ← write_call (CallStoreUpdate rp) (λ c, resources.Update (store r) c rp);
    mret (Wrapf err ("could not store AuthConfig " ++ Name (ac_ObjectMeta d) ++
                     " for InferenceService " ++ Name (ac_ObjectMeta d)))
  else if IsRemoved delta then
    e ← deref existingState;
    let key := mkNamespacedName (Namespace (ac_ObjectMeta e)) (Name (ac_ObjectMeta e)) in
    err ← write_call (CallStoreRemove key) (λ c, resources.Remove (store r) c key);
    mret (Wrapf err ("could not remove AuthConfig " ++ Name (ac_ObjectMeta e) ++
                     " for InferenceService " ++ Name (ac_ObjectMeta e)))
  else mret None.

Definition Reconcile r isvc : M C (option error) :=
  if is_nil (Status_URL isvc) then mret None
  else
    '(desiredState, err) ← createDesiredResource r isvc;
    if not_nil err then mret err
    else
      '(existingState, err) ← getExistingResource r isvc;
      if not_nil err && negb (IsNotFound err) then mret err
      else
        err ← processDelta r desiredState existingState;
        if not_nil err then mret err
        else mret None.

Definition Remove r isvc : M C (option error) :=
  let typeName := mkNamespacedName (Namespace (isvc_ObjectMeta isvc)) (Name (isvc_ObjectMeta isvc)) in
  write_call (CallStoreRemove typeName) (λ c, resources.Remove (store r) c typeName).

End methods.
End AuthConfigReconciler.

(** ** reconcilers: KserveMetricsDashboardReconciler *)

(** What encoding/json stores into an interface{}: nil, bool, float64 (kept
    as its bit pattern), string, []interface{} and map[string]interface{}. *)
Inductive JsonValue : Type :=
  | JsonNull
  | JsonBool (b : bool)
  | JsonNumber (float64 : Z)
  | JsonString (s : string)
  | JsonArray (l : list JsonValue)
  | JsonObject (m : list (string * JsonValue)).

(** The Go standard library functions the code calls, and the runtime-name
    constants of the constants package (Tgis, Ovms, Vllm), which are not
    among the sources.  [os_ReadFile] gives the data and the error of the
    call; [os_Getenv] reads the environment, which is part of the cluster
    state; [strings_Replace s old new] is strings.Replace(s, old, new, -1);
    [json_Unmarshal_dashboard] is the error of decoding into a
    MetricsDashboardConfigMapData; [json_Unmarshal_map] is the
    map[string]interface{} after decoding into it (nil for the JSON null)
    and the error; [regexp_FindStringSubmatch] takes the pattern first. *)
Class GoLibrary (C : Type) : Type := {
  os_ReadFile : C → string → option string * option error;
  os_Getenv : C → string → string;
  strings_TrimSpace : string → string;
  strings_Replace : string → string → string → string;
  json_Unmarshal_dashboard : string → option error;
  json_Unmarshal_map : string → option (gmap string JsonValue) * option error;
  regexp_FindStringSubmatch : string → string → list string;
  Tgis : string;
  Ovms : string;
  Vllm : string;
}.

Definition set_ovmsData {C} (v : option string) : M C unit :=
  λ w, (Returned (), mkWorld (cluster w) (calls w) v (tgisData w) (vllmData w)).
Definition set_tgisData {C} (v : option string) : M C unit :=
  λ w, (Returned (), mkWorld (cluster w) (calls w) (ovmsData w) v (vllmData w)).
Definition set_vllmData {C} (v : option string) : M C unit :=
  λ w, (Returned (), mkWorld (cluster w) (calls w) (ovmsData w) (tgisData w) v).
Definition get_global {C A} (f : World C → A) : M C A :=
  λ w, (Returned (f w), w).

Module MetricsDashboardReconciler.
Import processors.

Record KserveMetricsDashboardReconciler (C : Type) : Type := {
  client : Client C;
}.
Arguments client {C}.

Section methods.
Context {C : Type} `{!ControllerRuntime} `{!Comparators} `{!GoLibrary C}.
Implicit Types (r : KserveMetricsDashboardReconciler C) (isvc : InferenceService).

Definition extractImageName (image : string) : string :=
  let matches := regexp_FindStringSubmatch ".*/(.+?)(:|@).*" image in
  if decide (1 < length matches) then default "" (matches !! 1) else "".

Definition substituteVariablesInQueries (data : option string) (namespace name : string) : string :=
  let stringData := default "" data in
  let stringDatawithNS := strings_Replace stringData "${namespace}" namespace in
  let stringDataComplete := strings_Replace stringDatawithNS "${model_name}" name in
  stringDataComplete.

(** One arm of the switch: fill the package variable from the file when it
    is still nil, then use it. *)
Definition cachedTemplate (cached : World C → option string)
    (store : option string → M C unit) (path : string) : M C (option string) :=
  current ← get_global cached;
  (if is_nil current then
     '(data, err) ← read_call (CallReadFile path) (λ c, os_ReadFile c path);
     store data
   else mret ());;
  get_global cached.

Definition createDesiredResource r isvc : M C (option ConfigMap * option error) :=
  model ← deref (Spec_Predictor_Model isvc);
  let isvcRuntime := Runtime model in
  let runtime := ServingRuntime_zero in
  runtimeName ← deref isvcRuntime;
  let key := mkNamespacedName (Namespace (isvc_ObjectMeta isvc)) runtimeName in
  (* a failed Get is logged and the method goes on *)
  '(runtime, err) ← read_call (CallGetServingRuntime key)
                      (λ c, client_GetServingRuntime (client r) c key runtime);
  container ← index (sr_Spec_Containers runtime) 0;
  let runtimeImage := c_Image container in
  let runtimeImageName := extractImageName runtimeImage in
  templatedData ←
    (if decide (runtimeImageName = Tgis) then cachedTemplate tgisData set_tgisData "tgis-metrics.json"
     else if decide (runtimeImageName = Ovms) then cachedTemplate ovmsData set_ovmsData "ovms-metrics.json"
     else if decide (runtimeImageName = Vllm) then cachedTemplate vllmData set_vllmData "vllm-metrics.json"
     else mret None);
  let data := substituteVariablesInQueries templatedData
                (Namespace (isvc_ObjectMeta isvc)) (Name (isvc_ObjectMeta isvc)) in
  (* the error of json.Unmarshal is logged, its result is not used *)
  let err := json_Unmarshal_dashboard data in
  let configMap :=
    mkConfigMap (mkTypeMeta "" "")
      (set_Namespace (Namespace (isvc_ObjectMeta isvc))
         (set_Name (Name (isvc_ObjectMeta isvc) ++ "-metrics-dashboard") ObjectMeta_zero))
      None (Some {["Data" := data]}) None in
  let '(meta, err) := SetControllerReference isvc (cm_ObjectMeta configMap) in
  if not_nil err then mret (None, err)
  else
    mret (Some (mkConfigMap (cm_TypeMeta configMap) meta (cm_Immutable configMap)
                  (cm_Data configMap) (cm_BinaryData configMap)), None).

Definition getExistingResource r isvc : M C (option ConfigMap * option error) :=
  let configMap := ConfigMap_zero in
  let key := mkNamespacedName (Namespace (isvc_ObjectMeta isvc))
               (Name (isvc_ObjectMeta isvc) ++ "-metrics-dashboard") in
  '(configMap, err) ← read_call (CallGetConfigMap key)
                        (λ c, client_GetConfigMap (client r) c key configMap);
  if not_nil err then
    if IsNotFound err then mret (None, None)
    else mret (None, err)
  else mret (Some configMap, None).

Definition processDelta r (desiredResource existingResource : option ConfigMap) : M C (option error) :=
  let comparator := GetConfigMapComparator in
  let delta := ComputeDelta comparator desiredResource existingResource in
  if negb (HasChanges delta) then mret None
  else
    err ← (if IsAdded delta then
             d ← deref desiredResource;
             write_call (CallCreateConfigMap d) (λ c, client_Create (client r) c d)
           else mret None);
    if not_nil err then mret err
    else
      err ← (if IsUpdated delta then
               e ← deref existingResource;
               rp ← deref (DeepCopy existingResource);
               d ← deref desiredResource;
               let rp := mkConfigMap (cm_TypeMeta rp)
                           (set_Labels (Labels (cm_ObjectMeta d)) (cm_ObjectMeta rp))
                           (cm_Immutable rp) (cm_Data rp) (cm_BinaryData rp) in
               let rp := mkConfigMap (cm_TypeMeta rp) (cm_ObjectMeta rp)
                           (cm_Immutable rp) (cm_Data d) (cm_BinaryData rp) in
               write_call (CallUpdateConfigMap rp) (λ c, client_Update (client r) c rp)
             else mret None);
      if not_nil err then mret err
      else
        err ← (if IsRemoved delta then
                 e ← deref existingResource;
                 write_call (CallDeleteConfigMap e) (λ c, client_Delete (client r) c e)
               else mret None);
        if not_nil err then mret err
        else mret None.

Definition Reconcile r isvc : M C (option error) :=
  '(desiredResource, err) ← createDesiredResource r isvc;
  if not_nil err then mret err
  else
    '(existingResource, err) ← getExistingResource r isvc;
    if not_nil err then mret err
    else
      err ← processDelta r desiredResource existingResource;
      if not_nil err then mret err
      else mret None.

End methods.
End MetricsDashboardReconciler.

(** ** utils *)

Module utils.

Definition IsvcDeploymentMode : Type := string.

Definition Serverless : IsvcDeploymentMode := "Serverless".
Definition RawDeployment : IsvcDeploymentMode := "RawDeployment".
Definition ModelMesh : IsvcDeploymentMode := "ModelMesh".

Definition inferenceServiceDeploymentModeAnnotation : string := "serving.kserve.io/deploymentMode".
Definition KserveConfigMapName : string := "inferenceservice-config".

(** An interface{} value in this package: a dynamic type with its value.
    The dynamic types are the ones encoding/json produces, and the named
    string type IsvcDeploymentMode. *)
Inductive any : Type :=
  | any_nil
  | any_bool (b : bool)
  | any_float64 (bits : Z)
  | any_string (s : string)
  | any_slice (l : list JsonValue)
  | any_map (m : list (string * JsonValue))
  | any_IsvcDeploymentMode (m : IsvcDeploymentMode).

Definition any_of_json (v : JsonValue) : any :=
  match v with
  | JsonNull => any_nil
  | JsonBool b => any_bool b
  | JsonNumber x => any_float64 x
  | JsonString s => any_string s
  | JsonArray l => any_slice l
  | JsonObject m => any_map m
  end.

(** x == t for an interface value x and a value t of the non-interface type
    IsvcDeploymentMode: true when the dynamic type of x is identical to
    IsvcDeploymentMode and its value is t. *)
Definition any_eq_IsvcDeploymentMode (x : any) (t : IsvcDeploymentMode) : bool :=
  match x with
  | any_IsvcDeploymentMode m => bool_decide (m = t)
  | _ => false
  end.

(** deployData[key] on a map[string]interface{}: the zero value (nil) when
    the map is nil or has no such key. *)
Definition deployData_index (m : option (gmap string JsonValue)) (k : string) : any :=
  match m with
  | None => any_nil
  | Some m => match m !! k with Some v => any_of_json v | None => any_nil end
  end.

Section functions.
Context {C : Type} `{!GoLibrary C}.

Definition IsDeploymentModeForIsvcModelMesh (isvc : InferenceService) : bool :=
  match map_index (Annotations (isvc_ObjectMeta isvc)) inferenceServiceDeploymentModeAnnotation with
  | Some value => bool_decide (value = ModelMesh)
  | None => false
  end.

Definition GetOperatorNamespace : M C (string * option error) :=
  '(data, err) ← read_call (CallReadFile "/var/run/secrets/kubernetes.io/serviceaccount/namespace")
                   (λ c, os_ReadFile c "/var/run/secrets/kubernetes.io/serviceaccount/namespace");
  let ns := strings_TrimSpace (default "" data) in
  if is_nil err && bool_decide (0 < String.length ns)%nat then mret (ns, None)
  else mret ("", err).

Definition GetDeploymentModeForIsvc (cli : Client C) (isvc : InferenceService)
    : M C (IsvcDeploymentMode * option error) :=
  match map_index (Annotations (isvc_ObjectMeta isvc)) inferenceServiceDeploymentModeAnnotation with
  | Some value =>
      if decide (value = ModelMesh) then mret (ModelMesh, None)
      else if decide (value = Serverless) then mret (Serverless, None)
      else if decide (value = RawDeployment) then mret (RawDeployment, None)
      else mret ("", None)
  | None =>
      '(controllerNs, err) ← GetOperatorNamespace;
      if not_nil err then
        mret ("", Errorf "cannot determine controller namespace to retrive inferenceservice-config." <$> err)
      else
        let inferenceServiceConfigMap := ConfigMap_zero in
        let key := mkNamespacedName controllerNs KserveConfigMapName in
        '(inferenceServiceConfigMap, err) ←
          read_call (CallGetConfigMap key)
            (λ c, client_GetConfigMap cli c key inferenceServiceConfigMap);
        if not_nil err then
          mret ("", Errorf "error getting configmap 'inferenceservice-config'." <$> err)
        else
          let '(deployData, err) :=
            json_Unmarshal_map (default "" (map_index (cm_Data inferenceServiceConfigMap) "deploy")) in
          if not_nil err then
            mret ("", Errorf ("error retrieving value for key 'deploy' from configmap " ++
                              KserveConfigMapName ++ ".") <$> err)
          else
            let defaultDeploymentMode := deployData_index deployData "defaultDeploymentMode" in
            if any_eq_IsvcDeploymentMode defaultDeploymentMode Serverless then mret (Serverless, None)
            else mret (RawDeployment, None)
  end.

End functions.
End utils.

(** ** controllers: the monitoring controller *)

Module reflect.

(** The arguments the controller hands to reflect.DeepEqual, each an
    interface{} with its dynamic type. *)
Inductive Value : Type :=
  | ObjectMetaValue (v : ObjectMeta)
  | MapStringString (v : option (gmap string string))
  | MapUint32MutualTLS (v : option (gmap N (option MutualTLS)))
  | IngressRules (v : option (list NetworkPolicyIngressRule)).

(** reflect.DeepEqual: values of distinct types are never deeply equal;
    values of one type are compared field by field, key by key and element
    by element, a nil map or slice being different from an empty one. *)
Definition DeepEqual (x y : Value) : bool :=
  match x, y with
  | ObjectMetaValue a, ObjectMetaValue b => bool_decide (a = b)
  | MapStringString a, MapStringString b => bool_decide (a = b)
  | MapUint32MutualTLS a, MapUint32MutualTLS b => bool_decide (a = b)
  | IngressRules a, IngressRules b => bool_decide (a = b)
  | _, _ => false
  end.

End reflect.

Module MonitoringReconciler.
Import reflect.

Definition ServiceMeshLabelKey : string := "opendatahub.io/service-mesh".
Definition peerAuthenticationName : string := "kserve-metrics".
Definition networkPolicyName : string := "allow-from-openshift-monitoring-ns".
Definition userWorkloadMonitoringNS : string := "openshift-user-workload-monitoring".

Definition monitoringThisNameSpace (ns : string) (annotations : option (gmap string string)) : bool :=
  match map_index annotations "opendatahub.io/service-mesh" with
  | Some enabled => if decide (enabled ≠ "enabled") then false else true
  | None => false
  end.

Definition buildDesiredPeerAuth (supportedFormat ns isvcName : string) : PeerAuthentication :=
  let desiredPeerAuth :=
    mkPeerAuthentication
      (set_Labels (Some {["opendatahub.io/managed" := "true"]})
         (set_Namespace ns (set_Name (supportedFormat ++ "-metrics") ObjectMeta_zero)))
      (mkPeerAuthenticationSpec
         (Some (mkWorkloadSelector
                  (Some {["serving.knative.dev/service" := isvcName ++ "predictor-default"]})))
         (Some (mkMutualTLS 3))
         None) in
  if decide (supportedFormat = "caikit") then
    mkPeerAuthentication (pa_ObjectMeta desiredPeerAuth)
      (mkPeerAuthenticationSpec (Selector (pa_Spec desiredPeerAuth)) (Mtls (pa_Spec desiredPeerAuth))
         (Some {[8086%N := Some (mkMutualTLS 2)]}))
  else desiredPeerAuth.

(** The first operand compares the metadata of the desired object with the
    labels of the same object; [&&] evaluates the second operand only when
    the first is true. *)
Definition arePeerAuthsEqual (desiredPeerAuth foundPeerAuth : option PeerAuthentication) : outcome bool :=
  desired ← pure_deref desiredPeerAuth;
  if DeepEqual (ObjectMetaValue (pa_ObjectMeta desired))
               (MapStringString (Labels (pa_ObjectMeta desired)))
  then
    found ← pure_deref foundPeerAuth;
    mret (DeepEqual (MapUint32MutualTLS (PortLevelMtls (pa_Spec desired)))
                    (MapUint32MutualTLS (PortLevelMtls (pa_Spec found))))
  else mret false.

Definition areNetworkPoliciesEqual (networkPolicy desiredNetWorkPolicy : option NetworkPolicy) : outcome bool :=
  found ← pure_deref networkPolicy;
  desired ← pure_deref desiredNetWorkPolicy;
  if DeepEqual (ObjectMetaValue (np_ObjectMeta found))
               (MapStringString (Labels (np_ObjectMeta desired)))
  then
    mret (DeepEqual (IngressRules (np_Spec_Ingress found))
                    (IngressRules (np_Spec_Ingress desired)))
  else mret false.

(** The NetworkPolicy that reconcileNetWorkPolicy builds for a namespace. *)
Definition desiredNetworkPolicy (ns : string) : NetworkPolicy :=
  mkNetworkPolicy
    (set_Namespace ns (set_Name networkPolicyName ObjectMeta_zero))
    (Some [mkNetworkPolicyIngressRule
             (Some [mkNetworkPolicyPeer None
                      (Some (mkLabelSelector (Some {["name" := userWorkloadMonitoringNS]})))])]).

(** The struct: the embedded client.Client (with the istio clientset that
    createPeerAuth builds); Scheme and Log are not modelled. *)
Record KserveMonitoringReconciler (C : Type) : Type := {
  Client : MonitoringClient C;
}.
Arguments Client {C}.

Section methods.
Context {C : Type} `{!GoLibrary C}.
Implicit Types (r : KserveMonitoringReconciler C) (req : NamespacedName).
Implicit Types (inferenceService : InferenceService).

Definition foundPeerAuth r (supportedFormat ns : string)
    : M C (bool * option PeerAuthentication * option error) :=
  let peerAuth := PeerAuthentication_zero in
  let namespacedName := mkNamespacedName ns (supportedFormat ++ "-metrics") in
  '(peerAuth, err) ← read_call (CallGetPeerAuthentication namespacedName)
                       (λ c, client_GetPeerAuthentication (Client r) c namespacedName peerAuth);
  if IsNotFound err then mret (false, None, None)
  else if not_nil err then mret (false, None, err)
  else mret (true, Some peerAuth, None).

Definition createPeerAuth r (desiredPeerAuth : PeerAuthentication) (ns : string)
    : M C (option error) :=
  kubeconfig ← get_global (λ w, os_Getenv (cluster w) "KUBECONFIG");
  err ← read_call (CallBuildConfigFromFlags kubeconfig)
          (λ c, clientcmd_BuildConfigFromFlags (Client r) c "" kubeconfig);
  if not_nil err then mret err
  else
    err ← get_global (λ w, istioclient_NewForConfig (Client r) (cluster w));
    if not_nil err then mret err
    else
      err ← write_call (CallCreatePeerAuthentication ns desiredPeerAuth)
              (λ c, istio_CreatePeerAuthentication (Client r) c ns desiredPeerAuth);
      if not_nil err then mret err
      else mret None.

(** The error of createPeerAuth is assigned to err and not looked at: the
    method ends with [return nil]. *)
Definition reconcilePeerAuthentication r req inferenceService : M C (option error) :=
  model ← deref (Spec_Predictor_Model inferenceService);
  let supportedFormat := ModelFormat_Name model in
  if decide (supportedFormat = "caikit") then
    let desiredPeerAuth :=
      buildDesiredPeerAuth "caikit" (nn_Namespace req) (Name (isvc_ObjectMeta inferenceService)) in
    '(peerAuthExists, foundPeerAuth, err) ← foundPeerAuth r "caikit" (nn_Namespace req);
    if not_nil err then mret err
    else
      (if negb peerAuthExists then
         equal ← lift (arePeerAuthsEqual (Some desiredPeerAuth) foundPeerAuth);
         if negb equal then
           err ← createPeerAuth r desiredPeerAuth (nn_Namespace req);
           mret ()
         else mret ()
       else mret ());;
      mret None
  else mret None.

(** foundNetWorkPolicy starts false and both branches after the Get assign
    false to it. *)
Definition reconcileNetWorkPolicy r req inferenceService : M C (option error) :=
  let foundNetWorkPolicy := false in
  let networkPolicy := NetworkPolicy_zero in
  let namespacednetworkPolicy := mkNamespacedName (nn_Namespace req) networkPolicyName in
  '(networkPolicy, err) ← read_call (CallGetNetworkPolicy namespacednetworkPolicy)
                            (λ c, client_GetNetworkPolicy (Client r) c namespacednetworkPolicy
                                    networkPolicy);
  let foundNetWorkPolicy :=
    if IsNotFound err then false
    else if not_nil err then false
    else foundNetWorkPolicy in
  let desiredNetWorkPolicy := desiredNetworkPolicy (nn_Namespace req) in
  if negb foundNetWorkPolicy then
    equal ← lift (areNetworkPoliciesEqual (Some networkPolicy) (Some desiredNetWorkPolicy));
    if negb equal then
      err ← write_call (CallCreateNetworkPolicy desiredNetWorkPolicy)
              (λ c, client_CreateNetworkPolicy (Client r) c desiredNetWorkPolicy);
      if not_nil err then mret err
      else mret None
    else mret None
  else mret None.

(** Reconcile returns (ctrl.Result{}, err); the result is always empty. *)
Definition Reconcile r req : M C (option error) :=
  let namespacedName := mkNamespacedName "" (nn_Namespace req) in
  err ← read_call (CallGetNamespace namespacedName)
          (λ c, client_GetNamespace (Client r) c namespacedName);
  if not_nil err then mret err
  else
    let inferenceService := InferenceService_zero in
    '(inferenceService, err) ← read_call (CallGetInferenceService req)
                                 (λ c, client_GetInferenceService (Client r) c req inferenceService);
    if IsNotFound err then mret err
    else if not_nil err then mret err
    else
      err ← reconcilePeerAuthentication r req inferenceService;
      if not_nil err then mret err
      else
        err ← reconcileNetWorkPolicy r req inferenceService;
        if not_nil err then mret err
        else mret None.

End methods.
End MonitoringReconciler.

(** ** Vocabulary of the statements *)

(** The accessors that hold on a Delta, no-change being the negation of
    HasChanges. *)
Definition holding (d : processors.Delta) : list bool :=
  filter (λ b, b = true)
    [negb (processors.HasChanges d); processors.IsAdded d;
     processors.IsUpdated d; processors.IsRemoved d].

(** The identity of an object in the store. *)
Definition ac_key (a : AuthConfig) : NamespacedName :=
  mkNamespacedName (Namespace (ac_ObjectMeta a)) (Name (ac_ObjectMeta a)).
Definition cm_key (a : ConfigMap) : NamespacedName :=
  mkNamespacedName (Namespace (cm_ObjectMeta a)) (Name (cm_ObjectMeta a)).
Definition isvc_key (isvc : InferenceService) : NamespacedName :=
  mkNamespacedName (Namespace (isvc_ObjectMeta isvc)) (Name (isvc_ObjectMeta isvc)).
Definition dashboard_key (isvc : InferenceService) : NamespacedName :=
  mkNamespacedName (Namespace (isvc_ObjectMeta isvc))
    (Name (isvc_ObjectMeta isvc) ++ "-metrics-dashboard").

(** The fields the reconcilers own, and the object an update writes: the
    existing object with the owned fields of the desired one. *)
Definition ac_owned (a : AuthConfig) : AuthConfigSpec * option (gmap string string) :=
  (ac_Spec a, Labels (ac_ObjectMeta a)).
Definition cm_owned (a : ConfigMap) : option (gmap string string) * option (gmap string string) :=
  (cm_Data a, Labels (cm_ObjectMeta a)).

Definition auth_merged (d e : AuthConfig) : AuthConfig :=
  set_ac_ObjectMeta (set_Labels (Labels (ac_ObjectMeta d)) (ac_ObjectMeta e))
    (set_ac_Spec (ac_Spec d) e).
Definition cm_merged (d e : ConfigMap) : ConfigMap :=
  mkConfigMap (cm_TypeMeta e) (set_Labels (Labels (cm_ObjectMeta d)) (cm_ObjectMeta e))
    (cm_Immutable e) (cm_Data d) (cm_BinaryData e).

Definition auth_store_message (d : AuthConfig) : string :=
  "could not store AuthConfig " ++ Name (ac_ObjectMeta d) ++
  " for InferenceService " ++ Name (ac_ObjectMeta d).
Definition auth_remove_message (e : AuthConfig) : string :=
  "could not remove AuthConfig " ++ Name (ac_ObjectMeta e) ++
  " for InferenceService " ++ Name (ac_ObjectMeta e).

(** A computation that leaves the cluster as it is and logs no mutation. *)
Definition reads_only {C A} (m : M C A) : Prop :=
  ∀ w res w', m w = (res, w') →
    cluster w' = cluster w ∧ mutations (calls w') = mutations (calls w).

(** A pass that got as far as the apply step: the desired state was built
    without error in [w], the fetch gave [existing] (absent when the store
    reported not-found) and left the world [w2]. *)
Definition auth_reaches_apply {C} `{!ControllerRuntime} `{!Comparators}
    (r : AuthConfigReconciler.KserveAuthConfigReconciler C) (isvc : InferenceService)
    (w : World C) (desired existing : option AuthConfig) (w2 : World C) : Prop :=
  Status_URL isvc ≠ None ∧
  ∃ w1 err,
    AuthConfigReconciler.createDesiredResource r isvc w = (Returned (desired, None), w1) ∧
    AuthConfigReconciler.getExistingResource r isvc w1 = (Returned (existing, err), w2) ∧
    (err = None ∨ IsNotFound err = true).

Definition metrics_reaches_apply {C} `{!ControllerRuntime} `{!Comparators} `{!GoLibrary C}
    (r : MetricsDashboardReconciler.KserveMetricsDashboardReconciler C) (isvc : InferenceService)
    (w : World C) (desired existing : option ConfigMap) (w2 : World C) : Prop :=
  ∃ w1,
    MetricsDashboardReconciler.createDesiredResource r isvc w = (Returned (desired, None), w1) ∧
    MetricsDashboardReconciler.getExistingResource r isvc w1 = (Returned (existing, None), w2).

(** What a pass takes as the existing state of the object named [k]: the
    stored object, or nothing when the store reports not-found. *)
Definition auth_fetched {C} (s : resources.AuthConfigStore C) (c : C) (k : NamespacedName)
    (existing : option AuthConfig) : Prop :=
  match resources.Get s c k with
  | inl a => existing = Some a
  | inr err => IsNotFound (Some err) = true ∧ existing = None
  end.

Definition cm_fetched {C} (cl : Client C) (c : C) (k : NamespacedName)
    (existing : option ConfigMap) : Prop :=
  match client_GetConfigMap cl c k ConfigMap_zero with
  | (a, None) => existing = Some a
  | (_, Some err) => IsNotFound (Some err) = true ∧ existing = None
  end.

(** Modelled from the spec: the comparators of the comparators package,
    which is not among the sources.  §3: a comparator is reflexive and
    ignores the fields outside the reconciler's ownership, that is, it looks
    only at the fields the reconciler writes (§4.3: spec or data, and
    labels). *)
Record ComparatorLaws `{!Comparators} : Prop := {
  auth_Equal_refl : ∀ a, GetAuthConfigComparator a a = true;
  auth_Equal_owned : ∀ d d' e e',
    ac_owned d = ac_owned d' → ac_owned e = ac_owned e' →
    GetAuthConfigComparator d e = GetAuthConfigComparator d' e';
  cm_Equal_refl : ∀ a, GetConfigMapComparator a a = true;
  cm_Equal_owned : ∀ d d' e e',
    cm_owned d = cm_owned d' → cm_owned e = cm_owned e' →
    GetConfigMapComparator d e = GetConfigMapComparator d' e';
}.

(** Modelled from the spec: the store of §6 when nobody else writes to it.
    After a create or an update that succeeded the store holds the written
    object under its name, up to the fields the store assigns itself; after
    a delete that succeeded it holds none. *)
Record AuthConfigStoreLaws {C} (s : resources.AuthConfigStore C) : Prop := {
  Create_Get : ∀ c a c', resources.Create s c a = (c', None) →
    ∃ a', resources.Get s c' (ac_key a) = inl a' ∧ ac_owned a' = ac_owned a;
  Update_Get : ∀ c a c', resources.Update s c a = (c', None) →
    ∃ a', resources.Get s c' (ac_key a) = inl a' ∧ ac_owned a' = ac_owned a;
  Remove_Get : ∀ c k c', resources.Remove s c k = (c', None) →
    ∃ err, resources.Get s c' k = inr err ∧ IsNotFound (Some err) = true;
}.

Record ClientLaws {C} (cl : Client C) : Prop := {
  client_Create_Get : ∀ c a c', client_Create cl c a = (c', None) →
    ∃ a', client_GetConfigMap cl c' (cm_key a) ConfigMap_zero = (a', None) ∧ cm_owned a' = cm_owned a;
  client_Update_Get : ∀ c a c', client_Update cl c a = (c', None) →
    ∃ a', client_GetConfigMap cl c' (cm_key a) ConfigMap_zero = (a', None) ∧ cm_owned a' = cm_owned a;
  client_Delete_Get : ∀ c a c', client_Delete cl c a = (c', None) →
    ∃ obj err, client_GetConfigMap cl c' (cm_key a) ConfigMap_zero = (obj, Some err)
               ∧ IsNotFound (Some err) = true;
}.

(** The deletions among the calls. *)
Definition is_removal (c : Call) : bool :=
  match c with
  | CallStoreRemove _ | CallDeleteConfigMap _ => true
  | _ => false
  end.

Definition removals (l : list Call) : list Call := filter (λ c, is_removal c = true) l.

(** The file reads among the calls. *)
Definition is_file_read (c : Call) : bool :=
  match c with
  | CallReadFile _ => true
  | _ => false
  end.

Definition file_reads (l : list Call) : list Call := filter (λ c, is_file_read c = true) l.

Definition set_OwnerReferences (v : list OwnerReference) (m : ObjectMeta) : ObjectMeta :=
  mkObjectMeta (Name m) (GenerateName m) (Namespace m) (UID m) (ResourceVersion m)
    (Generation m) (CreationTimestamp m) (DeletionTimestamp m) (Labels m)
    (Annotations m) v (Finalizers m).

(** controller-runtime's SetControllerReference writes nothing but the owner
    references of the object: putting the old owner references back gives
    the metadata it was called with. *)
Record ControllerRuntimeLaws `{!ControllerRuntime} : Prop := {
  SetControllerReference_frame : ∀ owner meta,
    set_OwnerReferences (OwnerReferences meta) (SetControllerReference owner meta).1 = meta;
}.

(** The three arms of the switch on the image name in the metrics
    dashboard's build step: the package variable, its assignment and the
    template file. *)
Inductive template_slot {C : Type} :
    (World C → option string) → (option string → M C unit) → string → Prop :=
  | slot_tgis : template_slot tgisData set_tgisData "tgis-metrics.json"
  | slot_ovms : template_slot ovmsData set_ovmsData "ovms-metrics.json"
  | slot_vllm : template_slot vllmData set_vllmData "vllm-metrics.json".

(** The metadata the metrics dashboard's build step hands to
    SetControllerReference. *)
Definition dashboard_meta (isvc : InferenceService) : ObjectMeta :=
  set_Namespace (Namespace (isvc_ObjectMeta isvc))
    (set_Name (Name (isvc_ObjectMeta isvc) ++ "-metrics-dashboard") ObjectMeta_zero).

(** The ServingRuntime object after the Get of the build step. *)
Definition runtime_after_get {C} (cl : Client C) (c : C) (isvc : InferenceService)
    (runtimeName : string) : ServingRuntime :=
  (client_GetServingRuntime cl c
     (mkNamespacedName (Namespace (isvc_ObjectMeta isvc)) runtimeName) ServingRuntime_zero).1.

(** The object that the cluster [c] holds under the name [k], if any,
    carries that namespace and name. *)
Definition store_keyed {C} (s : resources.AuthConfigStore C) (c : C) (k : NamespacedName) : Prop :=
  ∀ a, resources.Get s c k = inl a → ac_key a = k.

Definition client_keyed {C} (cl : Client C) (c : C) (k : NamespacedName) : Prop :=
  ∀ a, client_GetConfigMap cl c k ConfigMap_zero = (a, None) → cm_key a = k.

(** ** An in-memory cluster

    A small object store in the manner of controller-runtime's fake client,
    used to run the reconcilers on concrete inputs. *)

Module fake.

#[global] Instance NamespacedName_countable : Countable NamespacedName.
Proof.
  refine (inj_countable' (λ n, (nn_Namespace n, nn_Name n))
                         (λ p, mkNamespacedName p.1 p.2) _).
  by intros [].
Defined.

Record Cluster : Type := mkCluster {
  authConfigs : gmap NamespacedName AuthConfig;
  configMaps : gmap NamespacedName ConfigMap;
  servingRuntimes : gmap NamespacedName ServingRuntime;
  files : gmap string string;
}.

Definition set_authConfigs (v : gmap NamespacedName AuthConfig) (c : Cluster) : Cluster :=
  mkCluster v (configMaps c) (servingRuntimes c) (files c).
Definition set_configMaps (v : gmap NamespacedName ConfigMap) (c : Cluster) : Cluster :=
  mkCluster (authConfigs c) v (servingRuntimes c) (files c).

Definition notFound : error := StatusError StatusReasonNotFound "not found".
Definition alreadyExists : error := StatusError StatusReasonAlreadyExists "already exists".
Definition conflict : error := StatusError StatusReasonConflict "the object has been modified".
Definition forbidden : error := StatusError StatusReasonForbidden "forbidden".

Definition authConfigStore : resources.AuthConfigStore Cluster := {|
  resources.Get c k :=
    match authConfigs c !! k with
    | Some a => inl a
    | None => inr notFound
    end;
  resources.Create c a :=
    match authConfigs c !! ac_key a with
    | Some _ => (c, Some alreadyExists)
    | None => (set_authConfigs (<[ac_key a := a]> (authConfigs c)) c, None)
    end;
  resources.Update c a :=
    match authConfigs c !! ac_key a with
    | None => (c, Some notFound)
    | Some old =>
        if decide (ResourceVersion (ac_ObjectMeta old) = ResourceVersion (ac_ObjectMeta a))
        then (set_authConfigs (<[ac_key a := a]> (authConfigs c)) c, None)
        else (c, Some conflict)
    end;
  resources.Remove c k :=
    match authConfigs c !! k with
    | None => (c, Some notFound)
    | Some _ => (set_authConfigs (delete k (authConfigs c)) c, None)
    end;
|}.

(** The same store for an account that may not write, or may not read. *)
Definition denyWrites (s : resources.AuthConfigStore Cluster)
    : resources.AuthConfigStore Cluster := {|
  resources.Get := resources.Get s;
  resources.Create c a := (c, Some forbidden);
  resources.Update c a := (c, Some forbidden);
  resources.Remove c k := (c, Some forbidden);
|}.

Definition denyReads (s : resources.AuthConfigStore Cluster)
    : resources.AuthConfigStore Cluster := {|
  resources.Get c k := inr forbidden;
  resources.Create := resources.Create s;
  resources.Update := resources.Update s;
  resources.Remove := resources.Remove s;
|}.

Definition client : Client Cluster := {|
  client_GetServingRuntime c k obj :=
    match servingRuntimes c !! k with
    | Some found => (found, None)
    | None => (obj, Some notFound)
    end;
  client_GetConfigMap c k obj :=
    match configMaps c !! k with
    | Some found => (found, None)
    | None => (obj, Some notFound)
    end;
  client_Create c a :=
    match configMaps c !! cm_key a with
    | Some _ => (c, Some alreadyExists)
    | None => (set_configMaps (<[cm_key a := a]> (configMaps c)) c, None)
    end;
  client_Update c a :=
    match configMaps c !! cm_key a with
    | None => (c, Some notFound)
    | Some old =>
        if decide (ResourceVersion (cm_ObjectMeta old) = ResourceVersion (cm_ObjectMeta a))
        then (set_configMaps (<[cm_key a := a]> (configMaps c)) c, None)
        else (c, Some conflict)
    end;
  client_Delete c a :=
    match configMaps c !! cm_key a with
    | None => (c, Some notFound)
    | Some _ => (set_configMaps (delete (cm_key a) (configMaps c)) c, None)
    end;
|}.

Definition denyClientWrites (cl : Client Cluster) : Client Cluster := {|
  client_GetServingRuntime := client_GetServingRuntime cl;
  client_GetConfigMap := client_GetConfigMap cl;
  client_Create c a := (c, Some forbidden);
  client_Update c a := (c, Some forbidden);
  client_Delete c a := (c, Some forbidden);
|}.

Definition denyClientReads (cl : Client Cluster) : Client Cluster := {|
  client_GetServingRuntime := client_GetServingRuntime cl;
  client_GetConfigMap c k obj := (obj, Some forbidden);
  client_Create := client_Create cl;
  client_Update := client_Update cl;
  client_Delete := client_Delete cl;
|}.

Definition detector : resources.AuthTypeDetector Cluster :=
  {| resources.Detect _ _ := inl "anonymous" |}.

Definition template : AuthConfig :=
  mkAuthConfig (mkTypeMeta "AuthConfig" "authorino.kuadrant.io/v1beta2") ObjectMeta_zero
    (mkAuthConfigSpec [] "anonymous-access") "".

Definition templateLoader : resources.AuthConfigTemplateLoader Cluster :=
  {| resources.Load _ _ _ := inl template |}.

Definition hostExtractor : resources.InferenceServiceHostExtractor :=
  {| resources.Extract isvc := match Status_URL isvc with Some u => [u] | None => [] end |}.

#[local] Instance controllerRuntime : ControllerRuntime := {|
  SetControllerReference owner meta :=
    (mkObjectMeta (Name meta) (GenerateName meta) (Namespace meta) (UID meta)
       (ResourceVersion meta) (Generation meta) (CreationTimestamp meta)
       (DeletionTimestamp meta) (Labels meta) (Annotations meta)
       [mkOwnerReference "serving.kserve.io/v1beta1" "InferenceService"
          (Name (isvc_ObjectMeta owner)) (UID (isvc_ObjectMeta owner)) (Some true) (Some true)]
       (Finalizers meta),
     None);
|}.

(** Comparators over the fields the reconcilers write. *)
#[local] Instance comparators : Comparators := {|
  GetAuthConfigComparator d e :=
    bool_decide (ac_Spec d = ac_Spec e) &&
    bool_decide (Labels (ac_ObjectMeta d) = Labels (ac_ObjectMeta e));
  GetConfigMapComparator d e :=
    bool_decide (cm_Data d = cm_Data e) &&
    bool_decide (Labels (cm_ObjectMeta d) = Labels (cm_ObjectMeta e));
|}.

Definition quote : string := String (Ascii.ascii_of_nat 34) "".  (* the double quote *)

(** {"defaultDeploymentMode": "Serverless"} *)
Definition deployServerless : string :=
  "{" ++ quote ++ "defaultDeploymentMode" ++ quote ++ ": " ++ quote ++ "Serverless" ++ quote ++ "}".

Definition ovmsImage : string := "quay.io/opendatahub/openvino_model_server:stable".

(** Library functions cut down to the inputs used below: the decoder knows
    [deployServerless], the matcher knows [ovmsImage]. *)
#[local] Instance goLibrary : GoLibrary Cluster := {|
  os_ReadFile c path :=
    match files c !! path with
    | Some data => (Some data, None)
    | None => (None, Some (errorString ("open " ++ path ++ ": no such file or directory")))
    end;
  os_Getenv c name := "";
  strings_TrimSpace s := s;
  strings_Replace s old new := s;
  json_Unmarshal_dashboard s := None;
  json_Unmarshal_map s :=
    if decide (s = deployServerless)
    then (Some {["defaultDeploymentMode" := JsonString "Serverless"]}, None)
    else (None, Some (errorString "unexpected end of JSON input"));
  regexp_FindStringSubmatch pattern s :=
    if decide (s = ovmsImage) then [ovmsImage; "openvino_model_server"; ":"] else [];
  Tgis := "text-generation-inference";
  Ovms := "openvino_model_server";
  Vllm := "vllm";
|}.

Definition authConfigReconciler (s : resources.AuthConfigStore Cluster)
    : AuthConfigReconciler.KserveAuthConfigReconciler Cluster :=
  {| AuthConfigReconciler.detector := detector;
     AuthConfigReconciler.store := s;
     AuthConfigReconciler.templateLoader := templateLoader;
     AuthConfigReconciler.hostExtractor := hostExtractor |}.

Definition metricsReconciler (cl : Client Cluster)
    : MetricsDashboardReconciler.KserveMetricsDashboardReconciler Cluster :=
  {| MetricsDashboardReconciler.client := cl |}.

Definition emptyCluster : Cluster := mkCluster ∅ ∅ ∅ ∅.

(** A cluster with the serving runtime "ovms" in namespace "models". *)
Definition ovmsCluster : Cluster :=
  mkCluster ∅ ∅
    {[ mkNamespacedName "models" "ovms" :=
         mkServingRuntime (set_Namespace "models" (set_Name "ovms" ObjectMeta_zero))
           [mkContainer "kserve-container" ovmsImage] ]}
    {[ "ovms-metrics.json" := "{}" ]}.

Definition world (c : Cluster) : World Cluster := mkWorld c [] None None None.

(** An InferenceService "mnist" in namespace "models". *)
Definition mnist (runtime : option string) (url : option string) : InferenceService :=
  mkInferenceService
    (set_Namespace "models" (set_Name "mnist" ObjectMeta_zero))
    (Some (mkModelSpec "onnx" runtime))
    url.

Definition ready : InferenceService := mnist (Some "ovms") (Some "https://mnist.models.example").
Definition notReady : InferenceService := mnist (Some "ovms") None.

(** A cluster where the operator runs in namespace "opendatahub" and the
    inferenceservice-config ConfigMap sets Serverless as the default. *)
Definition configCluster : Cluster :=
  mkCluster ∅
    {[ mkNamespacedName "opendatahub" "inferenceservice-config" :=
         mkConfigMap (mkTypeMeta "ConfigMap" "v1")
           (set_Namespace "opendatahub" (set_Name "inferenceservice-config" ObjectMeta_zero))
           None (Some {["deploy" := deployServerless]}) None ]}
    ∅
    {[ "/var/run/secrets/kubernetes.io/serviceaccount/namespace" := "opendatahub" ]}.

(** The AuthConfig of "mnist" as a pass builds it, and an older stored one
    with another host and a resource version. *)
Definition desiredAuthConfig : AuthConfig :=
  mkAuthConfig (mkTypeMeta "AuthConfig" "authorino.kuadrant.io/v1beta2")
    (set_Labels (Some {["security.opendatahub.io/authorization-group" := "default"]})
       (set_Namespace "models" (set_Name "mnist" ObjectMeta_zero)))
    (mkAuthConfigSpec ["https://mnist.models.example"] "anonymous-access") "".

Definition storedAuthConfig : AuthConfig :=
  mkAuthConfig (mkTypeMeta "AuthConfig" "authorino.kuadrant.io/v1beta2")
    (mkObjectMeta "mnist" "" "models" "uid-1" "41" 1 1700000000 None None
       (Some {["note" := "kept"]}) [] [])
    (mkAuthConfigSpec ["https://old.models.example"] "anonymous-access") "ready".

Definition desiredConfigMap : ConfigMap :=
  mkConfigMap (mkTypeMeta "" "")
    (set_Namespace "models" (set_Name "mnist-metrics-dashboard" ObjectMeta_zero))
    None (Some {["Data" := "{}"]}) None.

Definition storedConfigMap : ConfigMap :=
  mkConfigMap (mkTypeMeta "ConfigMap" "v1")
    (mkObjectMeta "mnist-metrics-dashboard" "" "models" "uid-2" "17" 1 1700000000 None
       (Some {["stale" := "label"]}) None [] [])
    (Some false) (Some {["Data" := "old"]}) (Some {["blob" := "AAAA"]}).

(** A cluster that holds the two stored objects. *)
Definition storedCluster : Cluster :=
  mkCluster {[ ac_key storedAuthConfig := storedAuthConfig ]}
    {[ cm_key storedConfigMap := storedConfigMap ]} ∅ ∅.

(** A client of the monitoring controller over a namespace that has, or has
    not, the PeerAuthentication and the NetworkPolicy; creates are accepted
    unless [denied]. *)
Definition monitoringClient (present denied : bool) : MonitoringClient Cluster := {|
  client_GetNamespace c k := None;
  client_GetInferenceService c k obj := (ready, None);
  client_GetPeerAuthentication c k obj :=
    if present
    then (MonitoringReconciler.buildDesiredPeerAuth "caikit" (nn_Namespace k) "mnist", None)
    else (obj, Some notFound);
  client_GetNetworkPolicy c k obj :=
    if present
    then (mkNetworkPolicy (set_Namespace (nn_Namespace k) (set_Name (nn_Name k) ObjectMeta_zero))
            None, None)
    else (obj, Some notFound);
  client_CreateNetworkPolicy c obj := (c, if denied then Some forbidden else None);
  clientcmd_BuildConfigFromFlags c masterUrl kubeconfig := None;
  istioclient_NewForConfig c := None;
  istio_CreatePeerAuthentication c ns obj := (c, if denied then Some forbidden else None);
|}.

Definition caikit : InferenceService :=
  mkInferenceService (set_Namespace "models" (set_Name "mnist" ObjectMeta_zero))
    (Some (mkModelSpec "caikit" (Some "caikit-runtime"))) None.

(** "mnist" with the deploymentMode annotation set. *)
Definition annotated (mode : string) : InferenceService :=
  mkInferenceService
    (mkObjectMeta "mnist" "" "models" "" "" 0 0 None None
       (Some {["serving.kserve.io/deploymentMode" := mode]}) [] [])
    (Some (mkModelSpec "onnx" (Some "ovms"))) None.

(** A detector that cannot reach the cluster. *)
Definition failingDetector : resources.AuthTypeDetector Cluster :=
  {| resources.Detect _ _ := inr (errorString "connection refused") |}.

(** A template loader without templates. *)
Definition failingLoader : resources.AuthConfigTemplateLoader Cluster :=
  {| resources.Load _ _ _ := inr (errorString "no template for this AuthType") |}.

(** A cluster whose namespace file is there but empty. *)
Definition blankCluster : Cluster :=
  mkCluster ∅ ∅ ∅ {[ "/var/run/secrets/kubernetes.io/serviceaccount/namespace" := "" ]}.

(** [ovmsCluster] with the stored dashboard of "mnist". *)
Definition dashboardCluster : Cluster :=
  mkCluster ∅ {[ cm_key storedConfigMap := storedConfigMap ]}
    (servingRuntimes ovmsCluster) (files ovmsCluster).

(** A cluster with a serving runtime "custom" whose image is none of the
    three known ones. *)
Definition customImage : string := "registry.example/team/custom-server:1".

Definition customCluster : Cluster :=
  mkCluster ∅ ∅
    {[ mkNamespacedName "models" "custom" :=
         mkServingRuntime (set_Namespace "models" (set_Name "custom" ObjectMeta_zero))
           [mkContainer "kserve-container" customImage] ]}
    ∅.

(** "mnist" served by a predictor that sets no Spec.Predictor.Model. *)
Definition noModel : InferenceService :=
  mkInferenceService (set_Namespace "models" (set_Name "mnist" ObjectMeta_zero)) None None.

(** A monitoring client that finds [isvc], and one that cannot get the
    Namespace. *)
Definition serving (isvc : InferenceService) (cl : MonitoringClient Cluster)
    : MonitoringClient Cluster := {|
  client_GetNamespace := client_GetNamespace cl;
  client_GetInferenceService c k obj := (isvc, None);
  client_GetPeerAuthentication := client_GetPeerAuthentication cl;
  client_GetNetworkPolicy := client_GetNetworkPolicy cl;
  client_CreateNetworkPolicy := client_CreateNetworkPolicy cl;
  clientcmd_BuildConfigFromFlags := clientcmd_BuildConfigFromFlags cl;
  istioclient_NewForConfig := istioclient_NewForConfig cl;
  istio_CreatePeerAuthentication := istio_CreatePeerAuthentication cl;
|}.

Definition lostNamespace (cl : MonitoringClient Cluster) : MonitoringClient Cluster := {|
  client_GetNamespace c k := Some notFound;
  client_GetInferenceService := client_GetInferenceService cl;
  client_GetPeerAuthentication := client_GetPeerAuthentication cl;
  client_GetNetworkPolicy := client_GetNetworkPolicy cl;
  client_CreateNetworkPolicy := client_CreateNetworkPolicy cl;
  clientcmd_BuildConfigFromFlags := clientcmd_BuildConfigFromFlags cl;
  istioclient_NewForConfig := istioclient_NewForConfig cl;
  istio_CreatePeerAuthentication := istio_CreatePeerAuthentication cl;
|}.

End fake.

(** * Properties *)

(** ** Running the monad *)

Lemma bind_returned {C A B} (m : M C A) (f : A → M C B) w a w' :
  m w = (Returned a, w') → (m ≫= f) w = f a w'.
Proof. intros Hm. unfold mbind, M_bind. by rewrite Hm. Qed.

Lemma bind_panicked {C A B} (m : M C A) (f : A → M C B) w p w' :
  m w = (Panicked p, w') → (m ≫= f) w = (Panicked p, w').
Proof. intros Hm. unfold mbind, M_bind. by rewrite Hm. Qed.

(** [if err != nil { return err }; return nil] hands the error through. *)
Lemma bind_return_error {C} (m : M C (option error)) w :
  (m ≫= λ err, if not_nil err then mret err else mret None) w = m w.
Proof.
  unfold mbind, M_bind. destruct (m w) as [[[e|]|p] w']; reflexivity.
Qed.

Lemma mutations_app l1 l2 : mutations (l1 ++ l2) = (mutations l1 ++ mutations l2)%list.
Proof. apply filter_app. Qed.

Lemma mutations_log_read {C} (c : Call) (w : World C) :
  is_mutation c = false → mutations (calls (log_call c w)) = mutations (calls w).
Proof.
  intros Hc. simpl. rewrite mutations_app. unfold mutations at 2.
  rewrite filter_cons_False, filter_nil by (rewrite Hc; discriminate).
  apply app_nil_r.
Qed.

Lemma reads_only_ret {C A} (a : A) : reads_only (mret a : M C A).
Proof. by intros w res w' [= <- <-]. Qed.

Lemma reads_only_panic {C A} (p : panic) : reads_only (go_panic p : M C A).
Proof. by intros w res w' [= <- <-]. Qed.

Lemma reads_only_bind {C A B} (m : M C A) (f : A → M C B) :
  reads_only m → (∀ a, reads_only (f a)) → reads_only (m ≫= f).
Proof.
  intros Hm Hf w res w'. unfold mbind, M_bind.
  destruct (m w) as [[a|p] w1] eqn:Hmw.
  - intros Hfa. destruct (Hm _ _ _ Hmw) as [Hc Hl].
    destruct (Hf a _ _ _ Hfa) as [Hc' Hl']. split; congruence.
  - intros [= <- <-]. by apply (Hm _ _ _ Hmw).
Qed.

Lemma reads_only_read_call {C A} (c : Call) (f : C → A) :
  is_mutation c = false → reads_only (read_call c f).
Proof.
  intros Hc w res w' [= <- <-]. split; [done|]. by apply mutations_log_read.
Qed.

Lemma reads_only_deref {C A} (ptr : option A) : reads_only (deref ptr : M C A).
Proof. destruct ptr; [apply reads_only_ret|apply reads_only_panic]. Qed.

Lemma reads_only_index {C A} (l : list A) i : reads_only (index l i : M C A).
Proof. unfold index. destruct (l !! i); [apply reads_only_ret|apply reads_only_panic]. Qed.

Lemma reads_only_get_global {C A} (f : World C → A) : reads_only (get_global f).
Proof. by intros w res w' [= <- <-]. Qed.

Lemma reads_only_set_ovmsData {C} v : reads_only (set_ovmsData v : M C unit).
Proof. by intros w res w' [= <- <-]. Qed.
Lemma reads_only_set_tgisData {C} v : reads_only (set_tgisData v : M C unit).
Proof. by intros w res w' [= <- <-]. Qed.
Lemma reads_only_set_vllmData {C} v : reads_only (set_vllmData v : M C unit).
Proof. by intros w res w' [= <- <-]. Qed.

Create HintDb reads discriminated.
#[global] Hint Resolve reads_only_ret reads_only_panic reads_only_deref reads_only_index
  reads_only_get_global reads_only_set_ovmsData reads_only_set_tgisData
  reads_only_set_vllmData : reads.

Ltac reads_only_step :=
  lazymatch goal with
  | |- reads_only (_ ≫= _) => apply reads_only_bind; [|intros ?]
  | |- reads_only (read_call _ _) => by apply reads_only_read_call
  | |- reads_only (if ?b then _ else _) => destruct b
  | |- reads_only (match ?x with _ => _ end) => destruct x
  | |- reads_only _ => by auto with reads
  end.

Ltac run_go :=
  unfold mbind, M_bind, mret, M_ret, read_call, write_call, deref, index,
    go_panic, get_global in *.

(** ** The delta processor *)

Section delta.
Import processors.
Context {R : Type}.
Implicit Types (comparator : R → R → bool) (desired existing : option R).

Lemma accessors_exclusive (d : Delta) : length (holding d) = 1.
Proof. by destruct d. Qed.

Lemma ComputeDelta_NoChange comparator desired existing :
  ComputeDelta comparator desired existing = DeltaNoChange ↔
  (desired = None ∧ existing = None) ∨
  (∃ d e, desired = Some d ∧ existing = Some e ∧ comparator d e = true).
Proof.
  destruct desired as [d|], existing as [e|]; simpl;
    try destruct (comparator d e) eqn:Hcmp; split; intros H; try done.
  - right. by exists d, e.
  - destruct H as [[? _]|(d' & e' & ? & ? & ?)]; [done|]. congruence.
  - destruct H as [[? _]|(? & ? & ? & ? & ?)]; done.
  - destruct H as [[_ ?]|(? & ? & ? & ? & ?)]; done.
  - by left.
Qed.

Lemma ComputeDelta_Update comparator desired existing :
  ComputeDelta comparator desired existing = DeltaUpdate ↔
  ∃ d e, desired = Some d ∧ existing = Some e ∧ comparator d e = false.
Proof.
  destruct desired as [d|], existing as [e|]; simpl;
    try destruct (comparator d e) eqn:Hcmp; split; intros H; try done;
    try (destruct H as (? & ? & ? & ? & ?); congruence).
  by exists d, e.
Qed.

End delta.

(** C1.  On every combination of desired-presence, existing-presence and
    comparator result ComputeDelta gives the Delta of the case table of §4.2:
    no-change when both are absent, add when only the desired value is
    present, remove when only the existing value is present, no-change when
    both are present and the comparator reports them equal, update when both
    are present and it reports them unequal.  On the result exactly one of
    the four accessors (not HasChanges, IsAdded, IsUpdated, IsRemoved)
    holds. *)
Theorem ComputeDelta_case_table {R : Type} (comparator : R → R → bool) (d e : R) :
  let delta := processors.ComputeDelta comparator in
  delta None None = processors.DeltaNoChange
  ∧ delta (Some d) None = processors.DeltaAdd
  ∧ delta None (Some e) = processors.DeltaRemove
  ∧ (comparator d e = true → delta (Some d) (Some e) = processors.DeltaNoChange)
  ∧ (comparator d e = false → delta (Some d) (Some e) = processors.DeltaUpdate)
  ∧ (∀ desired existing : option R,
       let result := delta desired existing in
       length (holding result) = 1
       ∧ (processors.IsAdded result = true ↔ is_Some desired ∧ existing = None)
       ∧ (processors.IsRemoved result = true ↔ desired = None ∧ is_Some existing)
       ∧ (processors.IsUpdated result = true ↔
            ∃ d' e', desired = Some d' ∧ existing = Some e' ∧ comparator d' e' = false)
       ∧ (processors.HasChanges result = false ↔
            (desired = None ∧ existing = None) ∨
            ∃ d' e', desired = Some d' ∧ existing = Some e' ∧ comparator d' e' = true)).
Proof.
  simpl. split_and!; try done.
  - by intros ->.
  - by intros ->.
  - intros desired existing. split; [apply accessors_exclusive|].
    destruct desired as [d'|], existing as [e'|]; simpl;
      try destruct (comparator d' e') eqn:Hcmp; simpl;
      unfold is_Some; split_and!; naive_solver.
Qed.

(** ** KserveAuthConfigReconciler *)

Section authconfig.
Import processors AuthConfigReconciler.
Context {C : Type} `{!ControllerRuntime} `{!Comparators}.
Implicit Types (r : KserveAuthConfigReconciler C) (isvc : InferenceService) (w : World C).

(** Building the desired AuthConfig only reads. *)
Lemma auth_createDesiredResource_reads r isvc w res w' :
  createDesiredResource r isvc w = (res, w') →
  cluster w' = cluster w ∧ mutations (calls w') = mutations (calls w).
Proof.
  unfold createDesiredResource. run_go. simpl.
  destruct (resources.Detect _ _ _) as [authType|err]; simpl.
  - destruct (resources.Load _ _ _ _) as [template|err]; simpl; intros [= <- <-]; simpl;
      rewrite !mutations_app, !app_nil_r; done.
  - intros [= <- <-]; simpl. by rewrite mutations_app, app_nil_r.
Qed.

Lemma auth_getExistingResource_run r isvc w :
  getExistingResource r isvc w =
    (Returned match resources.Get (store r) (cluster w) (isvc_key isvc) with
              | inl existing => (Some existing, None)
              | inr err => (None, Some err)
              end,
     log_call (CallStoreGet (isvc_key isvc)) w).
Proof.
  unfold getExistingResource. run_go. simpl. fold (isvc_key isvc).
  by destruct (resources.Get _ _ _).
Qed.

(** Once the desired state is built, the pass is the fetch followed by
    processDelta, unless the fetch failed with something else than
    not-found. *)
Lemma auth_Reconcile_run r isvc w desiredState w1 :
  Status_URL isvc ≠ None →
  createDesiredResource r isvc w = (Returned (desiredState, None), w1) →
  Reconcile r isvc w =
    let w2 := log_call (CallStoreGet (isvc_key isvc)) w1 in
    match resources.Get (store r) (cluster w1) (isvc_key isvc) with
    | inl existing => processDelta r desiredState (Some existing) w2
    | inr err =>
        if IsNotFound (Some err) then processDelta r desiredState None w2
        else (Returned (Some err), w2)
    end.
Proof.
  intros Hurl Hbuild. unfold Reconcile.
  destruct (Status_URL isvc) eqn:Hu; [simpl|done].
  rewrite (bind_returned _ _ _ _ _ Hbuild). simpl.
  erewrite bind_returned by apply auth_getExistingResource_run.
  destruct (resources.Get _ _ _) as [existing|err]; simpl.
  - apply bind_return_error.
  - destruct (bool_decide _); simpl; [apply bind_return_error|done].
Qed.

Lemma auth_processDelta_NoChange r desired existing w :
  HasChanges (ComputeDelta GetAuthConfigComparator desired existing) = false →
  processDelta r desired existing w = (Returned None, w).
Proof. unfold processDelta. by intros ->. Qed.

Lemma auth_processDelta_Add r d w :
  processDelta r (Some d) None w =
    (Returned (Wrapf (resources.Create (store r) (cluster w) d).2 (auth_store_message d)),
     log_call (CallStoreCreate d) (set_cluster (resources.Create (store r) (cluster w) d).1 w)).
Proof.
  unfold processDelta. simpl. run_go. simpl.
  by destruct (resources.Create _ _ _).
Qed.

Lemma auth_processDelta_Update r d e w :
  GetAuthConfigComparator d e = false →
  processDelta r (Some d) (Some e) w =
    (Returned (Wrapf (resources.Update (store r) (cluster w) (auth_merged d e)).2 (auth_store_message d)),
     log_call (CallStoreUpdate (auth_merged d e))
       (set_cluster (resources.Update (store r) (cluster w) (auth_merged d e)).1 w)).
Proof.
  intros Hcmp. unfold processDelta. simpl. rewrite Hcmp. simpl. run_go. simpl.
  fold (auth_merged d e). by destruct (resources.Update _ _ _).
Qed.

Lemma auth_processDelta_Remove r e w :
  processDelta r None (Some e) w =
    (Returned (Wrapf (resources.Remove (store r) (cluster w) (ac_key e)).2 (auth_remove_message e)),
     log_call (CallStoreRemove (ac_key e))
       (set_cluster (resources.Remove (store r) (cluster w) (ac_key e)).1 w)).
Proof.
  unfold processDelta. simpl. run_go. simpl. fold (ac_key e).
  by destruct (resources.Remove _ _ _).
Qed.

End authconfig.

(** ** KserveMetricsDashboardReconciler *)

Section metrics.
Import processors MetricsDashboardReconciler.
Context {C : Type} `{!ControllerRuntime} `{!Comparators} `{!GoLibrary C}.
Implicit Types (r : KserveMetricsDashboardReconciler C) (isvc : InferenceService) (w : World C).

Lemma cachedTemplate_reads (cached : World C → option string) (store : option string → M C unit) path :
  (∀ v, reads_only (store v)) → reads_only (cachedTemplate cached store path).
Proof.
  intros Hstore. unfold cachedTemplate. repeat reads_only_step.
Qed.

(** Building the desired ConfigMap only reads (and fills the template
    caches). *)
Lemma metrics_createDesiredResource_reads r isvc :
  reads_only (createDesiredResource r isvc).
Proof.
  unfold createDesiredResource.
  apply reads_only_bind; [auto with reads|intros model].
  apply reads_only_bind; [auto with reads|intros runtimeName].
  apply reads_only_bind; [by apply reads_only_read_call|intros [runtime err]].
  apply reads_only_bind; [auto with reads|intros container].
  apply reads_only_bind.
  - repeat case_decide; try apply cachedTemplate_reads; auto with reads.
  - intros templatedData. simpl. destruct (SetControllerReference _ _) as [meta serr].
    destruct (not_nil serr); apply reads_only_ret.
Qed.

Lemma metrics_getExistingResource_run r isvc w :
  getExistingResource r isvc w =
    (Returned (let '(configMap, err) :=
                 client_GetConfigMap (client r) (cluster w) (dashboard_key isvc) ConfigMap_zero in
               if not_nil err then if IsNotFound err then (None, None) else (None, err)
               else (Some configMap, None)),
     log_call (CallGetConfigMap (dashboard_key isvc)) w).
Proof.
  unfold getExistingResource. run_go. simpl. fold (dashboard_key isvc).
  destruct (client_GetConfigMap _ _ _ _) as [configMap [err|]]; simpl; [|done].
  by destruct (bool_decide _).
Qed.

(** Once the desired state is built, the pass is the fetch followed by
    processDelta, unless the fetch failed with something else than
    not-found. *)
Lemma metrics_Reconcile_run r isvc w desiredResource w1 :
  createDesiredResource r isvc w = (Returned (desiredResource, None), w1) →
  Reconcile r isvc w =
    let w2 := log_call (CallGetConfigMap (dashboard_key isvc)) w1 in
    match client_GetConfigMap (client r) (cluster w1) (dashboard_key isvc) ConfigMap_zero with
    | (existing, None) => processDelta r desiredResource (Some existing) w2
    | (_, Some err) =>
        if IsNotFound (Some err) then processDelta r desiredResource None w2
        else (Returned (Some err), w2)
    end.
Proof.
  intros Hbuild. unfold Reconcile.
  rewrite (bind_returned _ _ _ _ _ Hbuild). simpl.
  erewrite bind_returned by apply metrics_getExistingResource_run.
  destruct (client_GetConfigMap _ _ _ _) as [configMap [err|]]; simpl.
  - destruct (bool_decide _); simpl; [apply bind_return_error|done].
  - apply bind_return_error.
Qed.

Lemma metrics_processDelta_NoChange r desired existing w :
  HasChanges (ComputeDelta GetConfigMapComparator desired existing) = false →
  processDelta r desired existing w = (Returned None, w).
Proof. unfold processDelta. by intros ->. Qed.

Lemma metrics_processDelta_Add r d w :
  processDelta r (Some d) None w =
    (Returned (client_Create (client r) (cluster w) d).2,
     log_call (CallCreateConfigMap d) (set_cluster (client_Create (client r) (cluster w) d).1 w)).
Proof.
  unfold processDelta. simpl. run_go. simpl.
  by destruct (client_Create _ _ _) as [c' [err|]].
Qed.

Lemma metrics_processDelta_Update r d e w :
  GetConfigMapComparator d e = false →
  processDelta r (Some d) (Some e) w =
    (Returned (client_Update (client r) (cluster w) (cm_merged d e)).2,
     log_call (CallUpdateConfigMap (cm_merged d e))
       (set_cluster (client_Update (client r) (cluster w) (cm_merged d e)).1 w)).
Proof.
  intros Hcmp. unfold processDelta. simpl. rewrite Hcmp. simpl. run_go. simpl.
  fold (cm_merged d e). by destruct (client_Update _ _ _) as [c' [err|]].
Qed.

Lemma metrics_processDelta_Remove r e w :
  processDelta r None (Some e) w =
    (Returned (client_Delete (client r) (cluster w) e).2,
     log_call (CallDeleteConfigMap e) (set_cluster (client_Delete (client r) (cluster w) e).1 w)).
Proof.
  unfold processDelta. simpl. run_go. simpl.
  by destruct (client_Delete _ _ _) as [c' [err|]].
Qed.

End metrics.

(** ** The pass as a whole *)

Section passes.
Import processors.
Context {C : Type} `{!ControllerRuntime} `{!Comparators} `{!GoLibrary C}.

Lemma auth_reaches_apply_run (r : AuthConfigReconciler.KserveAuthConfigReconciler C)
    isvc w desired existing w2 :
  auth_reaches_apply r isvc w desired existing w2 →
  AuthConfigReconciler.Reconcile r isvc w = AuthConfigReconciler.processDelta r desired existing w2
  ∧ cluster w2 = cluster w ∧ mutations (calls w2) = mutations (calls w).
Proof.
  intros (Hurl & w1 & err & Hbuild & Hget & Herr).
  rewrite (auth_Reconcile_run _ _ _ _ _ Hurl Hbuild).
  rewrite auth_getExistingResource_run in Hget.
  destruct (auth_createDesiredResource_reads _ _ _ _ _ Hbuild) as [Hc Hm].
  injection Hget as Hres <-. simpl. rewrite <- Hc, <- Hm.
  rewrite mutations_app, app_nil_r. split; [|done].
  destruct (resources.Get _ _ _) as [a|e]; injection Hres as <- <-; [done|].
  destruct Herr as [?|Hnf]; [done|]. simpl in Hnf. by rewrite Hnf.
Qed.

Lemma metrics_reaches_apply_run (r : MetricsDashboardReconciler.KserveMetricsDashboardReconciler C)
    isvc w desired existing w2 :
  metrics_reaches_apply r isvc w desired existing w2 →
  MetricsDashboardReconciler.Reconcile r isvc w =
    MetricsDashboardReconciler.processDelta r desired existing w2
  ∧ cluster w2 = cluster w ∧ mutations (calls w2) = mutations (calls w).
Proof.
  intros (w1 & Hbuild & Hget).
  rewrite (metrics_Reconcile_run _ _ _ _ _ Hbuild).
  rewrite metrics_getExistingResource_run in Hget.
  destruct (metrics_createDesiredResource_reads _ _ _ _ _ Hbuild) as [Hc Hm].
  injection Hget as Hres <-. simpl. rewrite <- Hc, <- Hm.
  rewrite mutations_app, app_nil_r. split; [|done].
  destruct (client_GetConfigMap _ _ _ _) as [configMap [err|]]; simpl in *.
  - destruct (bool_decide _); by injection Hres as <-.
  - by injection Hres as <-.
Qed.

End passes.

(** ** The claims *)

Section claims.
Import processors.
Context {C : Type} `{!ControllerRuntime} `{!Comparators} `{!GoLibrary C}.
Implicit Types (ra : AuthConfigReconciler.KserveAuthConfigReconciler C).
Implicit Types (rm : MetricsDashboardReconciler.KserveMetricsDashboardReconciler C).
Implicit Types (isvc : InferenceService) (w : World C).

(** C9.  For an InferenceService whose Status.URL is nil,
    KserveAuthConfigReconciler.Reconcile returns nil and leaves the world as
    it found it: nothing is built, no lookup, store read or store mutation
    is logged. *)
Theorem Reconcile_waits_for_URL ra isvc w :
  Status_URL isvc = None →
  AuthConfigReconciler.Reconcile ra isvc w = (Returned None, w).
Proof. intros Hurl. unfold AuthConfigReconciler.Reconcile. by rewrite Hurl. Qed.

(** C5.  When the Delta computed in a pass is no-change, processDelta
    returns nil without touching the world, and the pass as a whole returns
    nil with the cluster unchanged and no create, update or delete logged;
    this holds for KserveAuthConfigReconciler and for
    KserveMetricsDashboardReconciler. *)
Theorem no_change_no_mutation :
  (∀ ra desired existing w,
     HasChanges (ComputeDelta GetAuthConfigComparator desired existing) = false →
     AuthConfigReconciler.processDelta ra desired existing w = (Returned None, w))
  ∧ (∀ ra isvc w desired existing w2,
       auth_reaches_apply ra isvc w desired existing w2 →
       HasChanges (ComputeDelta GetAuthConfigComparator desired existing) = false →
       AuthConfigReconciler.Reconcile ra isvc w = (Returned None, w2)
       ∧ cluster w2 = cluster w ∧ mutations (calls w2) = mutations (calls w))
  ∧ (∀ rm desired existing w,
       HasChanges (ComputeDelta GetConfigMapComparator desired existing) = false →
       MetricsDashboardReconciler.processDelta rm desired existing w = (Returned None, w))
  ∧ (∀ rm isvc w desired existing w2,
       metrics_reaches_apply rm isvc w desired existing w2 →
       HasChanges (ComputeDelta GetConfigMapComparator desired existing) = false →
       MetricsDashboardReconciler.Reconcile rm isvc w = (Returned None, w2)
       ∧ cluster w2 = cluster w ∧ mutations (calls w2) = mutations (calls w)).
Proof.
  split_and!.
  - apply auth_processDelta_NoChange.
  - intros ra isvc w desired existing w2 Hreach Hdelta.
    destruct (auth_reaches_apply_run _ _ _ _ _ _ Hreach) as (-> & ? & ?).
    by rewrite auth_processDelta_NoChange.
  - apply metrics_processDelta_NoChange.
  - intros rm isvc w desired existing w2 Hreach Hdelta.
    destruct (metrics_reaches_apply_run _ _ _ _ _ _ Hreach) as (-> & ? & ?).
    by rewrite metrics_processDelta_NoChange.
Qed.

(** C3, as the code has it.  A create or update that fails in the apply
    step ends the pass after that one call: no second attempt is logged.
    KserveMetricsDashboardReconciler.Reconcile returns the store error
    itself; KserveAuthConfigReconciler.Reconcile returns it wrapped by
    errors.Wrapf in a "could not store AuthConfig ..." message, the store
    error being its cause.  The delete arm is stated on processDelta, for no
    pass of Reconcile gets there (a build without error gives a desired
    object): a delete that fails ends processDelta after that one call, with
    the store error itself for the metrics dashboard and with the error
    wrapped in a "could not remove AuthConfig ..." message for the
    AuthConfig. *)
Theorem apply_failure_propagates :
  (∀ ra isvc w d w2 c' err,
     auth_reaches_apply ra isvc w (Some d) None w2 →
     resources.Create (AuthConfigReconciler.store ra) (cluster w2) d = (c', Some err) →
     AuthConfigReconciler.Reconcile ra isvc w =
       (Returned (Some (withMessage err (auth_store_message d))),
        log_call (CallStoreCreate d) (set_cluster c' w2)))
  ∧ (∀ ra isvc w d e w2 c' err,
       auth_reaches_apply ra isvc w (Some d) (Some e) w2 →
       GetAuthConfigComparator d e = false →
       resources.Update (AuthConfigReconciler.store ra) (cluster w2) (auth_merged d e) = (c', Some err) →
       AuthConfigReconciler.Reconcile ra isvc w =
         (Returned (Some (withMessage err (auth_store_message d))),
          log_call (CallStoreUpdate (auth_merged d e)) (set_cluster c' w2)))
  ∧ (∀ ra e w c' err,
       resources.Remove (AuthConfigReconciler.store ra) (cluster w) (ac_key e) = (c', Some err) →
       AuthConfigReconciler.processDelta ra None (Some e) w =
         (Returned (Some (withMessage err (auth_remove_message e))),
          log_call (CallStoreRemove (ac_key e)) (set_cluster c' w)))
  ∧ (∀ rm isvc w d w2 c' err,
       metrics_reaches_apply rm isvc w (Some d) None w2 →
       client_Create (MetricsDashboardReconciler.client rm) (cluster w2) d = (c', Some err) →
       MetricsDashboardReconciler.Reconcile rm isvc w =
         (Returned (Some err), log_call (CallCreateConfigMap d) (set_cluster c' w2)))
  ∧ (∀ rm isvc w d e w2 c' err,
       metrics_reaches_apply rm isvc w (Some d) (Some e) w2 →
       GetConfigMapComparator d e = false →
       client_Update (MetricsDashboardReconciler.client rm) (cluster w2) (cm_merged d e) = (c', Some err) →
       MetricsDashboardReconciler.Reconcile rm isvc w =
         (Returned (Some err), log_call (CallUpdateConfigMap (cm_merged d e)) (set_cluster c' w2)))
  ∧ (∀ rm e w c' err,
       client_Delete (MetricsDashboardReconciler.client rm) (cluster w) e = (c', Some err) →
       MetricsDashboardReconciler.processDelta rm None (Some e) w =
         (Returned (Some err), log_call (CallDeleteConfigMap e) (set_cluster c' w))).
Proof.
  split_and!.
  - intros ra isvc w d w2 c' err Hreach Hcall.
    destruct (auth_reaches_apply_run _ _ _ _ _ _ Hreach) as (-> & _).
    by rewrite auth_processDelta_Add, Hcall.
  - intros ra isvc w d e w2 c' err Hreach Hcmp Hcall.
    destruct (auth_reaches_apply_run _ _ _ _ _ _ Hreach) as (-> & _).
    by rewrite auth_processDelta_Update, Hcall.
  - intros ra e w c' err Hcall.
    by rewrite auth_processDelta_Remove, Hcall.
  - intros rm isvc w d w2 c' err Hreach Hcall.
    destruct (metrics_reaches_apply_run _ _ _ _ _ _ Hreach) as (-> & _).
    by rewrite metrics_processDelta_Add, Hcall.
  - intros rm isvc w d e w2 c' err Hreach Hcmp Hcall.
    destruct (metrics_reaches_apply_run _ _ _ _ _ _ Hreach) as (-> & _).
    by rewrite metrics_processDelta_Update, Hcall.
  - intros rm e w c' err Hcall.
    by rewrite metrics_processDelta_Remove, Hcall.
Qed.

(** C6.  When the Delta is update, processDelta logs exactly one call, an
    update, and the object it writes has the spec (the data, for a
    ConfigMap) and the labels of the desired object and every other field
    of the existing one: type, status (immutable flag and binary data, for a
    ConfigMap) and all metadata but the labels, the resource version among
    them. *)
Theorem update_writes_merged_object :
  (∀ ra d e w,
     ComputeDelta GetAuthConfigComparator (Some d) (Some e) = DeltaUpdate →
     ∃ rp,
       calls (AuthConfigReconciler.processDelta ra (Some d) (Some e) w).2
         = (calls w ++ [CallStoreUpdate rp])%list
       ∧ ac_Spec rp = ac_Spec d
       ∧ Labels (ac_ObjectMeta rp) = Labels (ac_ObjectMeta d)
       ∧ ac_TypeMeta rp = ac_TypeMeta e
       ∧ ac_Status rp = ac_Status e
       ∧ ResourceVersion (ac_ObjectMeta rp) = ResourceVersion (ac_ObjectMeta e)
       ∧ set_Labels None (ac_ObjectMeta rp) = set_Labels None (ac_ObjectMeta e))
  ∧ (∀ rm d e w,
       ComputeDelta GetConfigMapComparator (Some d) (Some e) = DeltaUpdate →
       ∃ rp,
         calls (MetricsDashboardReconciler.processDelta rm (Some d) (Some e) w).2
           = (calls w ++ [CallUpdateConfigMap rp])%list
         ∧ cm_Data rp = cm_Data d
         ∧ Labels (cm_ObjectMeta rp) = Labels (cm_ObjectMeta d)
         ∧ cm_TypeMeta rp = cm_TypeMeta e
         ∧ cm_Immutable rp = cm_Immutable e
         ∧ cm_BinaryData rp = cm_BinaryData e
         ∧ ResourceVersion (cm_ObjectMeta rp) = ResourceVersion (cm_ObjectMeta e)
         ∧ set_Labels None (cm_ObjectMeta rp) = set_Labels None (cm_ObjectMeta e)).
Proof.
  split.
  - intros ra d e w Hdelta.
    apply ComputeDelta_Update in Hdelta as (d' & e' & [= <-] & [= <-] & Hcmp).
    exists (auth_merged d e). by rewrite auth_processDelta_Update.
  - intros rm d e w Hdelta.
    apply ComputeDelta_Update in Hdelta as (d' & e' & [= <-] & [= <-] & Hcmp).
    exists (cm_merged d e). by rewrite metrics_processDelta_Update.
Qed.

(** C7.  With the desired state built: when the fetch of the existing
    resource reports not-found, Reconcile goes on to processDelta with the
    existing resource absent; when it fails with any other error, Reconcile
    returns that error right after the fetch, the cluster unchanged and no
    create, update or delete logged. *)
Theorem fetch_not_found_is_absent :
  (∀ ra isvc w desired w1 err,
     Status_URL isvc ≠ None →
     AuthConfigReconciler.createDesiredResource ra isvc w = (Returned (desired, None), w1) →
     resources.Get (AuthConfigReconciler.store ra) (cluster w1) (isvc_key isvc) = inr err →
     let w2 := log_call (CallStoreGet (isvc_key isvc)) w1 in
     (IsNotFound (Some err) = true →
        AuthConfigReconciler.Reconcile ra isvc w = AuthConfigReconciler.processDelta ra desired None w2)
     ∧ (IsNotFound (Some err) = false →
          AuthConfigReconciler.Reconcile ra isvc w = (Returned (Some err), w2)
          ∧ cluster w2 = cluster w ∧ mutations (calls w2) = mutations (calls w)))
  ∧ (∀ rm isvc w desired w1 obj err,
       MetricsDashboardReconciler.createDesiredResource rm isvc w = (Returned (desired, None), w1) →
       client_GetConfigMap (MetricsDashboardReconciler.client rm) (cluster w1)
         (dashboard_key isvc) ConfigMap_zero = (obj, Some err) →
       let w2 := log_call (CallGetConfigMap (dashboard_key isvc)) w1 in
       (IsNotFound (Some err) = true →
          MetricsDashboardReconciler.Reconcile rm isvc w =
            MetricsDashboardReconciler.processDelta rm desired None w2)
       ∧ (IsNotFound (Some err) = false →
            MetricsDashboardReconciler.Reconcile rm isvc w = (Returned (Some err), w2)
            ∧ cluster w2 = cluster w ∧ mutations (calls w2) = mutations (calls w))).
Proof.
  split.
  - intros ra isvc w desired w1 err Hurl Hbuild Hget w2.
    rewrite (auth_Reconcile_run _ _ _ _ _ Hurl Hbuild), Hget.
    destruct (auth_createDesiredResource_reads _ _ _ _ _ Hbuild) as [Hc Hm].
    fold w2. split; intros ->; [done|]. split_and!; [done..|].
    unfold w2. simpl. by rewrite mutations_app, app_nil_r.
  - intros rm isvc w desired w1 obj err Hbuild Hget w2.
    rewrite (metrics_Reconcile_run _ _ _ _ _ Hbuild), Hget.
    destruct (metrics_createDesiredResource_reads _ _ _ _ _ Hbuild) as [Hc Hm].
    fold w2. split; intros ->; [done|]. split_and!; [done..|].
    unfold w2. simpl. by rewrite mutations_app, app_nil_r.
Qed.

(** C2.  Over a store that nobody else writes to, and with a comparator
    that is reflexive and looks only at the owned fields: when [existing]
    is what the store holds under the name [k] and processDelta has applied
    the action of the Delta of the desired/existing pair (create on add,
    merge-update on update, delete on remove, nothing on no-change) and
    returned nil, the Delta of the same desired value against what the store
    then holds under the same name is no-change ([k] being the name that the
    desired and the existing object carry).  This holds for
    KserveAuthConfigReconciler and for KserveMetricsDashboardReconciler. *)
Theorem apply_then_recompute_is_no_change :
  ComparatorLaws →
  (∀ ra, AuthConfigStoreLaws (AuthConfigReconciler.store ra) →
     ∀ w k desired existing w',
       auth_fetched (AuthConfigReconciler.store ra) (cluster w) k existing →
       (∀ d, desired = Some d → ac_key d = k) →
       (∀ e, existing = Some e → ac_key e = k) →
       AuthConfigReconciler.processDelta ra desired existing w = (Returned None, w') →
       ∃ existing',
         auth_fetched (AuthConfigReconciler.store ra) (cluster w') k existing'
         ∧ ComputeDelta GetAuthConfigComparator desired existing' = DeltaNoChange)
  ∧ (∀ rm, ClientLaws (MetricsDashboardReconciler.client rm) →
       ∀ w k desired existing w',
         cm_fetched (MetricsDashboardReconciler.client rm) (cluster w) k existing →
         (∀ d, desired = Some d → cm_key d = k) →
         (∀ e, existing = Some e → cm_key e = k) →
         MetricsDashboardReconciler.processDelta rm desired existing w = (Returned None, w') →
         ∃ existing',
           cm_fetched (MetricsDashboardReconciler.client rm) (cluster w') k existing'
           ∧ ComputeDelta GetConfigMapComparator desired existing' = DeltaNoChange).
Proof.
  intros Hcmp. split.
  - intros ra Hstore w k desired existing w' Hfetched Hkey Hkey' Hrun.
    destruct desired as [d|], existing as [e|].
    + destruct (GetAuthConfigComparator d e) eqn:Hde.
      * rewrite auth_processDelta_NoChange in Hrun by (simpl; by rewrite Hde).
        injection Hrun as <-. exists (Some e). simpl. by rewrite Hde.
      * rewrite auth_processDelta_Update in Hrun by done.
        destruct (resources.Update _ _ _) as [c' [err|]] eqn:Hcall; [done|].
        injection Hrun as <-. simpl.
        destruct (Update_Get _ Hstore _ _ _ Hcall) as (a' & Hget & Howned).
        assert (ac_key (auth_merged d e) = k) as Hk by apply (Hkey' e eq_refl).
        rewrite Hk in Hget. exists (Some a'). unfold auth_fetched. rewrite Hget.
        split; [done|]. simpl.
        rewrite (auth_Equal_owned Hcmp d d a' d), (auth_Equal_refl Hcmp); done.
    + rewrite auth_processDelta_Add in Hrun.
      destruct (resources.Create _ _ _) as [c' [err|]] eqn:Hcall; [done|].
      injection Hrun as <-. simpl.
      destruct (Create_Get _ Hstore _ _ _ Hcall) as (a' & Hget & Howned).
      rewrite (Hkey d eq_refl) in Hget. exists (Some a'). unfold auth_fetched.
      rewrite Hget. split; [done|]. simpl.
      rewrite (auth_Equal_owned Hcmp d d a' d), (auth_Equal_refl Hcmp); done.
    + rewrite auth_processDelta_Remove in Hrun.
      destruct (resources.Remove _ _ _) as [c' [err|]] eqn:Hcall; [done|].
      injection Hrun as <-. simpl.
      destruct (Remove_Get _ Hstore _ _ _ Hcall) as (err & Hget & Hnf).
      assert (ac_key e = k) as Hk by apply (Hkey' e eq_refl).
      rewrite Hk in Hget. exists None. unfold auth_fetched. by rewrite Hget.
    + rewrite auth_processDelta_NoChange in Hrun by done.
      injection Hrun as <-. by exists None.
  - intros rm Hstore w k desired existing w' Hfetched Hkey Hkey' Hrun.
    destruct desired as [d|], existing as [e|].
    + destruct (GetConfigMapComparator d e) eqn:Hde.
      * rewrite metrics_processDelta_NoChange in Hrun by (simpl; by rewrite Hde).
        injection Hrun as <-. exists (Some e). simpl. by rewrite Hde.
      * rewrite metrics_processDelta_Update in Hrun by done.
        destruct (client_Update _ _ _) as [c' [err|]] eqn:Hcall; [done|].
        injection Hrun as <-. simpl.
        destruct (client_Update_Get _ Hstore _ _ _ Hcall) as (a' & Hget & Howned).
        assert (cm_key (cm_merged d e) = k) as Hk by apply (Hkey' e eq_refl).
        rewrite Hk in Hget. exists (Some a'). unfold cm_fetched. rewrite Hget.
        split; [done|]. simpl.
        rewrite (cm_Equal_owned Hcmp d d a' d), (cm_Equal_refl Hcmp); done.
    + rewrite metrics_processDelta_Add in Hrun.
      destruct (client_Create _ _ _) as [c' [err|]] eqn:Hcall; [done|].
      injection Hrun as <-. simpl.
      destruct (client_Create_Get _ Hstore _ _ _ Hcall) as (a' & Hget & Howned).
      rewrite (Hkey d eq_refl) in Hget. exists (Some a'). unfold cm_fetched.
      rewrite Hget. split; [done|]. simpl.
      rewrite (cm_Equal_owned Hcmp d d a' d), (cm_Equal_refl Hcmp); done.
    + rewrite metrics_processDelta_Remove in Hrun.
      destruct (client_Delete _ _ _) as [c' [err|]] eqn:Hcall; [done|].
      injection Hrun as <-. simpl.
      destruct (client_Delete_Get _ Hstore _ _ _ Hcall) as (obj & err & Hget & Hnf).
      assert (cm_key e = k) as Hk by apply (Hkey' e eq_refl).
      rewrite Hk in Hget. exists None. unfold cm_fetched. by rewrite Hget.
    + rewrite metrics_processDelta_NoChange in Hrun by done.
      injection Hrun as <-. by exists None.
Qed.

End claims.

(** ** The build step of the metrics dashboard *)

Section build.
Import MetricsDashboardReconciler.
Context {C : Type} `{!ControllerRuntime} `{!Comparators} `{!GoLibrary C}.

(** C8, at the input where it fails.  When the InferenceService names a
    runtime and the Get of that ServingRuntime fails, leaving the object it
    was given (the zero ServingRuntime) as it was, createDesiredResource
    logs the error and goes on to read Containers[0] of a runtime without
    containers: the method, and with it Reconcile, panics with an index out
    of range. *)
Theorem createDesiredResource_panics_without_runtime
    (rm : KserveMetricsDashboardReconciler C) isvc w model runtimeName err :
  Spec_Predictor_Model isvc = Some model →
  Runtime model = Some runtimeName →
  client_GetServingRuntime (client rm) (cluster w)
    (mkNamespacedName (Namespace (isvc_ObjectMeta isvc)) runtimeName) ServingRuntime_zero
    = (ServingRuntime_zero, Some err) →
  let w1 := log_call (CallGetServingRuntime
                        (mkNamespacedName (Namespace (isvc_ObjectMeta isvc)) runtimeName)) w in
  createDesiredResource rm isvc w = (Panicked (IndexOutOfRange 0 0), w1)
  ∧ Reconcile rm isvc w = (Panicked (IndexOutOfRange 0 0), w1).
Proof.
  intros Hmodel Hruntime Hget w1.
  assert (createDesiredResource rm isvc w = (Panicked (IndexOutOfRange 0 0), w1)) as Hbuild.
  { unfold createDesiredResource. rewrite Hmodel.
    erewrite bind_returned by reflexivity. rewrite Hruntime.
    erewrite bind_returned by reflexivity.
    erewrite bind_returned by (unfold read_call; rewrite Hget; reflexivity).
    by apply bind_panicked. }
  split; [done|]. unfold Reconcile. by rewrite (bind_panicked _ _ _ _ _ Hbuild).
Qed.

End build.

(** ** utils.GetDeploymentModeForIsvc *)

Section deployment_mode.
Import utils.
Context {C : Type} `{!GoLibrary C}.

(** A decoded JSON value never has the dynamic type IsvcDeploymentMode. *)
Lemma deployData_never_IsvcDeploymentMode (deployData : option (gmap string JsonValue)) k t :
  any_eq_IsvcDeploymentMode (deployData_index deployData k) t = false.
Proof.
  unfold deployData_index. destruct deployData as [m|]; [|done].
  destruct (m !! k) as [[]|]; done.
Qed.

(** C10.  For an InferenceService without the deploymentMode annotation:
    when the operator namespace is read, the inferenceservice-config
    ConfigMap is fetched and json.Unmarshal of its deploy key succeeds,
    GetDeploymentModeForIsvc returns RawDeployment with a nil error,
    whatever the decoded defaultDeploymentMode is. *)
Theorem GetDeploymentModeForIsvc_default_is_RawDeployment
    (cli : Client C) isvc (w : World C) controllerNs w1 configMap deployData :
  map_index (Annotations (isvc_ObjectMeta isvc)) inferenceServiceDeploymentModeAnnotation = None →
  GetOperatorNamespace w = (Returned (controllerNs, None), w1) →
  client_GetConfigMap cli (cluster w1) (mkNamespacedName controllerNs KserveConfigMapName)
    ConfigMap_zero = (configMap, None) →
  json_Unmarshal_map (default "" (map_index (cm_Data configMap) "deploy")) = (deployData, None) →
  GetDeploymentModeForIsvc cli isvc w =
    (Returned (RawDeployment, None),
     log_call (CallGetConfigMap (mkNamespacedName controllerNs KserveConfigMapName)) w1).
Proof.
  intros Hann Hns Hget Hjson. unfold GetDeploymentModeForIsvc. rewrite Hann.
  rewrite (bind_returned _ _ _ _ _ Hns). simpl. run_go. simpl.
  rewrite Hget. simpl. rewrite Hjson. simpl.
  by rewrite deployData_never_IsvcDeploymentMode.
Qed.

End deployment_mode.

(** ** The comparators of the monitoring controller *)

Section monitoring.
Import reflect MonitoringReconciler.

(** The first operand of both comparators compares an ObjectMeta with a
    map[string]string, which are never deeply equal. *)
Lemma DeepEqual_ObjectMeta_Labels (m : ObjectMeta) (labels : option (gmap string string)) :
  DeepEqual (ObjectMetaValue m) (MapStringString labels) = false.
Proof. reflexivity. Qed.

(** C4, as the code has it.  arePeerAuthsEqual and areNetworkPoliciesEqual
    report every pair of objects as not equal, an object and an identical
    copy of itself included; arePeerAuthsEqual does so even when the found
    object is nil. *)
Theorem monitoring_comparators_never_equal :
  (∀ r : PeerAuthentication, arePeerAuthsEqual (Some r) (Some r) = Returned false)
  ∧ (∀ r : NetworkPolicy, areNetworkPoliciesEqual (Some r) (Some r) = Returned false)
  ∧ (∀ (desired : PeerAuthentication) (found : option PeerAuthentication),
       arePeerAuthsEqual (Some desired) found = Returned false)
  ∧ (∀ found desired : NetworkPolicy,
       areNetworkPoliciesEqual (Some found) (Some desired) = Returned false)
  ∧ arePeerAuthsEqual (Some (buildDesiredPeerAuth "caikit" "models" "mnist"))
                      (Some (buildDesiredPeerAuth "caikit" "models" "mnist")) = Returned false.
Proof. split_and!; reflexivity. Qed.

End monitoring.

(** ** The in-memory cluster obeys the laws *)

Section fake_laws.
#[local] Existing Instance fake.comparators.

Lemma fake_comparator_laws : ComparatorLaws.
Proof.
  split; simpl.
  - intros a. by rewrite !bool_decide_eq_true_2.
  - intros d d' e e' [= -> ->] [= -> ->]. done.
  - intros a. by rewrite !bool_decide_eq_true_2.
  - intros d d' e e' [= -> ->] [= -> ->]. done.
Qed.

Lemma fake_store_laws : AuthConfigStoreLaws fake.authConfigStore.
Proof.
  split; simpl.
  - intros c a c'. destruct (fake.authConfigs c !! ac_key a); [done|].
    intros [= <-]. simpl. rewrite lookup_insert_eq. by exists a.
  - intros c a c'. destruct (fake.authConfigs c !! ac_key a) as [old|]; [|done].
    case_decide; [|done]. intros [= <-]. simpl. rewrite lookup_insert_eq. by exists a.
  - intros c k c'. destruct (fake.authConfigs c !! k); [|done].
    intros [= <-]. simpl. rewrite lookup_delete_eq. by exists fake.notFound.
Qed.

Lemma fake_client_laws : ClientLaws fake.client.
Proof.
  split; simpl.
  - intros c a c'. destruct (fake.configMaps c !! cm_key a); [done|].
    intros [= <-]. simpl. rewrite lookup_insert_eq. by exists a.
  - intros c a c'. destruct (fake.configMaps c !! cm_key a) as [old|]; [|done].
    case_decide; [|done]. intros [= <-]. simpl. rewrite lookup_insert_eq. by exists a.
  - intros c a c'. destruct (fake.configMaps c !! cm_key a); [|done].
    intros [= <-]. simpl. rewrite lookup_delete_eq. by exists ConfigMap_zero, fake.notFound.
Qed.

End fake_laws.

(** ** The claims on the in-memory cluster *)

Section witnesses.
Import processors.
#[local] Existing Instances fake.controllerRuntime fake.comparators fake.goLibrary.

(** C9 on a service without URL. *)
Lemma Reconcile_waits_for_URL_witness :
  AuthConfigReconciler.Reconcile (fake.authConfigReconciler fake.authConfigStore)
    fake.notReady (fake.world fake.emptyCluster)
  = (Returned None, fake.world fake.emptyCluster).
Proof. apply Reconcile_waits_for_URL. reflexivity. Defined.

(** C5 on the second pass over a cluster that the first pass has filled. *)
Lemma no_change_no_mutation_witness :
  ∃ w2,
    AuthConfigReconciler.Reconcile (fake.authConfigReconciler fake.authConfigStore) fake.ready
      (AuthConfigReconciler.Reconcile (fake.authConfigReconciler fake.authConfigStore)
         fake.ready (fake.world fake.emptyCluster)).2
    = (Returned None, w2)
    ∧ mutations (calls w2)
      = mutations (calls (AuthConfigReconciler.Reconcile
                            (fake.authConfigReconciler fake.authConfigStore)
                            fake.ready (fake.world fake.emptyCluster)).2).
Proof.
  eexists.
  edestruct (proj1 (proj2 no_change_no_mutation)) as (Hrun & _ & Hcalls);
    [| |split; [exact Hrun|exact Hcalls]].
  - split; [done|]. eexists _, _. split_and!; [vm_compute; reflexivity..|by left].
  - vm_compute. reflexivity.
Defined.

(** C3 as stated fails for KserveAuthConfigReconciler: the account may not
    write, the create is refused with a permission error, and Reconcile
    returns another error value than the one the store gave. *)
Lemma Reconcile_wraps_the_store_error :
  ∃ d w2,
    auth_reaches_apply (fake.authConfigReconciler (fake.denyWrites fake.authConfigStore))
      fake.ready (fake.world fake.emptyCluster) (Some d) None w2
    ∧ resources.Create (fake.denyWrites fake.authConfigStore) (cluster w2) d
      = (cluster w2, Some fake.forbidden)
    ∧ (AuthConfigReconciler.Reconcile
         (fake.authConfigReconciler (fake.denyWrites fake.authConfigStore))
         fake.ready (fake.world fake.emptyCluster)).1
      = Returned (Some (withMessage fake.forbidden
                          "could not store AuthConfig mnist for InferenceService mnist"))
    ∧ (AuthConfigReconciler.Reconcile
         (fake.authConfigReconciler (fake.denyWrites fake.authConfigStore))
         fake.ready (fake.world fake.emptyCluster)).1
      ≠ Returned (Some fake.forbidden).
Proof.
  eexists _, _. split_and!.
  - split; [done|]. eexists _, _. split_and!; [vm_compute; reflexivity..|by right].
  - reflexivity.
  - vm_compute. reflexivity.
  - vm_compute. discriminate.
Defined.

(** C3, as the code has it, for both reconcilers over an account that may
    not write: the refused create on an empty cluster, the refused update
    of the stored objects, and the refused delete in processDelta. *)
Lemma apply_failure_propagates_witness :
  (∃ d c' w2,
     AuthConfigReconciler.Reconcile
       (fake.authConfigReconciler (fake.denyWrites fake.authConfigStore))
       fake.ready (fake.world fake.emptyCluster)
     = (Returned (Some (withMessage fake.forbidden (auth_store_message d))),
        log_call (CallStoreCreate d) (set_cluster c' w2)))
  ∧ (∃ d c' w2,
       MetricsDashboardReconciler.Reconcile
         (fake.metricsReconciler (fake.denyClientWrites fake.client))
         fake.ready (fake.world fake.ovmsCluster)
       = (Returned (Some fake.forbidden),
          log_call (CallCreateConfigMap d) (set_cluster c' w2)))
  ∧ (∃ d c' w2,
       AuthConfigReconciler.Reconcile
         (fake.authConfigReconciler (fake.denyWrites fake.authConfigStore))
         fake.ready (fake.world fake.storedCluster)
       = (Returned (Some (withMessage fake.forbidden (auth_store_message d))),
          log_call (CallStoreUpdate (auth_merged d fake.storedAuthConfig)) (set_cluster c' w2)))
  ∧ (∃ d c' w2,
       MetricsDashboardReconciler.Reconcile
         (fake.metricsReconciler (fake.denyClientWrites fake.client))
         fake.ready (fake.world fake.dashboardCluster)
       = (Returned (Some fake.forbidden),
          log_call (CallUpdateConfigMap (cm_merged d fake.storedConfigMap)) (set_cluster c' w2)))
  ∧ AuthConfigReconciler.processDelta
      (fake.authConfigReconciler (fake.denyWrites fake.authConfigStore))
      None (Some fake.storedAuthConfig) (fake.world fake.storedCluster)
    = (Returned (Some (withMessage fake.forbidden
                         "could not remove AuthConfig mnist for InferenceService mnist")),
       log_call (CallStoreRemove (mkNamespacedName "models" "mnist"))
         (fake.world fake.storedCluster))
  ∧ MetricsDashboardReconciler.processDelta
      (fake.metricsReconciler (fake.denyClientWrites fake.client))
      None (Some fake.storedConfigMap) (fake.world fake.storedCluster)
    = (Returned (Some fake.forbidden),
       log_call (CallDeleteConfigMap fake.storedConfigMap) (fake.world fake.storedCluster)).
Proof.
  split_and!.
  - eexists _, _, _. eapply (proj1 apply_failure_propagates).
    + split; [done|]. eexists _, _. split_and!; [vm_compute; reflexivity..|by right].
    + reflexivity.
  - eexists _, _, _. eapply (proj1 (proj2 (proj2 (proj2 apply_failure_propagates)))).
    + eexists. split; vm_compute; reflexivity.
    + reflexivity.
  - eexists _, _, _. eapply (proj1 (proj2 apply_failure_propagates)).
    + split; [done|]. eexists _, _. split_and!; [vm_compute; reflexivity..|by left].
    + vm_compute. reflexivity.
    + reflexivity.
  - eexists _, _, _.
    eapply (proj1 (proj2 (proj2 (proj2 (proj2 apply_failure_propagates))))).
    + eexists. split; vm_compute; reflexivity.
    + vm_compute. reflexivity.
    + reflexivity.
  - apply (proj1 (proj2 (proj2 apply_failure_propagates))
             (fake.authConfigReconciler (fake.denyWrites fake.authConfigStore))
             fake.storedAuthConfig (fake.world fake.storedCluster) fake.storedCluster
             fake.forbidden).
    reflexivity.
  - apply (proj2 (proj2 (proj2 (proj2 (proj2 apply_failure_propagates))))
             (fake.metricsReconciler (fake.denyClientWrites fake.client))
             fake.storedConfigMap (fake.world fake.storedCluster) fake.storedCluster
             fake.forbidden).
    reflexivity.
Defined.

(** C6 on a stored AuthConfig with resource version 41 and a stored
    ConfigMap with resource version 17. *)
Lemma update_writes_merged_object_witness :
  (∃ rp,
     calls (AuthConfigReconciler.processDelta (fake.authConfigReconciler fake.authConfigStore)
              (Some fake.desiredAuthConfig) (Some fake.storedAuthConfig)
              (fake.world fake.emptyCluster)).2
       = [CallStoreUpdate rp]
     ∧ ac_Spec rp = ac_Spec fake.desiredAuthConfig
     ∧ Labels (ac_ObjectMeta rp) = Labels (ac_ObjectMeta fake.desiredAuthConfig)
     ∧ ResourceVersion (ac_ObjectMeta rp) = "41"
     ∧ Annotations (ac_ObjectMeta rp) = Some {["note" := "kept"]}
     ∧ ac_Status rp = "ready")
  ∧ (∃ rp,
       calls (MetricsDashboardReconciler.processDelta (fake.metricsReconciler fake.client)
                (Some fake.desiredConfigMap) (Some fake.storedConfigMap)
                (fake.world fake.emptyCluster)).2
         = [CallUpdateConfigMap rp]
       ∧ cm_Data rp = cm_Data fake.desiredConfigMap
       ∧ Labels (cm_ObjectMeta rp) = None
       ∧ ResourceVersion (cm_ObjectMeta rp) = "17"
       ∧ cm_BinaryData rp = Some {["blob" := "AAAA"]}).
Proof.
  split.
  - destruct (proj1 update_writes_merged_object
                (fake.authConfigReconciler fake.authConfigStore)
                fake.desiredAuthConfig fake.storedAuthConfig (fake.world fake.emptyCluster))
      as (rp & Hcalls & Hspec & Hlabels & Htype & Hstatus & Hrv & Hmeta);
      [vm_compute; reflexivity|].
    exists rp. split_and!; [done..| |done].
    by apply (f_equal Annotations) in Hmeta.
  - destruct (proj2 update_writes_merged_object
                (fake.metricsReconciler fake.client)
                fake.desiredConfigMap fake.storedConfigMap (fake.world fake.emptyCluster))
      as (rp & Hcalls & Hdata & Hlabels & Htype & Himm & Hbin & Hrv & Hmeta);
      [vm_compute; reflexivity|].
    exists rp. split_and!; done.
Defined.

(** C7: not-found on the empty cluster, a permission error for an account
    that may not read. *)
Lemma fetch_not_found_is_absent_witness :
  (∃ desired w1,
     AuthConfigReconciler.Reconcile (fake.authConfigReconciler fake.authConfigStore)
       fake.ready (fake.world fake.emptyCluster)
     = AuthConfigReconciler.processDelta (fake.authConfigReconciler fake.authConfigStore)
         desired None (log_call (CallStoreGet (isvc_key fake.ready)) w1))
  ∧ (∃ w1,
       AuthConfigReconciler.Reconcile
         (fake.authConfigReconciler (fake.denyReads fake.authConfigStore))
         fake.ready (fake.world fake.emptyCluster)
       = (Returned (Some fake.forbidden), log_call (CallStoreGet (isvc_key fake.ready)) w1))
  ∧ (∃ w1,
       MetricsDashboardReconciler.Reconcile
         (fake.metricsReconciler (fake.denyClientReads fake.client))
         fake.ready (fake.world fake.ovmsCluster)
       = (Returned (Some fake.forbidden), log_call (CallGetConfigMap (dashboard_key fake.ready)) w1)).
Proof.
  split_and!.
  - eexists _, _.
    eapply (proj1 fetch_not_found_is_absent
              (fake.authConfigReconciler fake.authConfigStore) fake.ready
              (fake.world fake.emptyCluster) _ _ fake.notFound);
      [done|vm_compute; reflexivity|reflexivity..].
  - eexists.
    eapply (proj1 fetch_not_found_is_absent
              (fake.authConfigReconciler (fake.denyReads fake.authConfigStore)) fake.ready
              (fake.world fake.emptyCluster) _ _ fake.forbidden);
      [done|vm_compute; reflexivity|reflexivity..].
  - eexists.
    eapply (proj2 fetch_not_found_is_absent
              (fake.metricsReconciler (fake.denyClientReads fake.client)) fake.ready
              (fake.world fake.ovmsCluster) _ _ ConfigMap_zero fake.forbidden);
      [vm_compute; reflexivity|reflexivity..].
Defined.

(** C2 on the in-memory store: after the create on the empty cluster and
    after the update of the stored object, the Delta is no-change. *)
Lemma apply_then_recompute_is_no_change_witness :
  (∃ existing',
     auth_fetched fake.authConfigStore
       (cluster (AuthConfigReconciler.processDelta (fake.authConfigReconciler fake.authConfigStore)
                   (Some fake.desiredAuthConfig) None (fake.world fake.emptyCluster)).2)
       (ac_key fake.desiredAuthConfig) existing'
     ∧ ComputeDelta GetAuthConfigComparator (Some fake.desiredAuthConfig) existing' = DeltaNoChange)
  ∧ (∃ existing',
       auth_fetched fake.authConfigStore
         (cluster (AuthConfigReconciler.processDelta (fake.authConfigReconciler fake.authConfigStore)
                     (Some fake.desiredAuthConfig) (Some fake.storedAuthConfig)
                     (fake.world fake.storedCluster)).2)
         (ac_key fake.desiredAuthConfig) existing'
       ∧ ComputeDelta GetAuthConfigComparator (Some fake.desiredAuthConfig) existing' = DeltaNoChange)
  ∧ (∃ existing',
       cm_fetched fake.client
         (cluster (MetricsDashboardReconciler.processDelta (fake.metricsReconciler fake.client)
                     None (Some fake.storedConfigMap) (fake.world fake.storedCluster)).2)
         (cm_key fake.storedConfigMap) existing'
       ∧ ComputeDelta GetConfigMapComparator None existing' = DeltaNoChange).
Proof.
  split_and!.
  - eapply (proj1 (apply_then_recompute_is_no_change fake_comparator_laws)
              (fake.authConfigReconciler fake.authConfigStore) fake_store_laws
              (fake.world fake.emptyCluster) _ _ None).
    + vm_compute. by split.
    + by intros d [= <-].
    + by intros e [=].
    + vm_compute. reflexivity.
  - eapply (proj1 (apply_then_recompute_is_no_change fake_comparator_laws)
              (fake.authConfigReconciler fake.authConfigStore) fake_store_laws
              (fake.world fake.storedCluster) _ _ (Some fake.storedAuthConfig)).
    + vm_compute. reflexivity.
    + by intros d [= <-].
    + by intros e [= <-].
    + vm_compute. reflexivity.
  - eapply (proj2 (apply_then_recompute_is_no_change fake_comparator_laws)
              (fake.metricsReconciler fake.client) fake_client_laws
              (fake.world fake.storedCluster) _ None (Some fake.storedConfigMap)).
    + vm_compute. reflexivity.
    + by intros d [=].
    + by intros e [= <-].
    + vm_compute. reflexivity.
Defined.

(** C8 on an InferenceService whose runtime "ovms" is not in the cluster. *)
Lemma createDesiredResource_panics_without_runtime_witness :
  MetricsDashboardReconciler.createDesiredResource (fake.metricsReconciler fake.client)
    fake.ready (fake.world fake.emptyCluster)
  = (Panicked (IndexOutOfRange 0 0),
     log_call (CallGetServingRuntime (mkNamespacedName "models" "ovms"))
       (fake.world fake.emptyCluster))
  ∧ MetricsDashboardReconciler.Reconcile (fake.metricsReconciler fake.client)
      fake.ready (fake.world fake.emptyCluster)
    = (Panicked (IndexOutOfRange 0 0),
       log_call (CallGetServingRuntime (mkNamespacedName "models" "ovms"))
         (fake.world fake.emptyCluster)).
Proof.
  apply (createDesiredResource_panics_without_runtime
           (fake.metricsReconciler fake.client) fake.ready (fake.world fake.emptyCluster)
           (mkModelSpec "onnx" (Some "ovms")) "ovms" fake.notFound); reflexivity.
Defined.

(** C10 on a ConfigMap whose deploy key decodes to
    defaultDeploymentMode = "Serverless". *)
Lemma GetDeploymentModeForIsvc_default_is_RawDeployment_witness :
  json_Unmarshal_map fake.deployServerless
    = (Some {["defaultDeploymentMode" := JsonString "Serverless"]}, None)
  ∧ (utils.GetDeploymentModeForIsvc fake.client fake.ready (fake.world fake.configCluster)).1
    = Returned (utils.RawDeployment, None).
Proof.
  split; [reflexivity|].
  erewrite (GetDeploymentModeForIsvc_default_is_RawDeployment fake.client fake.ready
              (fake.world fake.configCluster));
    [reflexivity|reflexivity|vm_compute; reflexivity|vm_compute; reflexivity..].
Defined.

End witnesses.

(** ** More about the code *)

Section monitoring_passes.
Import MonitoringReconciler.
Context {C : Type} `{!GoLibrary C}.
Implicit Types (r : KserveMonitoringReconciler C) (req : NamespacedName) (w : World C).

Lemma foundPeerAuth_run r supportedFormat ns w :
  foundPeerAuth r supportedFormat ns w =
    (Returned
       (let '(peerAuth, err) :=
          client_GetPeerAuthentication (Client r) (cluster w)
            (mkNamespacedName ns (supportedFormat ++ "-metrics")) PeerAuthentication_zero in
        if IsNotFound err then (false, None, None)
        else if not_nil err then (false, None, err)
        else (true, Some peerAuth, None)),
     log_call (CallGetPeerAuthentication (mkNamespacedName ns (supportedFormat ++ "-metrics"))) w).
Proof.
  unfold foundPeerAuth. run_go. simpl.
  destruct (client_GetPeerAuthentication _ _ _ _) as [peerAuth err].
  by destruct (IsNotFound err), (not_nil err).
Qed.

(** X1.  When the PeerAuthentication "caikit-metrics" is found,
    reconcilePeerAuthentication makes no further call and returns nil. *)
Theorem reconcilePeerAuthentication_found r req inferenceService w model found :
  Spec_Predictor_Model inferenceService = Some model →
  ModelFormat_Name model = "caikit" →
  client_GetPeerAuthentication (Client r) (cluster w)
    (mkNamespacedName (nn_Namespace req) "caikit-metrics") PeerAuthentication_zero
    = (found, None) →
  reconcilePeerAuthentication r req inferenceService w =
    (Returned None,
     log_call (CallGetPeerAuthentication (mkNamespacedName (nn_Namespace req) "caikit-metrics")) w).
Proof.
  intros Hmodel Hformat Hget. unfold reconcilePeerAuthentication. rewrite Hmodel.
  erewrite bind_returned by reflexivity. rewrite Hformat. simpl.
  erewrite bind_returned by apply foundPeerAuth_run.
  change ("caikit" ++ "-metrics") with "caikit-metrics". by rewrite Hget.
Qed.

(** X23.  When the PeerAuthentication is not found, reconcilePeerAuthentication
    runs createPeerAuth on the desired object and returns nil whatever
    createPeerAuth returned. *)
Lemma reconcilePeerAuthentication_drops_create_error r req inferenceService w model obj err :
  Spec_Predictor_Model inferenceService = Some model →
  ModelFormat_Name model = "caikit" →
  client_GetPeerAuthentication (Client r) (cluster w)
    (mkNamespacedName (nn_Namespace req) "caikit-metrics") PeerAuthentication_zero
    = (obj, Some err) →
  IsNotFound (Some err) = true →
  reconcilePeerAuthentication r req inferenceService w =
    (Returned None,
     (createPeerAuth r
        (buildDesiredPeerAuth "caikit" (nn_Namespace req) (Name (isvc_ObjectMeta inferenceService)))
        (nn_Namespace req)
        (log_call (CallGetPeerAuthentication (mkNamespacedName (nn_Namespace req) "caikit-metrics"))
           w)).2).
Proof.
  intros Hmodel Hformat Hget Hnf. unfold reconcilePeerAuthentication. rewrite Hmodel.
  erewrite bind_returned by reflexivity. rewrite Hformat. simpl.
  erewrite bind_returned by apply foundPeerAuth_run.
  change ("caikit" ++ "-metrics") with "caikit-metrics". rewrite Hget, Hnf. simpl.
  unfold createPeerAuth, lift. run_go. simpl.
  destruct (clientcmd_BuildConfigFromFlags _ _ _ _); simpl; [done|].
  destruct (istioclient_NewForConfig _ _); simpl; [done|].
  by destruct (istio_CreatePeerAuthentication _ _ _ _) as [c' [e|]].
Qed.

(** reconcileNetWorkPolicy issues a create of the desired NetworkPolicy in
    every pass, whatever the Get returned, and returns the error of that
    create. *)
Lemma reconcileNetWorkPolicy_always_creates r req inferenceService w :
  reconcileNetWorkPolicy r req inferenceService w =
    let w1 := log_call (CallGetNetworkPolicy (mkNamespacedName (nn_Namespace req) networkPolicyName)) w in
    let created := client_CreateNetworkPolicy (Client r) (cluster w1) (desiredNetworkPolicy (nn_Namespace req)) in
    (Returned created.2,
     log_call (CallCreateNetworkPolicy (desiredNetworkPolicy (nn_Namespace req)))
       (set_cluster created.1 w1)).
Proof.
  unfold reconcileNetWorkPolicy. run_go. simpl.
  destruct (client_GetNetworkPolicy _ _ _ _) as [networkPolicy gerr]. simpl.
  assert ((if IsNotFound gerr then false else if not_nil gerr then false else false) = false)
    as -> by (by destruct (IsNotFound gerr), (not_nil gerr)).
  simpl. by destruct (client_CreateNetworkPolicy _ _ _) as [c' [e|]].
Qed.

End monitoring_passes.

Section more_passes.
Import utils.
Context {C : Type} `{!ControllerRuntime} `{!Comparators} `{!GoLibrary C}.

(** X2.  A deploymentMode annotation with one of the three known values
    (ModelMesh, Serverless, RawDeployment) decides the mode: it is returned
    with a nil error and no call is made. *)
Theorem GetDeploymentModeForIsvc_annotation (cli : Client C) isvc (w : World C) value :
  map_index (Annotations (isvc_ObjectMeta isvc)) inferenceServiceDeploymentModeAnnotation
    = Some value →
  value ∈ [ModelMesh; Serverless; RawDeployment] →
  GetDeploymentModeForIsvc cli isvc w = (Returned (value, None), w).
Proof.
  intros Hann Hvalue. unfold GetDeploymentModeForIsvc. rewrite Hann.
  destruct (decide (value = ModelMesh)) as [->|Hmesh]; [reflexivity|].
  destruct (decide (value = Serverless)) as [->|Hserverless]; [reflexivity|].
  destruct (decide (value = RawDeployment)) as [->|Hraw]; [reflexivity|].
  revert Hvalue. rewrite !elem_of_cons, elem_of_nil. naive_solver.
Qed.

(** X3.  IsDeploymentModeForIsvcModelMesh holds exactly when the deploymentMode
    annotation is "ModelMesh". *)
Theorem IsDeploymentModeForIsvcModelMesh_iff isvc :
  IsDeploymentModeForIsvcModelMesh isvc = true ↔
  map_index (Annotations (isvc_ObjectMeta isvc)) "serving.kserve.io/deploymentMode"
    = Some "ModelMesh".
Proof.
  unfold IsDeploymentModeForIsvcModelMesh, inferenceServiceDeploymentModeAnnotation.
  destruct (map_index _ _) as [value|]; [|done].
  rewrite bool_decide_eq_true. unfold ModelMesh. naive_solver.
Qed.

(** X4.  monitoringThisNameSpace holds exactly when the service-mesh annotation
    is "enabled". *)
Theorem monitoringThisNameSpace_iff ns annotations :
  MonitoringReconciler.monitoringThisNameSpace ns annotations = true ↔
  map_index annotations "opendatahub.io/service-mesh" = Some "enabled".
Proof.
  unfold MonitoringReconciler.monitoringThisNameSpace.
  destruct (map_index _ _) as [enabled|]; [|done].
  case_decide; naive_solver.
Qed.

(** X5.  KserveAuthConfigReconciler.Remove issues one store Remove keyed by the
    name and namespace of the InferenceService and returns its error as it
    is. *)
Theorem Remove_is_one_store_call (ra : AuthConfigReconciler.KserveAuthConfigReconciler C)
    isvc (w : World C) :
  AuthConfigReconciler.Remove ra isvc w =
    (Returned (resources.Remove (AuthConfigReconciler.store ra) (cluster w) (isvc_key isvc)).2,
     log_call (CallStoreRemove (isvc_key isvc))
       (set_cluster (resources.Remove (AuthConfigReconciler.store ra) (cluster w)
                       (isvc_key isvc)).1 w)).
Proof.
  unfold AuthConfigReconciler.Remove, write_call. fold (isvc_key isvc).
  by destruct (resources.Remove _ _ _).
Qed.

(** X6.  When the AuthType cannot be detected, KserveAuthConfigReconciler.Reconcile
    returns the detector's error wrapped in a "could not detect AuthType"
    message after that one lookup: no template is loaded and the store is
    neither read nor written. *)
Theorem Reconcile_detect_error (ra : AuthConfigReconciler.KserveAuthConfigReconciler C)
    isvc (w : World C) err :
  Status_URL isvc ≠ None →
  resources.Detect (AuthConfigReconciler.detector ra) (cluster w) isvc = inr err →
  AuthConfigReconciler.Reconcile ra isvc w =
    (Returned (Some (withMessage err
       ("could not detect AuthType for InferenceService " ++
        NamespacedName_String (isvc_key isvc)))),
     log_call (CallDetect (isvc_key isvc)) w).
Proof.
  intros Hurl Hdetect.
  assert (AuthConfigReconciler.createDesiredResource ra isvc w =
            (Returned (None, Some (withMessage err
               ("could not detect AuthType for InferenceService " ++
                NamespacedName_String (isvc_key isvc)))),
             log_call (CallDetect (isvc_key isvc)) w)) as Hbuild.
  { unfold AuthConfigReconciler.createDesiredResource. fold (isvc_key isvc).
    erewrite bind_returned by reflexivity. by rewrite Hdetect. }
  unfold AuthConfigReconciler.Reconcile.
  destruct (Status_URL isvc); [simpl|done].
  by rewrite (bind_returned _ _ _ _ _ Hbuild).
Qed.

(** X7.  The desired PeerAuthentication is named after the model format, is
    labelled as managed, asks for mutual TLS mode 3, and for "caikit" sets
    mode 2 on port 8086; other formats get no port-level setting. *)
Theorem buildDesiredPeerAuth_fields supportedFormat ns isvcName :
  let desired := MonitoringReconciler.buildDesiredPeerAuth supportedFormat ns isvcName in
  Name (pa_ObjectMeta desired) = supportedFormat ++ "-metrics"
  ∧ Namespace (pa_ObjectMeta desired) = ns
  ∧ Labels (pa_ObjectMeta desired) = Some {["opendatahub.io/managed" := "true"]}
  ∧ Mtls (pa_Spec desired) = Some (mkMutualTLS 3)
  ∧ PortLevelMtls (pa_Spec desired) =
      if bool_decide (supportedFormat = "caikit")
      then Some {[8086%N := Some (mkMutualTLS 2)]} else None.
Proof.
  unfold MonitoringReconciler.buildDesiredPeerAuth. simpl.
  case_decide; [rewrite bool_decide_eq_true_2|rewrite bool_decide_eq_false_2]; done.
Qed.

End more_passes.

Section more_witnesses.
#[local] Existing Instances fake.controllerRuntime fake.comparators fake.goLibrary.

Lemma reconcilePeerAuthentication_found_witness :
  MonitoringReconciler.reconcilePeerAuthentication
    {| MonitoringReconciler.Client := fake.monitoringClient true false |}
    (mkNamespacedName "models" "mnist") fake.caikit (fake.world fake.emptyCluster)
  = (Returned None,
     log_call (CallGetPeerAuthentication (mkNamespacedName "models" "caikit-metrics"))
       (fake.world fake.emptyCluster)).
Proof.
  apply (reconcilePeerAuthentication_found
           {| MonitoringReconciler.Client := fake.monitoringClient true false |}
           (mkNamespacedName "models" "mnist") fake.caikit (fake.world fake.emptyCluster)
           (mkModelSpec "caikit" (Some "caikit-runtime"))
           (MonitoringReconciler.buildDesiredPeerAuth "caikit" "models" "mnist"));
    reflexivity.
Defined.

Lemma reconcilePeerAuthentication_drops_create_error_witness :
  (MonitoringReconciler.reconcilePeerAuthentication
     {| MonitoringReconciler.Client := fake.monitoringClient false true |}
     (mkNamespacedName "models" "mnist") fake.caikit (fake.world fake.emptyCluster)).1
  = Returned None
  ∧ (MonitoringReconciler.createPeerAuth
       {| MonitoringReconciler.Client := fake.monitoringClient false true |}
       (MonitoringReconciler.buildDesiredPeerAuth "caikit" "models" "mnist") "models"
       (fake.world fake.emptyCluster)).1
    = Returned (Some fake.forbidden).
Proof.
  split; [|reflexivity].
  rewrite (reconcilePeerAuthentication_drops_create_error
             {| MonitoringReconciler.Client := fake.monitoringClient false true |}
             (mkNamespacedName "models" "mnist") fake.caikit (fake.world fake.emptyCluster)
             (mkModelSpec "caikit" (Some "caikit-runtime"))
             PeerAuthentication_zero fake.notFound); reflexivity.
Defined.

Lemma GetDeploymentModeForIsvc_annotation_witness :
  utils.GetDeploymentModeForIsvc fake.client (fake.annotated "Serverless")
    (fake.world fake.emptyCluster)
  = (Returned (utils.Serverless, None), fake.world fake.emptyCluster).
Proof.
  apply (GetDeploymentModeForIsvc_annotation fake.client (fake.annotated "Serverless")
           (fake.world fake.emptyCluster) "Serverless"); [reflexivity|].
  rewrite !elem_of_cons. right. by left.
Defined.

Lemma Reconcile_detect_error_witness :
  AuthConfigReconciler.Reconcile
    {| AuthConfigReconciler.detector := fake.failingDetector;
       AuthConfigReconciler.store := fake.authConfigStore;
       AuthConfigReconciler.templateLoader := fake.templateLoader;
       AuthConfigReconciler.hostExtractor := fake.hostExtractor |}
    fake.ready (fake.world fake.emptyCluster)
  = (Returned (Some (withMessage (errorString "connection refused")
                       "could not detect AuthType for InferenceService models/mnist")),
     log_call (CallDetect (mkNamespacedName "models" "mnist")) (fake.world fake.emptyCluster)).
Proof.
  apply (Reconcile_detect_error
           {| AuthConfigReconciler.detector := fake.failingDetector;
              AuthConfigReconciler.store := fake.authConfigStore;
              AuthConfigReconciler.templateLoader := fake.templateLoader;
              AuthConfigReconciler.hostExtractor := fake.hostExtractor |}
           fake.ready (fake.world fake.emptyCluster) (errorString "connection refused"));
    [done|reflexivity].
Defined.

End more_witnesses.

(** ** KserveAuthConfigReconciler: the whole pass *)

Section authconfig_pass.
Import processors AuthConfigReconciler.
Context {C : Type} `{!ControllerRuntime} `{!Comparators}.
Implicit Types (r : KserveAuthConfigReconciler C) (isvc : InferenceService) (w : World C).

Lemma removals_mutations l : removals l = filter (λ c, is_removal c = true) (mutations l).
Proof.
  unfold removals, mutations. induction l as [|c l IH]; [done|].
  rewrite !filter_cons. destruct c; simpl; repeat case_decide; try done;
    rewrite ?filter_cons; simpl; repeat case_decide; try done; by f_equal.
Qed.

Lemma removals_same (l1 l2 : list Call) :
  mutations l1 = mutations l2 → removals l1 = removals l2.
Proof. intros Heq. rewrite (removals_mutations l1), (removals_mutations l2). by rewrite Heq. Qed.

(** The build step of the AuthConfig reconciler always returns, only reads,
    and gives a desired state exactly when it gives no error. *)
Lemma auth_createDesiredResource_returns r isvc w :
  ∃ desired err w1,
    createDesiredResource r isvc w = (Returned (desired, err), w1)
    ∧ cluster w1 = cluster w
    ∧ mutations (calls w1) = mutations (calls w)
    ∧ (err = None → is_Some desired).
Proof.
  destruct (createDesiredResource r isvc w) as [res w1] eqn:Hrun.
  destruct (auth_createDesiredResource_reads _ _ _ _ _ Hrun) as [Hc Hm].
  revert Hrun. unfold createDesiredResource. run_go. simpl.
  destruct (resources.Detect _ _ _) as [authType|e]; simpl.
  - destruct (resources.Load _ _ _ _) as [template|e]; simpl; intros [= <- <-]; eauto 10.
    eexists _, _, _. split_and!; [done..|]. done.
  - intros [= <- <-]. eexists _, _, _. split_and!; [done..|]. done.
Qed.

(** processDelta on a desired state that is present: it returns, and logs
    nothing, or one create, or one update. *)
Lemma auth_processDelta_present r d existing w :
  ∃ err w',
    processDelta r (Some d) existing w = (Returned err, w')
    ∧ (calls w' = calls w
       ∨ ∃ c, calls w' = (calls w ++ [c])%list ∧ is_mutation c = true ∧ is_removal c = false).
Proof.
  destruct existing as [e|].
  - destruct (GetAuthConfigComparator d e) eqn:Hcmp.
    + rewrite auth_processDelta_NoChange by (simpl; by rewrite Hcmp). eauto.
    + rewrite auth_processDelta_Update by done. eexists _, _. split; [done|].
      right. by eexists.
  - rewrite auth_processDelta_Add. eexists _, _. split; [done|]. right. by eexists.
Qed.

Lemma one_more_call (l : list Call) c :
  is_mutation c = true → is_removal c = false →
  (length (mutations (l ++ [c])) ≤ S (length (mutations l)))%nat
  ∧ removals (l ++ [c]) = removals l.
Proof.
  intros Hm Hr. unfold mutations, removals. rewrite !filter_app, length_app.
  rewrite (filter_cons_True _ c) by done. rewrite (filter_cons_False _ c) by (by rewrite Hr).
  rewrite !filter_nil, app_nil_r. simpl. split; [lia|done].
Qed.

(** X8.  As long as its collaborators (detector, template loader, host
    extractor, store) return, KserveAuthConfigReconciler.Reconcile returns
    too (it never panics), and one pass logs at most one store mutation and
    never a remove. *)
Theorem auth_Reconcile_returns_one_write r isvc w :
  ∃ err w',
    Reconcile r isvc w = (Returned err, w')
    ∧ (length (mutations (calls w')) ≤ S (length (mutations (calls w))))%nat
    ∧ removals (calls w') = removals (calls w).
Proof.
  destruct (Status_URL isvc) as [url|] eqn:Hurl.
  2:{ exists None, w. unfold Reconcile. rewrite Hurl. split_and!; [done|lia|done]. }
  destruct (auth_createDesiredResource_returns r isvc w)
    as (desired & err & w1 & Hbuild & Hc & Hm & Hsome).
  destruct err as [e|].
  { exists (Some e), w1. split_and!.
    - unfold Reconcile. rewrite Hurl. simpl. by rewrite (bind_returned _ _ _ _ _ Hbuild).
    - rewrite Hm. lia.
    - by apply removals_same. }
  destruct (Hsome eq_refl) as [d ->].
  assert (Status_URL isvc ≠ None) as Hurl' by (by rewrite Hurl).
  rewrite (auth_Reconcile_run _ _ _ _ _ Hurl' Hbuild). simpl.
  set (w2 := log_call (CallStoreGet (isvc_key isvc)) w1).
  assert (mutations (calls w2) = mutations (calls w)) as Hm2.
  { unfold w2. rewrite mutations_log_read by done. exact Hm. }
  assert (∀ existing, ∃ err w',
            processDelta r (Some d) existing w2 = (Returned err, w')
            ∧ (length (mutations (calls w')) ≤ S (length (mutations (calls w))))%nat
            ∧ removals (calls w') = removals (calls w)) as Happly.
  { intros existing.
    destruct (auth_processDelta_present r d existing w2) as (err & w' & Hrun & Hcalls).
    exists err, w'. split; [done|].
    destruct Hcalls as [->|(c & -> & Hmut & Hrem)].
    - rewrite Hm2. split; [lia|by apply removals_same].
    - destruct (one_more_call (calls w2) c Hmut Hrem) as [Hle ->].
      rewrite Hm2 in Hle. split; [lia|by apply removals_same]. }
  destruct (resources.Get _ _ _) as [existing|e]; [apply Happly|].
  destruct (bool_decide _); [apply Happly|].
  exists (Some e), w2. rewrite Hm2. split_and!; [done|lia|by apply removals_same].
Qed.

(** X9.  When the AuthType is detected and the template is loaded, the build
    step gives an AuthConfig named as the fetch step looks it up (the
    namespace and name of the InferenceService), with the extracted hosts,
    the rest of the template's spec, type, status and annotations, the label
    security.opendatahub.io/authorization-group = default, and every other
    label of the template as it was. *)
Theorem auth_createDesiredResource_shape r isvc w authType template :
  ControllerRuntimeLaws →
  resources.Detect (detector r) (cluster w) isvc = inl authType →
  resources.Load (templateLoader r) (cluster w) authType (isvc_key isvc) = inl template →
  ∃ d w1,
    createDesiredResource r isvc w = (Returned (Some d, None), w1)
    ∧ ac_key d = isvc_key isvc
    ∧ Hosts (ac_Spec d) = resources.Extract (hostExtractor r) isvc
    ∧ Policy (ac_Spec d) = Policy (ac_Spec template)
    ∧ map_index (Labels (ac_ObjectMeta d)) "security.opendatahub.io/authorization-group"
      = Some "default"
    ∧ (∀ k, k ≠ "security.opendatahub.io/authorization-group" →
         map_index (Labels (ac_ObjectMeta d)) k = map_index (Labels (ac_ObjectMeta template)) k)
    ∧ Annotations (ac_ObjectMeta d) = Annotations (ac_ObjectMeta template)
    ∧ ac_TypeMeta d = ac_TypeMeta template
    ∧ ac_Status d = ac_Status template.
Proof.
  intros Hscr Hdetect Hload. unfold createDesiredResource. fold (isvc_key isvc).
  erewrite bind_returned by reflexivity. rewrite Hdetect.
  erewrite bind_returned by reflexivity. simpl. rewrite Hload.
  eexists _, _. split; [reflexivity|].
  match goal with |- context [SetControllerReference isvc ?m] => set (meta := m) end.
  pose proof (SetControllerReference_frame Hscr isvc meta) as Hframe.
  set (meta' := (SetControllerReference isvc meta).1) in *.
  assert (Name meta' = Name meta) as Hname by (by rewrite <- Hframe).
  assert (Namespace meta' = Namespace meta) as Hns by (by rewrite <- Hframe).
  assert (Labels meta' = Labels meta) as Hlabels by (by rewrite <- Hframe).
  assert (Annotations meta' = Annotations meta) as Hann by (by rewrite <- Hframe).
  unfold ac_key. simpl. rewrite Hname, Hns, Hlabels, Hann. split_and!; try done.
  - simpl. apply lookup_insert_eq.
  - intros k Hk. simpl. rewrite lookup_insert_ne by done.
    destruct (Labels (ac_ObjectMeta template)); [done|]. apply lookup_empty.
Qed.

(** X10.  When the template cannot be loaded, Reconcile returns the loader's error
    wrapped in a "could not load template" message after the two lookups:
    the store is neither read nor written. *)
Theorem auth_Reconcile_load_error r isvc w authType err :
  Status_URL isvc ≠ None →
  resources.Detect (detector r) (cluster w) isvc = inl authType →
  resources.Load (templateLoader r) (cluster w) authType (isvc_key isvc) = inr err →
  Reconcile r isvc w =
    (Returned (Some (withMessage err
       ("could not load template for AuthType " ++ authType ++ " for InferenceService " ++
        NamespacedName_String (isvc_key isvc)))),
     log_call (CallLoad authType (isvc_key isvc)) (log_call (CallDetect (isvc_key isvc)) w)).
Proof.
  intros Hurl Hdetect Hload.
  assert (createDesiredResource r isvc w =
            (Returned (None, Some (withMessage err
               ("could not load template for AuthType " ++ authType ++
                " for InferenceService " ++ NamespacedName_String (isvc_key isvc)))),
             log_call (CallLoad authType (isvc_key isvc))
               (log_call (CallDetect (isvc_key isvc)) w))) as Hbuild.
  { unfold createDesiredResource. fold (isvc_key isvc).
    erewrite bind_returned by reflexivity. rewrite Hdetect.
    erewrite bind_returned by reflexivity. simpl. by rewrite Hload. }
  unfold Reconcile. destruct (Status_URL isvc); [simpl|done].
  by rewrite (bind_returned _ _ _ _ _ Hbuild).
Qed.

Lemma auth_built_key r isvc w d w1 :
  ControllerRuntimeLaws →
  createDesiredResource r isvc w = (Returned (Some d, None), w1) →
  ac_key d = isvc_key isvc.
Proof.
  intros Hscr. unfold createDesiredResource. fold (isvc_key isvc).
  erewrite bind_returned by reflexivity.
  destruct (resources.Detect _ _ _) as [authType|e]; [|by intros [=]].
  erewrite bind_returned by reflexivity. simpl.
  destruct (resources.Load _ _ _ _) as [template|e]; [|by intros [=]].
  intros [= <- _].
  match goal with |- context [SetControllerReference isvc ?m] => set (meta := m) end.
  pose proof (SetControllerReference_frame Hscr isvc meta) as Hframe.
  set (meta' := (SetControllerReference isvc meta).1) in *.
  unfold ac_key. simpl.
  assert (Name meta' = Name meta) as -> by (by rewrite <- Hframe).
  assert (Namespace meta' = Namespace meta) as -> by (by rewrite <- Hframe).
  done.
Qed.

(** After an apply that returned nil, the store holds under [k] an object
    that the comparator takes for the desired one. *)
Lemma auth_apply_then_fetch r w k desired existing w' :
  ComparatorLaws → AuthConfigStoreLaws (store r) →
  auth_fetched (store r) (cluster w) k existing →
  (∀ d, desired = Some d → ac_key d = k) →
  (∀ e, existing = Some e → ac_key e = k) →
  processDelta r desired existing w = (Returned None, w') →
  ∃ existing',
    auth_fetched (store r) (cluster w') k existing'
    ∧ ComputeDelta GetAuthConfigComparator desired existing' = DeltaNoChange.
Proof.
  intros Hcmp Hstore Hfetched Hkey Hkey' Hrun.
  assert (∀ d a', ac_owned a' = ac_owned d → GetAuthConfigComparator d a' = true) as Hsame.
  { intros d a' Ho. by rewrite (auth_Equal_owned Hcmp d d a' d), (auth_Equal_refl Hcmp). }
  destruct desired as [d|], existing as [e|].
  - destruct (GetAuthConfigComparator d e) eqn:Hde.
    + rewrite auth_processDelta_NoChange in Hrun by (simpl; by rewrite Hde).
      injection Hrun as <-. exists (Some e). simpl. by rewrite Hde.
    + rewrite auth_processDelta_Update in Hrun by done.
      destruct (resources.Update _ _ _) as [c' [err|]] eqn:Hcall; [done|].
      injection Hrun as <-. simpl.
      destruct (Update_Get _ Hstore _ _ _ Hcall) as (a' & Hget & Howned).
      replace (ac_key (auth_merged d e)) with k in Hget by (symmetry; apply (Hkey' e eq_refl)).
      exists (Some a'). unfold auth_fetched. rewrite Hget. split; [done|]. simpl.
      by rewrite Hsame.
  - rewrite auth_processDelta_Add in Hrun.
    destruct (resources.Create _ _ _) as [c' [err|]] eqn:Hcall; [done|].
    injection Hrun as <-. simpl.
    destruct (Create_Get _ Hstore _ _ _ Hcall) as (a' & Hget & Howned).
    rewrite (Hkey d eq_refl) in Hget. exists (Some a'). unfold auth_fetched.
    rewrite Hget. split; [done|]. simpl. by rewrite Hsame.
  - rewrite auth_processDelta_Remove in Hrun.
    destruct (resources.Remove _ _ _) as [c' [err|]] eqn:Hcall; [done|].
    injection Hrun as <-. simpl.
    destruct (Remove_Get _ Hstore _ _ _ Hcall) as (err & Hget & Hnf).
    rewrite (Hkey' e eq_refl) in Hget. exists None. unfold auth_fetched. by rewrite Hget.
  - rewrite auth_processDelta_NoChange in Hrun by done.
    injection Hrun as <-. by exists None.
Qed.

(** X11.  Replay.  Over a store that nobody else writes to and whose object under
    the InferenceService's name, if any, carries that name, with a
    comparator that is reflexive and looks only at the owned fields: when a
    pass of KserveAuthConfigReconciler.Reconcile has returned nil and the
    next pass builds the same desired state, that next pass returns nil,
    leaves the cluster as it is and logs no create, update or remove. *)
Theorem auth_Reconcile_replay r isvc w w' :
  ComparatorLaws → ControllerRuntimeLaws →
  AuthConfigStoreLaws (store r) → store_keyed (store r) (cluster w) (isvc_key isvc) →
  Reconcile r isvc w = (Returned None, w') →
  (createDesiredResource r isvc w').1 = (createDesiredResource r isvc w).1 →
  ∃ w'',
    Reconcile r isvc w' = (Returned None, w'')
    ∧ cluster w'' = cluster w'
    ∧ mutations (calls w'') = mutations (calls w').
Proof.
  intros Hcmp Hscr Hstore Hkeyed Hpass Hsame.
  destruct (Status_URL isvc) as [url|] eqn:Hurl.
  2:{ exists w'. unfold Reconcile. by rewrite Hurl. }
  assert (Status_URL isvc ≠ None) as Hurl' by (by rewrite Hurl).
  destruct (auth_createDesiredResource_returns r isvc w)
    as (desired & err & w1 & Hbuild & Hc & Hm & Hsome).
  destruct err as [e|].
  { revert Hpass. unfold Reconcile. rewrite Hurl. simpl.
    by rewrite (bind_returned _ _ _ _ _ Hbuild). }
  destruct (Hsome eq_refl) as [d ->].
  pose proof (auth_built_key _ _ _ _ _ Hscr Hbuild) as Hdkey.
  rewrite (auth_Reconcile_run _ _ _ _ _ Hurl' Hbuild) in Hpass. simpl in Hpass.
  set (w2 := log_call (CallStoreGet (isvc_key isvc)) w1) in *.
  assert (∃ existing,
            auth_fetched (store r) (cluster w2) (isvc_key isvc) existing
            ∧ (∀ e, existing = Some e → ac_key e = isvc_key isvc)
            ∧ processDelta r (Some d) existing w2 = (Returned None, w')) as Hfirst.
  { unfold auth_fetched. simpl.
    destruct (resources.Get (store r) (cluster w1) (isvc_key isvc)) as [a|e] eqn:Hget.
    - exists (Some a). split_and!; [done| |done]. intros e [= <-].
      rewrite Hc in Hget. by apply Hkeyed in Hget.
    - destruct (bool_decide _) eqn:Hnf; [|done]. exists None. split_and!; done. }
  destruct Hfirst as (existing & Hfetched & Hekey & Hrun).
  destruct (auth_apply_then_fetch r w2 (isvc_key isvc) (Some d) existing w' Hcmp Hstore Hfetched)
    as (existing' & Hfetched' & Hdelta); [by intros ? [= <-]|done..|].
  destruct (createDesiredResource r isvc w') as [res w1'] eqn:Hbuild'.
  rewrite Hbuild in Hsame. simpl in Hsame. subst res.
  destruct (auth_createDesiredResource_reads _ _ _ _ _ Hbuild') as [Hc' Hm'].
  rewrite (auth_Reconcile_run _ _ _ _ _ Hurl' Hbuild'). simpl.
  exists (log_call (CallStoreGet (isvc_key isvc)) w1').
  assert (processDelta r (Some d) existing' (log_call (CallStoreGet (isvc_key isvc)) w1')
          = (Returned None, log_call (CallStoreGet (isvc_key isvc)) w1')) as Hnoop.
  { apply auth_processDelta_NoChange. by rewrite Hdelta. }
  unfold auth_fetched in Hfetched'. rewrite <- Hc' in Hfetched'.
  split_and!; [|done|by rewrite mutations_log_read].
  destruct (resources.Get (store r) (cluster w1') (isvc_key isvc)) as [a|e].
  - by subst existing'.
  - destruct Hfetched' as [Hnf ->]. simpl in Hnf. by rewrite Hnf.
Qed.

End authconfig_pass.

(** ** KserveMetricsDashboardReconciler: the whole pass *)

Section metrics_pass.
Import processors MetricsDashboardReconciler.
Context {C : Type} `{!ControllerRuntime} `{!Comparators} `{!GoLibrary C}.
Implicit Types (r : KserveMetricsDashboardReconciler C) (isvc : InferenceService) (w : World C).

Lemma bind_inv {A B} (m : M C A) (f : A → M C B) w b w' :
  (m ≫= f) w = (Returned b, w') →
  ∃ a w1, m w = (Returned a, w1) ∧ f a w1 = (Returned b, w').
Proof.
  unfold mbind, M_bind. destruct (m w) as [[a|p] w1]; [eauto|done].
Qed.

Lemma bind_panic_inv {A B} (m : M C A) (f : A → M C B) w p w' :
  (m ≫= f) w = (Panicked p, w') →
  m w = (Panicked p, w') ∨ ∃ a w1, m w = (Returned a, w1) ∧ f a w1 = (Panicked p, w').
Proof.
  unfold mbind, M_bind. destruct (m w) as [[a|q] w1]; [eauto|].
  intros [= -> ->]. by left.
Qed.


Lemma cachedTemplate_returns cached store path w :
  template_slot cached store path →
  ∃ data w', cachedTemplate cached store path w = (Returned data, w').
Proof.
  intros Hslot. unfold cachedTemplate. run_go.
  destruct Hslot; simpl;
    match goal with |- context [is_nil ?c] => destruct c end; simpl; eauto;
    destruct (os_ReadFile _ _) as [data err]; simpl; eauto.
Qed.

(** What the build step returns when it returns: the error of
    SetControllerReference and no object, or a ConfigMap with the metadata
    SetControllerReference left, the single key "Data" and nothing else. *)
Lemma metrics_createDesiredResource_result r isvc w res w1 :
  createDesiredResource r isvc w = (Returned res, w1) →
  (∃ err, res = (None, Some err) ∧ (SetControllerReference isvc (dashboard_meta isvc)).2 = Some err)
  ∨ (∃ data,
       res = (Some (mkConfigMap (mkTypeMeta "" "")
                      (SetControllerReference isvc (dashboard_meta isvc)).1
                      None (Some {["Data" := data]}) None), None)
       ∧ (SetControllerReference isvc (dashboard_meta isvc)).2 = None).
Proof.
  unfold createDesiredResource. intros Hrun.
  apply bind_inv in Hrun as (model & w2 & _ & Hrun).
  apply bind_inv in Hrun as (runtimeName & w3 & _ & Hrun).
  apply bind_inv in Hrun as ([runtime gerr] & w4 & _ & Hrun).
  apply bind_inv in Hrun as (container & w5 & _ & Hrun).
  apply bind_inv in Hrun as (templatedData & w6 & _ & Hrun).
  simpl in Hrun. fold (dashboard_meta isvc) in Hrun.
  destruct (SetControllerReference isvc (dashboard_meta isvc)) as [meta [err|]];
    simpl in Hrun; injection Hrun as <- <-; eauto.
Qed.

Lemma metrics_createDesiredResource_returns r isvc w model runtimeName container rest :
  Spec_Predictor_Model isvc = Some model →
  Runtime model = Some runtimeName →
  sr_Spec_Containers (runtime_after_get (client r) (cluster w) isvc runtimeName)
    = container :: rest →
  ∃ res w1, createDesiredResource r isvc w = (Returned res, w1).
Proof.
  intros Hmodel Hruntime Hcontainers. unfold createDesiredResource. rewrite Hmodel.
  erewrite bind_returned by reflexivity. rewrite Hruntime.
  erewrite bind_returned by reflexivity.
  erewrite bind_returned by reflexivity.
  unfold runtime_after_get in Hcontainers.
  destruct (client_GetServingRuntime _ _ _ _) as [runtime gerr]. simpl in Hcontainers.
  erewrite bind_returned by (unfold index; rewrite Hcontainers; reflexivity).
  match goal with
  | |- ∃ res w1, (?m ≫= ?f) ?w0 = _ =>
      assert (∃ data w', m w0 = (Returned data, w')) as (data & w' & Htemplate)
  end.
  { repeat case_decide; try (apply cachedTemplate_returns; constructor). by eexists _, _. }
  rewrite (bind_returned _ _ _ _ _ Htemplate). simpl.
  destruct (SetControllerReference _ _) as [meta [err|]]; simpl; eauto.
Qed.

(** X13.  As long as the client and the library return, the build step of the
    metrics dashboard panics exactly when the InferenceService has no
    Spec.Predictor.Model, or the model names no runtime, or the
    ServingRuntime object has no container after the Get. *)
Theorem metrics_createDesiredResource_faults r isvc w :
  (∃ p w', createDesiredResource r isvc w = (Panicked p, w')) ↔
  Spec_Predictor_Model isvc = None
  ∨ (∃ model, Spec_Predictor_Model isvc = Some model ∧ Runtime model = None)
  ∨ (∃ model runtimeName,
       Spec_Predictor_Model isvc = Some model ∧ Runtime model = Some runtimeName
       ∧ sr_Spec_Containers (runtime_after_get (client r) (cluster w) isvc runtimeName) = []).
Proof.
  split.
  - intros (p & w' & Hpanic).
    destruct (Spec_Predictor_Model isvc) as [model|] eqn:Hmodel; [|by left].
    destruct (Runtime model) as [runtimeName|] eqn:Hruntime; [|right; left; eauto].
    destruct (sr_Spec_Containers (runtime_after_get (client r) (cluster w) isvc runtimeName))
      as [|container rest] eqn:Hcontainers; [right; right; eauto 6|].
    destruct (metrics_createDesiredResource_returns r isvc w _ _ _ _ Hmodel Hruntime Hcontainers)
      as (res & w1 & Hrun).
    congruence.
  - intros [Hmodel|[(model & Hmodel & Hruntime)|(model & runtimeName & Hmodel & Hruntime & Hnone)]].
    + exists NilPointerDereference, w. unfold createDesiredResource. by rewrite Hmodel.
    + exists NilPointerDereference, w. unfold createDesiredResource. rewrite Hmodel.
      erewrite bind_returned by reflexivity. by rewrite Hruntime.
    + eexists (IndexOutOfRange 0 0), _. unfold createDesiredResource. rewrite Hmodel.
      erewrite bind_returned by reflexivity. rewrite Hruntime.
      erewrite bind_returned by reflexivity.
      erewrite bind_returned by reflexivity.
      unfold runtime_after_get in Hnone.
      destruct (client_GetServingRuntime _ _ _ _) as [runtime gerr]. simpl in Hnone.
      apply bind_panicked. unfold index. by rewrite Hnone.
Qed.

(** What the build step returns, up to the owner references. *)
Lemma metrics_built_meta r isvc w d w1 :
  ControllerRuntimeLaws →
  createDesiredResource r isvc w = (Returned (Some d, None), w1) →
  set_OwnerReferences [] (cm_ObjectMeta d) = dashboard_meta isvc
  ∧ ∃ data, d = mkConfigMap (mkTypeMeta "" "") (cm_ObjectMeta d) None
                  (Some {["Data" := data]}) None.
Proof.
  intros Hscr Hbuild.
  destruct (metrics_createDesiredResource_result _ _ _ _ _ Hbuild)
    as [(err & [=] & _)|(data & [= ->] & _)].
  split; [apply (SetControllerReference_frame Hscr isvc (dashboard_meta isvc))|by eexists].
Qed.

(** X14.  The desired ConfigMap carries the name the fetch step looks up
    (<name>-metrics-dashboard in the namespace of the InferenceService), the
    single data key "Data", and no labels, annotations, binary data or
    immutable flag. *)
Theorem metrics_createDesiredResource_shape r isvc w d w1 :
  ControllerRuntimeLaws →
  createDesiredResource r isvc w = (Returned (Some d, None), w1) →
  cm_key d = dashboard_key isvc
  ∧ (∃ data, cm_Data d = Some {["Data" := data]})
  ∧ Labels (cm_ObjectMeta d) = None
  ∧ Annotations (cm_ObjectMeta d) = None
  ∧ cm_BinaryData d = None
  ∧ cm_Immutable d = None.
Proof.
  intros Hscr Hbuild.
  destruct (metrics_built_meta _ _ _ _ _ Hscr Hbuild) as [Hmeta [data Hd]].
  unfold cm_key. rewrite Hd. simpl. destruct (cm_ObjectMeta d). simpl in Hmeta.
  injection Hmeta as -> _ -> _ _ _ _ _ -> -> _. simpl. split_and!; eauto.
Qed.

(** processDelta on a desired state that is present: it returns, and logs
    nothing, or one create, or one update. *)
Lemma metrics_processDelta_present r d existing w :
  ∃ err w',
    processDelta r (Some d) existing w = (Returned err, w')
    ∧ (calls w' = calls w
       ∨ ∃ c, calls w' = (calls w ++ [c])%list ∧ is_mutation c = true ∧ is_removal c = false).
Proof.
  destruct existing as [e|].
  - destruct (GetConfigMapComparator d e) eqn:Hcmp.
    + rewrite metrics_processDelta_NoChange by (simpl; by rewrite Hcmp). eauto.
    + rewrite metrics_processDelta_Update by done. eexists _, _. split; [done|].
      right. by eexists.
  - rewrite metrics_processDelta_Add. eexists _, _. split; [done|]. right. by eexists.
Qed.

(** X15.  One pass of KserveMetricsDashboardReconciler.Reconcile, however it ends,
    logs at most one store mutation and never a delete. *)
Theorem metrics_Reconcile_one_write r isvc w :
  (length (mutations (calls (Reconcile r isvc w).2)) ≤ S (length (mutations (calls w))))%nat
  ∧ removals (calls (Reconcile r isvc w).2) = removals (calls w).
Proof.
  destruct (Reconcile r isvc w) as [res w'] eqn:Hpass. simpl.
  destruct (createDesiredResource r isvc w) as [[built|p] w1] eqn:Hbuild.
  2:{ unfold Reconcile in Hpass. rewrite (bind_panicked _ _ _ _ _ Hbuild) in Hpass.
      injection Hpass as <- <-.
      destruct (metrics_createDesiredResource_reads _ _ _ _ _ Hbuild) as [_ Hm].
      rewrite Hm. split; [lia|by apply removals_same]. }
  destruct (metrics_createDesiredResource_reads _ _ _ _ _ Hbuild) as [_ Hm].
  destruct (metrics_createDesiredResource_result _ _ _ _ _ Hbuild)
    as [(err & -> & _)|(data & -> & _)].
  { unfold Reconcile in Hpass. rewrite (bind_returned _ _ _ _ _ Hbuild) in Hpass.
    injection Hpass as <- <-. rewrite Hm. split; [lia|by apply removals_same]. }
  rewrite (metrics_Reconcile_run _ _ _ _ _ Hbuild) in Hpass. simpl in Hpass.
  set (w2 := log_call (CallGetConfigMap (dashboard_key isvc)) w1) in *.
  assert (mutations (calls w2) = mutations (calls w)) as Hm2.
  { unfold w2. rewrite mutations_log_read by done. exact Hm. }
  assert (∀ d existing,
            processDelta r (Some d) existing w2 = (res, w') →
            (length (mutations (calls w')) ≤ S (length (mutations (calls w))))%nat
            ∧ removals (calls w') = removals (calls w)) as Happly.
  { intros d existing Hrun.
    destruct (metrics_processDelta_present r d existing w2) as (err & w3 & Hrun' & Hcalls).
    rewrite Hrun' in Hrun. injection Hrun as <- <-.
    destruct Hcalls as [->|(c & -> & Hmut & Hrem)].
    - rewrite Hm2. split; [lia|by apply removals_same].
    - destruct (one_more_call (calls w2) c Hmut Hrem) as [Hle ->].
      rewrite Hm2 in Hle. split; [lia|by apply removals_same]. }
  destruct (client_GetConfigMap _ _ _ _) as [existing [e|]]; [|by eapply Happly].
  destruct (bool_decide _); [by eapply Happly|].
  injection Hpass as <- <-. rewrite Hm2. split; [lia|by apply removals_same].
Qed.

Lemma metrics_built_key r isvc w d w1 :
  ControllerRuntimeLaws →
  createDesiredResource r isvc w = (Returned (Some d, None), w1) →
  cm_key d = dashboard_key isvc.
Proof.
  intros Hscr Hbuild.
  destruct (metrics_built_meta _ _ _ _ _ Hscr Hbuild) as [Hmeta _].
  unfold cm_key. destruct (cm_ObjectMeta d). simpl in Hmeta.
  by injection Hmeta as -> _ -> _.
Qed.

(** After an apply that returned nil, the cluster holds under [k] an object
    that the comparator takes for the desired one. *)
Lemma metrics_apply_then_fetch r w k desired existing w' :
  ComparatorLaws → ClientLaws (client r) →
  cm_fetched (client r) (cluster w) k existing →
  (∀ d, desired = Some d → cm_key d = k) →
  (∀ e, existing = Some e → cm_key e = k) →
  processDelta r desired existing w = (Returned None, w') →
  ∃ existing',
    cm_fetched (client r) (cluster w') k existing'
    ∧ ComputeDelta GetConfigMapComparator desired existing' = DeltaNoChange.
Proof.
  intros Hcmp Hstore Hfetched Hkey Hkey' Hrun.
  assert (∀ d a', cm_owned a' = cm_owned d → GetConfigMapComparator d a' = true) as Hsame.
  { intros d a' Ho. by rewrite (cm_Equal_owned Hcmp d d a' d), (cm_Equal_refl Hcmp). }
  destruct desired as [d|], existing as [e|].
  - destruct (GetConfigMapComparator d e) eqn:Hde.
    + rewrite metrics_processDelta_NoChange in Hrun by (simpl; by rewrite Hde).
      injection Hrun as <-. exists (Some e). simpl. by rewrite Hde.
    + rewrite metrics_processDelta_Update in Hrun by done.
      destruct (client_Update _ _ _) as [c' [err|]] eqn:Hcall; [done|].
      injection Hrun as <-. simpl.
      destruct (client_Update_Get _ Hstore _ _ _ Hcall) as (a' & Hget & Howned).
      replace (cm_key (cm_merged d e)) with k in Hget by (symmetry; apply (Hkey' e eq_refl)).
      exists (Some a'). unfold cm_fetched. rewrite Hget. split; [done|]. simpl.
      by rewrite Hsame.
  - rewrite metrics_processDelta_Add in Hrun.
    destruct (client_Create _ _ _) as [c' [err|]] eqn:Hcall; [done|].
    injection Hrun as <-. simpl.
    destruct (client_Create_Get _ Hstore _ _ _ Hcall) as (a' & Hget & Howned).
    rewrite (Hkey d eq_refl) in Hget. exists (Some a'). unfold cm_fetched.
    rewrite Hget. split; [done|]. simpl. by rewrite Hsame.
  - rewrite metrics_processDelta_Remove in Hrun.
    destruct (client_Delete _ _ _) as [c' [err|]] eqn:Hcall; [done|].
    injection Hrun as <-. simpl.
    destruct (client_Delete_Get _ Hstore _ _ _ Hcall) as (obj & err & Hget & Hnf).
    rewrite (Hkey' e eq_refl) in Hget. exists None. unfold cm_fetched. by rewrite Hget.
  - rewrite metrics_processDelta_NoChange in Hrun by done.
    injection Hrun as <-. by exists None.
Qed.

(** X16.  Replay.  Over a cluster that nobody else writes to and whose ConfigMap
    under the dashboard's name, if any, carries that name, with a comparator
    that is reflexive and looks only at the owned fields: when a pass of
    KserveMetricsDashboardReconciler.Reconcile has returned nil and the next
    pass builds the same desired ConfigMap, that next pass returns nil,
    leaves the cluster as it is and logs no create, update or delete. *)
Theorem metrics_Reconcile_replay r isvc w w' :
  ComparatorLaws → ControllerRuntimeLaws →
  ClientLaws (client r) → client_keyed (client r) (cluster w) (dashboard_key isvc) →
  Reconcile r isvc w = (Returned None, w') →
  (createDesiredResource r isvc w').1 = (createDesiredResource r isvc w).1 →
  ∃ w'',
    Reconcile r isvc w' = (Returned None, w'')
    ∧ cluster w'' = cluster w'
    ∧ mutations (calls w'') = mutations (calls w').
Proof.
  intros Hcmp Hscr Hstore Hkeyed Hpass Hsame.
  destruct (createDesiredResource r isvc w) as [[built|p] w1] eqn:Hbuild.
  2:{ unfold Reconcile in Hpass. by rewrite (bind_panicked _ _ _ _ _ Hbuild) in Hpass. }
  destruct (metrics_createDesiredResource_result _ _ _ _ _ Hbuild)
    as [(err & -> & _)|(data & Hbuilt & _)].
  { unfold Reconcile in Hpass. by rewrite (bind_returned _ _ _ _ _ Hbuild) in Hpass. }
  match type of Hbuilt with _ = (Some ?x, None) => set (d := x) in * end.
  subst built.
  pose proof (metrics_built_key _ _ _ _ _ Hscr Hbuild) as Hdkey.
  rewrite (metrics_Reconcile_run _ _ _ _ _ Hbuild) in Hpass. simpl in Hpass.
  set (w2 := log_call (CallGetConfigMap (dashboard_key isvc)) w1) in *.
  assert (∃ existing,
            cm_fetched (client r) (cluster w2) (dashboard_key isvc) existing
            ∧ (∀ e, existing = Some e → cm_key e = dashboard_key isvc)
            ∧ processDelta r (Some d) existing w2 = (Returned None, w')) as Hfirst.
  { unfold cm_fetched. simpl.
    destruct (client_GetConfigMap (client r) (cluster w1) (dashboard_key isvc) ConfigMap_zero)
      as [a [e|]] eqn:Hget.
    - destruct (bool_decide _) eqn:Hnf; [|done]. exists None. split_and!; done.
    - exists (Some a). split_and!; [done| |done]. intros e [= <-].
      rewrite (proj1 (metrics_createDesiredResource_reads _ _ _ _ _ Hbuild)) in Hget.
      by apply Hkeyed in Hget. }
  destruct Hfirst as (existing & Hfetched & Hekey & Hrun).
  destruct (metrics_apply_then_fetch r w2 (dashboard_key isvc) (Some d) existing w' Hcmp Hstore Hfetched)
    as (existing' & Hfetched' & Hdelta); [by intros ? [= <-]|done..|].
  destruct (createDesiredResource r isvc w') as [res w1'] eqn:Hbuild'.
  simpl in Hsame. subst res.
  destruct (metrics_createDesiredResource_reads _ _ _ _ _ Hbuild') as [Hc' Hm'].
  rewrite (metrics_Reconcile_run _ _ _ _ _ Hbuild'). simpl.
  exists (log_call (CallGetConfigMap (dashboard_key isvc)) w1').
  assert (processDelta r (Some d) existing' (log_call (CallGetConfigMap (dashboard_key isvc)) w1')
          = (Returned None, log_call (CallGetConfigMap (dashboard_key isvc)) w1')) as Hnoop.
  { apply metrics_processDelta_NoChange. by rewrite Hdelta. }
  unfold cm_fetched in Hfetched'. rewrite <- Hc' in Hfetched'.
  split_and!; [|done|by rewrite mutations_log_read].
  destruct (client_GetConfigMap (client r) (cluster w1') (dashboard_key isvc) ConfigMap_zero)
    as [a [e|]].
  - destruct Hfetched' as [Hnf ->]. simpl in Hnf. by rewrite Hnf.
  - by subst existing'.
Qed.

End metrics_pass.

(** ** utils: the deployment mode *)

Section utils_pass.
Import utils.
Context {C : Type} `{!GoLibrary C}.
Implicit Types (cli : Client C) (isvc : InferenceService) (w : World C).

Lemma GetOperatorNamespace_run w :
  GetOperatorNamespace w =
    (Returned
       (let '(data, err) :=
          os_ReadFile (cluster w) "/var/run/secrets/kubernetes.io/serviceaccount/namespace" in
        let ns := strings_TrimSpace (default "" data) in
        if is_nil err && bool_decide (0 < String.length ns)%nat then (ns, None) else ("", err)),
     log_call (CallReadFile "/var/run/secrets/kubernetes.io/serviceaccount/namespace") w).
Proof.
  unfold GetOperatorNamespace. run_go. simpl.
  destruct (os_ReadFile _ _) as [data err]. simpl. by destruct (_ && _).
Qed.

(** X19.  GetDeploymentModeForIsvc never panics and only reads.  A non-nil error
    comes with the empty mode; the mode is one of the three known ones or
    empty; it is Serverless exactly when the annotation says Serverless (the
    default of the ConfigMap never gives it), and ModelMesh exactly when
    IsDeploymentModeForIsvcModelMesh holds; when the annotation exists, no
    call is made. *)
Theorem GetDeploymentModeForIsvc_returns cli isvc w :
  ∃ mode err w',
    GetDeploymentModeForIsvc cli isvc w = (Returned (mode, err), w')
    ∧ cluster w' = cluster w
    ∧ mutations (calls w') = mutations (calls w)
    ∧ (err ≠ None → mode = "")
    ∧ mode ∈ [""; ModelMesh; Serverless; RawDeployment]
    ∧ (mode = Serverless ↔
       map_index (Annotations (isvc_ObjectMeta isvc)) inferenceServiceDeploymentModeAnnotation
         = Some Serverless)
    ∧ (mode = ModelMesh ↔ IsDeploymentModeForIsvcModelMesh isvc = true)
    ∧ (is_Some (map_index (Annotations (isvc_ObjectMeta isvc))
                  inferenceServiceDeploymentModeAnnotation) → w' = w).
Proof.
  unfold GetDeploymentModeForIsvc, IsDeploymentModeForIsvcModelMesh.
  destruct (map_index _ _) as [value|] eqn:Hann.
  - destruct (decide (value = ModelMesh)) as [->|Hmesh];
      [|destruct (decide (value = Serverless)) as [->|Hserverless];
        [|destruct (decide (value = RawDeployment)) as [->|Hraw]]];
      eexists _, _, _; (split; [reflexivity|]); split_and!; try done;
      rewrite ?elem_of_cons, ?bool_decide_eq_true; try naive_solver.
  - rewrite (bind_returned _ _ _ _ _ (GetOperatorNamespace_run w)).
    destruct (os_ReadFile _ _) as [data rerr]. simpl.
    set (w1 := log_call _ w).
    assert (mutations (calls w1) = mutations (calls w)) as Hm1
      by (by apply mutations_log_read).
    destruct (is_nil rerr && _) eqn:Hok; simpl.
    2:{ destruct rerr as [e|]; simpl.
        - eexists _, _, _. split; [reflexivity|]. split_and!; try done.
          rewrite !elem_of_cons; by left.
        - (* a blank namespace file: the lookup goes on in the namespace "" *)
          run_go. simpl. destruct (client_GetConfigMap _ _ _ _) as [cm [gerr|]]; simpl.
          + eexists _, _, _. split; [reflexivity|]. simpl.
            rewrite mutations_app, app_nil_r.
            split_and!; try done. rewrite !elem_of_cons; by left.
          + destruct (json_Unmarshal_map _) as [deployData [jerr|]]; simpl.
            * eexists _, _, _. split; [reflexivity|]. simpl.
              rewrite mutations_app, app_nil_r.
              split_and!; try done. rewrite !elem_of_cons; by left.
            * rewrite deployData_never_IsvcDeploymentMode.
              eexists _, _, _. split; [reflexivity|]. simpl.
              rewrite mutations_app, app_nil_r.
              split_and!; try done. rewrite !elem_of_cons; naive_solver. }
    destruct rerr as [e|]; [done|]. simpl.
    run_go. simpl. destruct (client_GetConfigMap _ _ _ _) as [cm [gerr|]]; simpl.
    + eexists _, _, _. split; [reflexivity|]. simpl.
      rewrite mutations_app, app_nil_r.
      split_and!; try done. rewrite !elem_of_cons; by left.
    + destruct (json_Unmarshal_map _) as [deployData [jerr|]]; simpl.
      * eexists _, _, _. split; [reflexivity|]. simpl.
        rewrite mutations_app, app_nil_r.
        split_and!; try done. rewrite !elem_of_cons; by left.
      * rewrite deployData_never_IsvcDeploymentMode.
        eexists _, _, _. split; [reflexivity|]. simpl.
        rewrite mutations_app, app_nil_r.
        split_and!; try done. rewrite !elem_of_cons; naive_solver.
Qed.

(** X20.  A deploymentMode annotation with a value that is none of ModelMesh,
    Serverless and RawDeployment falls out of the switch: the function
    returns the empty mode with a nil error and does not look at the
    ConfigMap. *)
Theorem GetDeploymentModeForIsvc_unknown_annotation cli isvc w value :
  map_index (Annotations (isvc_ObjectMeta isvc)) inferenceServiceDeploymentModeAnnotation
    = Some value →
  value ∉ [ModelMesh; Serverless; RawDeployment] →
  GetDeploymentModeForIsvc cli isvc w = (Returned ("", None), w).
Proof.
  intros Hann Hvalue. unfold GetDeploymentModeForIsvc. rewrite Hann.
  rewrite !not_elem_of_cons in Hvalue. destruct Hvalue as (? & ? & ? & _).
  by rewrite !decide_False by done.
Qed.

(** X21.  A namespace file that is read but blank after trimming gives the
    namespace "" with a nil error, and GetDeploymentModeForIsvc goes on to
    look up inferenceservice-config in the namespace "". *)
Theorem GetDeploymentModeForIsvc_blank_namespace cli isvc w data :
  map_index (Annotations (isvc_ObjectMeta isvc)) inferenceServiceDeploymentModeAnnotation = None →
  os_ReadFile (cluster w) "/var/run/secrets/kubernetes.io/serviceaccount/namespace"
    = (data, None) →
  strings_TrimSpace (default "" data) = "" →
  GetOperatorNamespace w =
    (Returned ("", None),
     log_call (CallReadFile "/var/run/secrets/kubernetes.io/serviceaccount/namespace") w)
  ∧ calls (GetDeploymentModeForIsvc cli isvc w).2 =
      (calls w ++ [CallReadFile "/var/run/secrets/kubernetes.io/serviceaccount/namespace";
                   CallGetConfigMap (mkNamespacedName "" KserveConfigMapName)])%list.
Proof.
  intros Hann Hread Hblank.
  assert (GetOperatorNamespace w =
            (Returned ("", None),
             log_call (CallReadFile "/var/run/secrets/kubernetes.io/serviceaccount/namespace") w))
    as Hns.
  { rewrite GetOperatorNamespace_run, Hread. simpl. by rewrite Hblank. }
  split; [done|].
  unfold GetDeploymentModeForIsvc. rewrite Hann.
  rewrite (bind_returned _ _ _ _ _ Hns). simpl. run_go. simpl.
  destruct (client_GetConfigMap _ _ _ _) as [cm [gerr|]]; simpl.
  - by rewrite <- app_assoc.
  - destruct (json_Unmarshal_map _) as [deployData [jerr|]]; simpl.
    + by rewrite <- app_assoc.
    + rewrite deployData_never_IsvcDeploymentMode. simpl. by rewrite <- app_assoc.
Qed.

(** X22.  Every error of GetDeploymentModeForIsvc is a cause wrapped in a message,
    and the cause is the error of the first step that failed: the read of
    the namespace file (no ConfigMap is fetched then), the Get of the
    ConfigMap, or the decoding of its deploy key. *)
Theorem GetDeploymentModeForIsvc_error cli isvc w mode e w' :
  GetDeploymentModeForIsvc cli isvc w = (Returned (mode, Some e), w') →
  ∃ cause message,
    e = withMessage cause message
    ∧ ((os_ReadFile (cluster w) "/var/run/secrets/kubernetes.io/serviceaccount/namespace").2
         = Some cause
       ∧ message = "cannot determine controller namespace to retrive inferenceservice-config."
       ∧ calls w' =
           (calls w ++ [CallReadFile "/var/run/secrets/kubernetes.io/serviceaccount/namespace"])%list
       ∨ ∃ controllerNs configMap,
           (GetOperatorNamespace w).1 = Returned (controllerNs, None)
           ∧ calls w' =
               (calls w ++ [CallReadFile "/var/run/secrets/kubernetes.io/serviceaccount/namespace";
                            CallGetConfigMap (mkNamespacedName controllerNs KserveConfigMapName)])%list
           ∧ (client_GetConfigMap cli (cluster w)
                (mkNamespacedName controllerNs KserveConfigMapName) ConfigMap_zero
                = (configMap, Some cause)
              ∧ message = "error getting configmap 'inferenceservice-config'."
              ∨ client_GetConfigMap cli (cluster w)
                  (mkNamespacedName controllerNs KserveConfigMapName) ConfigMap_zero
                  = (configMap, None)
                ∧ (json_Unmarshal_map (default "" (map_index (cm_Data configMap) "deploy"))).2
                  = Some cause
                ∧ message = "error retrieving value for key 'deploy' from configmap inferenceservice-config.")).
Proof.
  unfold GetDeploymentModeForIsvc.
  destruct (map_index _ _) as [value|] eqn:Hann.
  { repeat case_decide; by intros [=]. }
  rewrite (bind_returned _ _ _ _ _ (GetOperatorNamespace_run w)).
  rewrite GetOperatorNamespace_run.
  destruct (os_ReadFile _ _) as [data rerr]. simpl.
  destruct (is_nil rerr && _) eqn:Hok; simpl.
  - destruct rerr as [cause|]; [done|]. simpl. run_go. simpl.
    destruct (client_GetConfigMap _ _ _ _) as [cm [gerr|]] eqn:Hget; simpl.
    + intros [= <- <- <-]. eexists _, _. split; [reflexivity|]. right.
      eexists _, _. split; [reflexivity|]. split; [simpl; by rewrite <- app_assoc|]. by left.
    + destruct (json_Unmarshal_map _) as [deployData [jerr|]] eqn:Hjson; simpl.
      * intros [= <- <- <-]. eexists _, _. split; [reflexivity|]. right.
        eexists _, _. split; [reflexivity|]. split; [simpl; by rewrite <- app_assoc|]. right.
        split; [done|]. by rewrite Hjson.
      * rewrite deployData_never_IsvcDeploymentMode. by intros [=].
  - destruct rerr as [cause|]; simpl.
    + intros [= <- <- <-]. eexists _, _. split; [reflexivity|]. by left.
    + run_go. simpl.
      destruct (client_GetConfigMap _ _ _ _) as [cm [gerr|]] eqn:Hget; simpl.
      * intros [= <- <- <-]. eexists _, _. split; [reflexivity|]. right.
        eexists _, _. split; [reflexivity|]. split; [simpl; by rewrite <- app_assoc|]. by left.
      * destruct (json_Unmarshal_map _) as [deployData [jerr|]] eqn:Hjson; simpl.
        -- intros [= <- <- <-]. eexists _, _. split; [reflexivity|]. right.
           eexists _, _. split; [reflexivity|]. split; [simpl; by rewrite <- app_assoc|]. right.
           split; [done|]. by rewrite Hjson.
        -- rewrite deployData_never_IsvcDeploymentMode. by intros [=].
Qed.

End utils_pass.

(** ** The monitoring controller: the whole pass *)

Section monitoring_pass.
Import MonitoringReconciler.
Context {C : Type} `{!GoLibrary C}.
Implicit Types (r : KserveMonitoringReconciler C) (req : NamespacedName) (w : World C).

(** Up to the InferenceService: when the two Gets succeed, Reconcile goes on
    with reconcilePeerAuthentication. *)
Lemma monitoring_Reconcile_run r req w inferenceService :
  client_GetNamespace (Client r) (cluster w) (mkNamespacedName "" (nn_Namespace req)) = None →
  client_GetInferenceService (Client r) (cluster w) req InferenceService_zero
    = (inferenceService, None) →
  Reconcile r req w =
    (err ← reconcilePeerAuthentication r req inferenceService;
     if not_nil err then mret err
     else
       err ← reconcileNetWorkPolicy r req inferenceService;
       if not_nil err then mret err else mret None)
      (log_call (CallGetInferenceService req)
         (log_call (CallGetNamespace (mkNamespacedName "" (nn_Namespace req))) w)).
Proof.
  intros Hns Hisvc. unfold Reconcile.
  erewrite bind_returned by reflexivity. rewrite Hns. simpl.
  erewrite bind_returned by reflexivity. simpl. by rewrite Hisvc.
Qed.

(** X24.  An InferenceService without Spec.Predictor.Model makes the pass panic
    with a nil pointer dereference, after the two Gets and before any other
    call: reconcilePeerAuthentication reads Model.ModelFormat.Name through
    the nil pointer. *)
Theorem monitoring_Reconcile_panics_without_model r req w inferenceService :
  client_GetNamespace (Client r) (cluster w) (mkNamespacedName "" (nn_Namespace req)) = None →
  client_GetInferenceService (Client r) (cluster w) req InferenceService_zero
    = (inferenceService, None) →
  Spec_Predictor_Model inferenceService = None →
  Reconcile r req w =
    (Panicked NilPointerDereference,
     log_call (CallGetInferenceService req)
       (log_call (CallGetNamespace (mkNamespacedName "" (nn_Namespace req))) w)).
Proof.
  intros Hns Hisvc Hmodel. rewrite (monitoring_Reconcile_run _ _ _ _ Hns Hisvc).
  apply bind_panicked. unfold reconcilePeerAuthentication. by rewrite Hmodel.
Qed.

(** X25.  Once reconcilePeerAuthentication has returned nil, the pass ends with a
    Get and then a Create of the NetworkPolicy
    allow-from-openshift-monitoring-ns, whatever the Get returned (the
    policy being there included), and returns the error of that Create. *)
Theorem monitoring_Reconcile_ends_with_create r req w inferenceService w3 :
  client_GetNamespace (Client r) (cluster w) (mkNamespacedName "" (nn_Namespace req)) = None →
  client_GetInferenceService (Client r) (cluster w) req InferenceService_zero
    = (inferenceService, None) →
  reconcilePeerAuthentication r req inferenceService
    (log_call (CallGetInferenceService req)
       (log_call (CallGetNamespace (mkNamespacedName "" (nn_Namespace req))) w))
    = (Returned None, w3) →
  Reconcile r req w =
    (Returned (client_CreateNetworkPolicy (Client r) (cluster w3)
                 (desiredNetworkPolicy (nn_Namespace req))).2,
     log_call (CallCreateNetworkPolicy (desiredNetworkPolicy (nn_Namespace req)))
       (set_cluster
          (client_CreateNetworkPolicy (Client r) (cluster w3)
             (desiredNetworkPolicy (nn_Namespace req))).1
          (log_call (CallGetNetworkPolicy (mkNamespacedName (nn_Namespace req) networkPolicyName))
             w3))).
Proof.
  intros Hns Hisvc Hpeer. rewrite (monitoring_Reconcile_run _ _ _ _ Hns Hisvc).
  rewrite (bind_returned _ _ _ _ _ Hpeer). simpl.
  erewrite bind_returned by apply reconcileNetWorkPolicy_always_creates. simpl.
  by destruct (client_CreateNetworkPolicy _ _ _) as [c' [e|]].
Qed.

(** For a model format other than caikit, reconcilePeerAuthentication makes
    no call and returns nil. *)
Lemma reconcilePeerAuthentication_other_format r req inferenceService w model :
  Spec_Predictor_Model inferenceService = Some model →
  ModelFormat_Name model ≠ "caikit" →
  reconcilePeerAuthentication r req inferenceService w = (Returned None, w).
Proof.
  intros Hmodel Hformat. unfold reconcilePeerAuthentication. rewrite Hmodel.
  erewrite bind_returned by reflexivity. by rewrite decide_False.
Qed.

(** X26.  A Get that fails ends the pass with that error: after the Namespace, no
    further call is made; after the InferenceService, none either. *)
Theorem monitoring_Reconcile_get_error r req w err :
  (client_GetNamespace (Client r) (cluster w) (mkNamespacedName "" (nn_Namespace req)) = Some err →
   Reconcile r req w =
     (Returned (Some err),
      log_call (CallGetNamespace (mkNamespacedName "" (nn_Namespace req))) w))
  ∧ (client_GetNamespace (Client r) (cluster w) (mkNamespacedName "" (nn_Namespace req)) = None →
     (client_GetInferenceService (Client r) (cluster w) req InferenceService_zero).2 = Some err →
     Reconcile r req w =
       (Returned (Some err),
        log_call (CallGetInferenceService req)
          (log_call (CallGetNamespace (mkNamespacedName "" (nn_Namespace req))) w))).
Proof.
  split.
  - intros Hns. unfold Reconcile. erewrite bind_returned by reflexivity. by rewrite Hns.
  - intros Hns Hisvc. unfold Reconcile.
    erewrite bind_returned by reflexivity. rewrite Hns. simpl.
    erewrite bind_returned by reflexivity. simpl.
    destruct (client_GetInferenceService _ _ _ _) as [obj gerr]. simpl in *. subst gerr.
    simpl. by destruct (bool_decide _).
Qed.

End monitoring_pass.

(** ** KserveMetricsDashboardReconciler: edges of the build and the update *)

Section metrics_edges.
Import processors MetricsDashboardReconciler.
Context {C : Type} `{!ControllerRuntime} `{!Comparators} `{!GoLibrary C}.
Implicit Types (r : KserveMetricsDashboardReconciler C) (isvc : InferenceService) (w : World C).

(** X17.  A runtime image whose name is none of the three known ones selects no
    template: the build step reads no file, makes no call after the Get of
    the ServingRuntime, and reports no error for the unknown runtime: its
    error is the one of SetControllerReference, it gives a ConfigMap exactly
    when that error is nil, and the ConfigMap holds the substitution of the
    empty template. *)
Theorem metrics_unknown_image_empty_template r isvc w model runtimeName container rest :
  Spec_Predictor_Model isvc = Some model →
  Runtime model = Some runtimeName →
  sr_Spec_Containers (runtime_after_get (client r) (cluster w) isvc runtimeName)
    = container :: rest →
  extractImageName (c_Image container) ∉ [Tgis; Ovms; Vllm] →
  ∃ res,
    createDesiredResource r isvc w =
      (Returned res,
       log_call (CallGetServingRuntime
                   (mkNamespacedName (Namespace (isvc_ObjectMeta isvc)) runtimeName)) w)
    ∧ res.2 = (SetControllerReference isvc (dashboard_meta isvc)).2
    ∧ (res.1 = None ↔ res.2 ≠ None)
    ∧ ∀ d, res.1 = Some d →
        cm_Data d = Some {["Data" := substituteVariablesInQueries None
                                       (Namespace (isvc_ObjectMeta isvc))
                                       (Name (isvc_ObjectMeta isvc))]}.
Proof.
  intros Hmodel Hruntime Hcontainers Himage.
  rewrite !not_elem_of_cons in Himage. destruct Himage as (? & ? & ? & _).
  unfold createDesiredResource. rewrite Hmodel.
  erewrite bind_returned by reflexivity. rewrite Hruntime.
  erewrite bind_returned by reflexivity.
  erewrite bind_returned by reflexivity.
  unfold runtime_after_get in Hcontainers.
  destruct (client_GetServingRuntime _ _ _ _) as [runtime gerr]. simpl in Hcontainers.
  erewrite bind_returned by (unfold index; rewrite Hcontainers; reflexivity).
  rewrite !decide_False by done.
  erewrite bind_returned by reflexivity. simpl. unfold dashboard_meta.
  destruct (SetControllerReference _ _) as [meta [err|]]; simpl;
    (eexists; split; [reflexivity|]); simpl; (split; [done|]); split.
  - by split.
  - by intros d [=].
  - by split.
  - by intros d [= <-].
Qed.

(** X18.  An update by the metrics dashboard reconciler clears the labels of the
    stored ConfigMap: the desired ConfigMap never has labels, so the object
    written is the stored one with nil labels and the desired data, the rest
    of it as stored. *)
Theorem metrics_Reconcile_update_clears_labels r isvc w d w1 e :
  ControllerRuntimeLaws →
  createDesiredResource r isvc w = (Returned (Some d, None), w1) →
  client_GetConfigMap (client r) (cluster w) (dashboard_key isvc) ConfigMap_zero = (e, None) →
  GetConfigMapComparator d e = false →
  ∃ rp,
    Reconcile r isvc w =
      (Returned (client_Update (client r) (cluster w) rp).2,
       log_call (CallUpdateConfigMap rp)
         (set_cluster (client_Update (client r) (cluster w) rp).1
            (log_call (CallGetConfigMap (dashboard_key isvc)) w1)))
    ∧ Labels (cm_ObjectMeta rp) = None
    ∧ cm_Data rp = cm_Data d
    ∧ set_Labels (Labels (cm_ObjectMeta e)) (cm_ObjectMeta rp) = cm_ObjectMeta e
    ∧ (cm_TypeMeta rp, cm_Immutable rp, cm_BinaryData rp)
      = (cm_TypeMeta e, cm_Immutable e, cm_BinaryData e).
Proof.
  intros Hscr Hbuild Hget Hcmp. exists (cm_merged d e).
  destruct (metrics_createDesiredResource_reads _ _ _ _ _ Hbuild) as [Hc Hm].
  rewrite (metrics_Reconcile_run _ _ _ _ _ Hbuild). simpl. rewrite Hc, Hget.
  rewrite metrics_processDelta_Update by done. simpl. rewrite Hc.
  split; [done|].
  destruct (metrics_built_meta _ _ _ _ _ Hscr Hbuild) as [Hmeta _].
  assert (Labels (cm_ObjectMeta d) = None) as Hlabels.
  { destruct (cm_ObjectMeta d). simpl in Hmeta. by injection Hmeta as _ _ _ _ _ _ _ _ -> _. }
  unfold cm_merged. simpl. rewrite Hlabels. split_and!; try done.
  by destruct (cm_ObjectMeta e).
Qed.

End metrics_edges.

(** ** The whole passes on the in-memory cluster *)

Section pass_witnesses.
Import processors.
#[local] Existing Instances fake.controllerRuntime fake.comparators fake.goLibrary.

Lemma fake_controllerRuntime_laws : ControllerRuntimeLaws.
Proof. split. by intros owner []. Qed.

(** The AuthConfig built for "mnist" from the anonymous template. *)
Lemma auth_createDesiredResource_shape_witness :
  ∃ d w1,
    AuthConfigReconciler.createDesiredResource (fake.authConfigReconciler fake.authConfigStore)
      fake.ready (fake.world fake.emptyCluster) = (Returned (Some d, None), w1)
    ∧ ac_key d = mkNamespacedName "models" "mnist"
    ∧ Hosts (ac_Spec d) = ["https://mnist.models.example"]
    ∧ Policy (ac_Spec d) = "anonymous-access"
    ∧ map_index (Labels (ac_ObjectMeta d)) "security.opendatahub.io/authorization-group"
      = Some "default"
    ∧ (∀ k, k ≠ "security.opendatahub.io/authorization-group" →
         map_index (Labels (ac_ObjectMeta d)) k = map_index (Labels (ac_ObjectMeta fake.template)) k)
    ∧ Annotations (ac_ObjectMeta d) = None
    ∧ ac_TypeMeta d = mkTypeMeta "AuthConfig" "authorino.kuadrant.io/v1beta2"
    ∧ ac_Status d = "".
Proof.
  exact (auth_createDesiredResource_shape (fake.authConfigReconciler fake.authConfigStore)
           fake.ready (fake.world fake.emptyCluster) "anonymous" fake.template
           fake_controllerRuntime_laws eq_refl eq_refl).
Defined.

(** A pass over a loader without templates. *)
Lemma auth_Reconcile_load_error_witness :
  AuthConfigReconciler.Reconcile
    {| AuthConfigReconciler.detector := fake.detector;
       AuthConfigReconciler.store := fake.authConfigStore;
       AuthConfigReconciler.templateLoader := fake.failingLoader;
       AuthConfigReconciler.hostExtractor := fake.hostExtractor |}
    fake.ready (fake.world fake.emptyCluster)
  = (Returned (Some (withMessage (errorString "no template for this AuthType")
                       "could not load template for AuthType anonymous for InferenceService models/mnist")),
     log_call (CallLoad "anonymous" (mkNamespacedName "models" "mnist"))
       (log_call (CallDetect (mkNamespacedName "models" "mnist")) (fake.world fake.emptyCluster))).
Proof.
  apply (auth_Reconcile_load_error
           {| AuthConfigReconciler.detector := fake.detector;
              AuthConfigReconciler.store := fake.authConfigStore;
              AuthConfigReconciler.templateLoader := fake.failingLoader;
              AuthConfigReconciler.hostExtractor := fake.hostExtractor |}
           fake.ready (fake.world fake.emptyCluster) "anonymous"
           (errorString "no template for this AuthType")); [done|reflexivity..].
Defined.

(** Two passes over the cluster that holds an older AuthConfig of "mnist":
    the first updates it, the second changes nothing. *)
Lemma auth_Reconcile_replay_witness :
  mutations (calls (AuthConfigReconciler.Reconcile (fake.authConfigReconciler fake.authConfigStore)
                      fake.ready (fake.world fake.storedCluster)).2)
    = [CallStoreUpdate (auth_merged fake.desiredAuthConfig fake.storedAuthConfig)]
  ∧ ∃ w'',
      AuthConfigReconciler.Reconcile (fake.authConfigReconciler fake.authConfigStore) fake.ready
        (AuthConfigReconciler.Reconcile (fake.authConfigReconciler fake.authConfigStore)
           fake.ready (fake.world fake.storedCluster)).2
        = (Returned None, w'')
      ∧ cluster w'' =
          cluster (AuthConfigReconciler.Reconcile (fake.authConfigReconciler fake.authConfigStore)
                     fake.ready (fake.world fake.storedCluster)).2
      ∧ mutations (calls w'') =
          mutations (calls (AuthConfigReconciler.Reconcile
                              (fake.authConfigReconciler fake.authConfigStore)
                              fake.ready (fake.world fake.storedCluster)).2).
Proof.
  split; [vm_compute; reflexivity|].
  apply (auth_Reconcile_replay (fake.authConfigReconciler fake.authConfigStore) fake.ready
           (fake.world fake.storedCluster) _
           fake_comparator_laws fake_controllerRuntime_laws fake_store_laws).
  - intros a Hget. vm_compute in Hget. by injection Hget as <-.
  - vm_compute. reflexivity.
  - vm_compute. reflexivity.
Defined.


(** The dashboard built for "mnist" on [ovmsCluster]. *)
Lemma metrics_createDesiredResource_shape_witness :
  ∃ d,
    (MetricsDashboardReconciler.createDesiredResource (fake.metricsReconciler fake.client)
       fake.ready (fake.world fake.ovmsCluster)).1 = Returned (Some d, None)
    ∧ cm_key d = mkNamespacedName "models" "mnist-metrics-dashboard"
    ∧ (∃ data, cm_Data d = Some {["Data" := data]})
    ∧ Labels (cm_ObjectMeta d) = None
    ∧ Annotations (cm_ObjectMeta d) = None
    ∧ cm_BinaryData d = None
    ∧ cm_Immutable d = None.
Proof.
  eexists. split; [vm_compute; reflexivity|].
  eapply (λ d w1, metrics_createDesiredResource_shape (fake.metricsReconciler fake.client)
                    fake.ready (fake.world fake.ovmsCluster) d w1 fake_controllerRuntime_laws).
  vm_compute. reflexivity.
Defined.

(** Two passes over the cluster that holds an older dashboard of "mnist":
    the first updates it, the second changes nothing. *)
Lemma metrics_Reconcile_replay_witness :
  length (mutations (calls (MetricsDashboardReconciler.Reconcile (fake.metricsReconciler fake.client)
                              fake.ready (fake.world fake.dashboardCluster)).2)) = 1
  ∧ ∃ w'',
      MetricsDashboardReconciler.Reconcile (fake.metricsReconciler fake.client) fake.ready
        (MetricsDashboardReconciler.Reconcile (fake.metricsReconciler fake.client)
           fake.ready (fake.world fake.dashboardCluster)).2
        = (Returned None, w'')
      ∧ cluster w'' =
          cluster (MetricsDashboardReconciler.Reconcile (fake.metricsReconciler fake.client)
                     fake.ready (fake.world fake.dashboardCluster)).2
      ∧ mutations (calls w'') =
          mutations (calls (MetricsDashboardReconciler.Reconcile
                              (fake.metricsReconciler fake.client)
                              fake.ready (fake.world fake.dashboardCluster)).2).
Proof.
  split; [vm_compute; reflexivity|].
  apply (metrics_Reconcile_replay (fake.metricsReconciler fake.client) fake.ready
           (fake.world fake.dashboardCluster) _
           fake_comparator_laws fake_controllerRuntime_laws fake_client_laws).
  - intros a Hget. vm_compute in Hget. by injection Hget as <-.
  - vm_compute. reflexivity.
  - vm_compute. reflexivity.
Defined.

(** The update of the stored dashboard of "mnist", which carries a label. *)
Lemma metrics_Reconcile_update_clears_labels_witness :
  Labels (cm_ObjectMeta fake.storedConfigMap) = Some {["stale" := "label"]}
  ∧ ∃ rp,
      (MetricsDashboardReconciler.Reconcile (fake.metricsReconciler fake.client)
         fake.ready (fake.world fake.dashboardCluster)).1
        = Returned (client_Update fake.client fake.dashboardCluster rp).2
      ∧ Labels (cm_ObjectMeta rp) = None
      ∧ cm_Data rp = Some {["Data" := "{}"]}.
Proof.
  split; [reflexivity|].
  edestruct (λ d w1, metrics_Reconcile_update_clears_labels (fake.metricsReconciler fake.client)
                       fake.ready (fake.world fake.dashboardCluster) d w1 fake.storedConfigMap
                       fake_controllerRuntime_laws)
    as (rp & Hpass & Hlabels & Hdata & _).
  - vm_compute. reflexivity.
  - reflexivity.
  - reflexivity.
  - exists rp. split_and!; [by rewrite Hpass|done|by rewrite Hdata].
Defined.

(** A runtime with an image of its own. *)
Lemma metrics_unknown_image_empty_template_witness :
  ∃ res,
    MetricsDashboardReconciler.createDesiredResource (fake.metricsReconciler fake.client)
      (fake.mnist (Some "custom") None) (fake.world fake.customCluster)
      = (Returned res,
         log_call (CallGetServingRuntime (mkNamespacedName "models" "custom"))
           (fake.world fake.customCluster))
    ∧ res.2 = None
    ∧ (∃ d, res.1 = Some d)
    ∧ ∀ d, res.1 = Some d → cm_Data d = Some {["Data" := ""]}.
Proof.
  destruct (metrics_unknown_image_empty_template (fake.metricsReconciler fake.client)
              (fake.mnist (Some "custom") None) (fake.world fake.customCluster)
              (mkModelSpec "onnx" (Some "custom")) "custom"
              (mkContainer "kserve-container" fake.customImage) [])
    as (res & Hbuild & Herr & Hsome & Hdata); [reflexivity..| |].
  - rewrite !not_elem_of_cons. split_and!; [done..|]. apply not_elem_of_nil.
  - exists res. split_and!; [exact Hbuild|exact Herr| |].
    + destruct res as [[d|] err]; [by exists d|]. simpl in *.
      destruct (proj1 Hsome eq_refl). exact Herr.
    + intros d Hd. rewrite (Hdata d Hd). reflexivity.
Defined.

(** An annotation with a mode that does not exist. *)
Lemma GetDeploymentModeForIsvc_unknown_annotation_witness :
  utils.GetDeploymentModeForIsvc fake.client (fake.annotated "Knative")
    (fake.world fake.emptyCluster)
  = (Returned ("", None), fake.world fake.emptyCluster).
Proof.
  apply (GetDeploymentModeForIsvc_unknown_annotation fake.client (fake.annotated "Knative")
           (fake.world fake.emptyCluster) "Knative"); [reflexivity|].
  rewrite !not_elem_of_cons. split_and!; [done..|]. apply not_elem_of_nil.
Defined.

(** An empty namespace file. *)
Lemma GetDeploymentModeForIsvc_blank_namespace_witness :
  utils.GetOperatorNamespace (fake.world fake.blankCluster) =
    (Returned ("", None),
     log_call (CallReadFile "/var/run/secrets/kubernetes.io/serviceaccount/namespace")
       (fake.world fake.blankCluster))
  ∧ calls (utils.GetDeploymentModeForIsvc fake.client fake.ready (fake.world fake.blankCluster)).2 =
      [CallReadFile "/var/run/secrets/kubernetes.io/serviceaccount/namespace";
       CallGetConfigMap (mkNamespacedName "" "inferenceservice-config")].
Proof.
  apply (GetDeploymentModeForIsvc_blank_namespace fake.client fake.ready
           (fake.world fake.blankCluster) (Some "")); reflexivity.
Defined.

(** No namespace file at all: the error of the read is the cause. *)
Lemma GetDeploymentModeForIsvc_error_witness :
  ∃ cause message,
    (utils.GetDeploymentModeForIsvc fake.client fake.ready (fake.world fake.emptyCluster)).1
      = Returned ("", Some (withMessage cause message))
    ∧ (os_ReadFile fake.emptyCluster "/var/run/secrets/kubernetes.io/serviceaccount/namespace").2
      = Some cause.
Proof.
  edestruct (GetDeploymentModeForIsvc_error fake.client fake.ready (fake.world fake.emptyCluster))
    as (cause & message & He & Hcase); [vm_compute; reflexivity|].
  exists cause, message. injection He as <- <-. split; reflexivity.
Defined.

(** The monitoring controller on an InferenceService without a model. *)
Lemma monitoring_Reconcile_panics_without_model_witness :
  (MonitoringReconciler.Reconcile
     {| MonitoringReconciler.Client := fake.serving fake.noModel (fake.monitoringClient false false) |}
     (mkNamespacedName "models" "mnist") (fake.world fake.emptyCluster)).1
  = Panicked NilPointerDereference.
Proof.
  by rewrite (monitoring_Reconcile_panics_without_model
                {| MonitoringReconciler.Client :=
                     fake.serving fake.noModel (fake.monitoringClient false false) |}
                (mkNamespacedName "models" "mnist") (fake.world fake.emptyCluster) fake.noModel).
Defined.

(** The NetworkPolicy is there and creates are refused: the pass creates it
    all the same and returns the refusal. *)
Lemma monitoring_Reconcile_ends_with_create_witness :
  (client_GetNetworkPolicy (fake.monitoringClient true true) fake.emptyCluster
     (mkNamespacedName "models" "allow-from-openshift-monitoring-ns") NetworkPolicy_zero).2 = None
  ∧ (MonitoringReconciler.Reconcile
       {| MonitoringReconciler.Client := fake.monitoringClient true true |}
       (mkNamespacedName "models" "mnist") (fake.world fake.emptyCluster)).1
    = Returned (Some fake.forbidden).
Proof.
  split; [reflexivity|].
  erewrite (monitoring_Reconcile_ends_with_create
              {| MonitoringReconciler.Client := fake.monitoringClient true true |}
              (mkNamespacedName "models" "mnist") (fake.world fake.emptyCluster) fake.ready);
    [reflexivity|reflexivity|reflexivity|vm_compute; reflexivity].
Defined.

(** A namespace that cannot be read. *)
Lemma monitoring_Reconcile_get_error_witness :
  MonitoringReconciler.Reconcile
    {| MonitoringReconciler.Client := fake.lostNamespace (fake.monitoringClient false false) |}
    (mkNamespacedName "models" "mnist") (fake.world fake.emptyCluster)
  = (Returned (Some fake.notFound),
     log_call (CallGetNamespace (mkNamespacedName "" "models")) (fake.world fake.emptyCluster)).
Proof.
  apply (proj1 (monitoring_Reconcile_get_error
                  {| MonitoringReconciler.Client :=
                       fake.lostNamespace (fake.monitoringClient false false) |}
                  (mkNamespacedName "models" "mnist") (fake.world fake.emptyCluster)
                  fake.notFound)).
  reflexivity.
Defined.

End pass_witnesses.
